(** * Survey recoder (src/etl.py) and analyzer (run_eda.py)

    A shallow embedding of the ETL pipeline that turns the raw survey export
    into the cleaned table, and of the hypothesis-testing script that reads
    the cleaned table.

    Conventions of the embedding:
    - a pandas DataFrame is an ordered list of named columns, a column a list
      of cells; a cell is a Python object as pandas holds it (missing, bool,
      int, float, text);
    - a float is a rational number [Q]: rounding error, infinities and the
      distinction between NaN and None are outside the model, every missing
      value is [NA];
    - text is a [string] of ASCII characters: [str.lower] and [str.strip] act
      on the ASCII letters and the ASCII white space;
    - exceptions are the [Err] outcome of a state-and-error monad whose state
      holds the warnings printed and the files written so far;
    - labels are meant to be distinct, as pandas makes them when it reads a
      file: [df[label]] is the first column of that name, where pandas gives
      a DataFrame for a label that renaming has made occur twice and the
      recoder's stages raise on it; the properties that say that a stage
      returns carry the hypothesis that the labels are distinct, and run_etl
      fails on a repeated label at its quality checks;
    - what the libraries compute and the repository only calls (pandas'
      numeric parser, Python's float printer, scipy's test statistics, numpy's
      random generator) is an interface the definitions are generic in. *)

From Stdlib Require Import Strings.String Strings.Ascii.
From Stdlib Require Import ZArith.ZArith QArith.QArith QArith.Qround QArith.Qabs Lia.
From stdpp Require Import base gmap strings list pretty.

Local Open Scope string_scope.
Local Open Scope Z_scope.

(** ** Python text operations *)

Module Py.

Definition is_upper (c : ascii) : bool :=
  let n := N_of_ascii c in ((65 <=? n) && (n <=? 90))%N.

Definition lower_char (c : ascii) : ascii :=
  if is_upper c then ascii_of_N (N_of_ascii c + 32) else c.

(** [s.lower()] *)
Fixpoint lower (s : string) : string :=
  match s with
  | EmptyString => EmptyString
  | String c s' => String (lower_char c) (lower s')
  end.

(** The characters [str.strip()] removes: tab to carriage return, the four
    separators 28..31 and the space. *)
Definition isspace (c : ascii) : bool :=
  let n := N_of_ascii c in
  (((9 <=? n) && (n <=? 13)) || ((28 <=? n) && (n <=? 32)))%N.

Fixpoint lstrip (s : string) : string :=
  match s with
  | EmptyString => EmptyString
  | String c s' => if isspace c then lstrip s' else s
  end.

Fixpoint rstrip (s : string) : string :=
  match s with
  | EmptyString => EmptyString
  | String c s' =>
      match rstrip s' with
      | EmptyString => if isspace c then EmptyString else String c EmptyString
      | r => String c r
      end
  end.

(** [s.strip()] *)
Definition strip (s : string) : string := rstrip (lstrip s).

Fixpoint startswith (s p : string) {struct p} : bool :=
  match p, s with
  | EmptyString, _ => true
  | String _ _, EmptyString => false
  | String a p', String b s' => bool_decide (a = b) && startswith s' p'
  end.

(** [sub in s] on two strings: [sub] occurs in [s] as a substring. *)
Fixpoint contains (sub s : string) : bool :=
  startswith s sub ||
  match s with
  | EmptyString => false
  | String _ s' => contains sub s'
  end.

(** [x in l] on a list of strings. *)
Definition elem (x : string) (l : list string) : bool := bool_decide (x ∈ l).

(** The string holds white space only. *)
Fixpoint all_space (s : string) : bool :=
  match s with
  | EmptyString => true
  | String c s' => isspace c && all_space s'
  end.

End Py.

(** ** Cells, columns and frames *)

(** A cell of a DataFrame. [NA] stands for NaN, None and pd.NA alike. *)
Inductive cell : Type :=
| NA
| Bool (b : bool)
| Int (z : Z)
| Float (q : Q)
| Str (s : string).

#[global] Instance cell_inhabited : Inhabited cell := populate NA.

(** Equality of cells as terms (the representation of a float included) is
    decidable. *)
#[global] Instance Q_eq_dec : EqDecision Q.
Proof. solve_decision. Defined.

#[global] Instance cell_eq_dec : EqDecision cell.
Proof. solve_decision. Defined.

(** [pd.isna(val)] *)
Definition isna (c : cell) : bool :=
  match c with NA => true | _ => false end.

Definition notna (c : cell) : bool := negb (isna c).

(** What pandas and Python compute on text and floats and the repository only
    calls: the numeric parser behind [pd.to_numeric(..., errors="coerce")] and
    the printer behind [str(x)] for a float. *)
Class PandasText : Type := {
  parse_number : string -> option Q;
  repr_float : Q -> string
}.

(** A concrete reading used to run the model on examples: optional sign and
    decimal digits parse to that integer, anything else is not a number; a
    float prints as its floor followed by [.0] when it is whole. *)
Definition digit_value (c : ascii) : option Z :=
  let n := N_of_ascii c in
  if ((48 <=? n) && (n <=? 57))%N then Some (Z.of_N n - 48) else None.

Fixpoint parse_digits (acc : Z) (s : string) : option Z :=
  match s with
  | EmptyString => Some acc
  | String c s' =>
      match digit_value c with
      | Some d => parse_digits (10 * acc + d) s'
      | None => None
      end
  end.

Definition parse_integer (s : string) : option Q :=
  match s with
  | EmptyString => None
  | String "-" (String c s') => (fun z => inject_Z (- z)) <$> parse_digits 0 (String c s')
  | _ => inject_Z <$> parse_digits 0 s
  end.

Definition plain_text : PandasText := {|
  parse_number := parse_integer;
  repr_float := fun q => pretty (Qfloor q) ++ ".0"
|}.

Section Frames.
Context `{PandasText}.

(** [str(val)] *)
Definition py_str (c : cell) : string :=
  match c with
  | NA => "nan"
  | Bool true => "True"
  | Bool false => "False"
  | Int z => pretty z
  | Float q => repr_float q
  | Str s => s
  end.

(** One element of [pd.to_numeric(col, errors="coerce")]: a float, or NaN
    ([None]) for a missing cell and for text that is no number. *)
Definition to_numeric (c : cell) : option Q :=
  match c with
  | NA => None
  | Bool b => Some (if b then 1%Q else 0%Q)
  | Int z => Some (inject_Z z)
  | Float q => Some q
  | Str s => parse_number s
  end.

End Frames.

(** A float64 element back as a cell. *)
Definition of_float (x : option Q) : cell :=
  match x with Some q => Float q | None => NA end.

(** A nullable-integer (Int64) element as a cell. *)
Definition of_Int64 (x : option Z) : cell :=
  match x with Some z => Int z | None => NA end.

Abbreviation column := (list cell).

(** A DataFrame: its columns in order, each with its label. *)
Abbreviation frame := (list (string * column)).

(** [df.columns] *)
Definition columns (df : frame) : list string := df.*1.

(** [df[name]] when the label exists. *)
Fixpoint get_col (name : string) (df : frame) : option column :=
  match df with
  | [] => None
  | (n, c) :: df' => if bool_decide (n = name) then Some c else get_col name df'
  end.

(** [df[name] = c]: replaces the column in place, or appends a new one. *)
Fixpoint set_col (name : string) (c : column) (df : frame) : frame :=
  match df with
  | [] => [(name, c)]
  | (n, c') :: df' =>
      if bool_decide (n = name) then (n, c) :: df' else (n, c') :: set_col name c df'
  end.

(** [df.drop(columns=[name])] *)
Definition drop_col (name : string) (df : frame) : frame :=
  filter (fun nc => nc.1 <> name) df.

(** [len(df)] *)
Definition nrows (df : frame) : nat :=
  match df with
  | [] => 0%nat
  | (_, c) :: _ => length c
  end.

(** Boolean-mask row selection [df[mask]]. *)
Fixpoint mask_column {A} (mask : list bool) (c : list A) : list A :=
  match mask, c with
  | b :: mask', x :: c' => if b then x :: mask_column mask' c' else mask_column mask' c'
  | _, _ => []
  end.

Definition mask_rows (mask : list bool) (df : frame) : frame :=
  (fun nc => (nc.1, mask_column mask nc.2)) <$> df.

(** [a == b] on two cells, as Python compares the objects: numbers by value,
    text by characters, a missing value equal to nothing but (for the purpose
    of [unique]) another missing value. *)
Definition cell_eqb (a b : cell) : bool :=
  match a, b with
  | NA, NA => true
  | Str s, Str t => bool_decide (s = t)
  | Bool x, Bool y => bool_decide (x = y)
  | Int x, Int y => bool_decide (x = y)
  | Float x, Float y => Qeq_bool x y
  | Int x, Float y | Float y, Int x => Qeq_bool (inject_Z x) y
  | _, _ => false
  end.

(** [col.unique()]: the distinct values in order of first appearance. *)
Fixpoint unique_from (seen : list cell) (l : list cell) : list cell :=
  match l with
  | [] => []
  | x :: l' =>
      if existsb (cell_eqb x) seen then unique_from seen l'
      else x :: unique_from (x :: seen) l'
  end.

Definition unique (l : list cell) : list cell := unique_from [] l.

(** ** Float helpers *)

Definition Qltb (a b : Q) : bool := negb (Qle_bool b a).

Definition qmin (a b : Q) : Q := if Qle_bool a b then a else b.
Definition qmax (a b : Q) : Q := if Qle_bool a b then b else a.

(** [col.min()] and [col.max()] of a float column: missing values are
    skipped, and the result is missing when nothing is present. *)
Definition col_min (l : list (option Q)) : option Q :=
  match omap id l with
  | [] => None
  | x :: xs => Some (foldl qmin x xs)
  end.

Definition col_max (l : list (option Q)) : option Q :=
  match omap id l with
  | [] => None
  | x :: xs => Some (foldl qmax x xs)
  end.

(** [int(x)]: truncation towards zero. *)
Definition py_int (q : Q) : Z :=
  if Qle_bool 0 q then Qfloor q else Qceiling q.

(** [x.round()]: to the nearest integer, a tie to the even one. *)
Definition round_half_even (q : Q) : Z :=
  let f := Qfloor q in
  let r := (q - inject_Z f)%Q in
  if Qltb r (1 # 2) then f
  else if Qltb (1 # 2) r then f + 1
  else if Z.even f then f else f + 1.

Definition is_whole (q : Q) : bool := Qeq_bool (inject_Z (Qfloor q)) q.

(** ** Errors, warnings and effects *)

(** The exceptions the recoder and the analyzer can end with. *)
Inductive error : Type :=
| FileNotFound (path : string)
    (* load_raw_data: FileNotFoundError *)
| MissingExpectedColumns (missing_cols : gset string)
    (* rename_columns: ValueError *)
| KeyError (label : string)
    (* df[label] on a label the frame does not have *)
| MissingLikertColumn (col : string)
    (* validate_likert_scales: ValueError *)
| LikertBelow1 (col : string) (min_val : Q)
    (* validate_likert_scales: ValueError, value below 1 *)
| LikertAbove5 (col : string) (max_val : Q)
    (* validate_likert_scales: ValueError, value above 5 *)
| UnsafeCast
    (* a float column that Int64 cannot hold exactly, for a fraction or a
       number beyond 64 bits: TypeError *)
| RepeatedLabel
    (* df[label] on a label the frame has twice is a DataFrame, and what the
       code does with it raises: ValueError *)
| ZeroDivision
    (* generate_etl_report on a table without rows: ZeroDivisionError *)
| KruskalError
    (* an exception raised inside scipy.stats.kruskal; its kind depends on
       the version of scipy *)
| EmptyBoxplot
    (* ax.boxplot([], tick_labels=[]): ValueError *)
| LikertAssertion (col : string).
    (* run_eda.py line 57: AssertionError *)

(** The range-validation failures, by the column their message names. *)
Definition range_error_names (e : error) (col : string) : Prop :=
  match e with
  | LikertBelow1 c _ | LikertAbove5 c _ => c = col
  | _ => False
  end.

Inductive warning : Type :=
| UnmappedTimeBands (labels : list cell)
    (* create_time_midpoint *)
| DuplicateRows (n : nat).
    (* run_quality_checks *)

(** What a run leaves in a file. *)
Inductive artifact : Type :=
| CleanCsv (table : frame)
| DataDictionary (cols : list string) (n_rows : nat)
| EtlReport (table : frame).

Record world : Type := World {
  printed : list warning;
  written : list (string * artifact)
}.

Definition fresh : world := World [] [].

Inductive result (A : Type) : Type :=
| Ok (a : A)
| Err (e : error).
Arguments Ok {A} a.
Arguments Err {A} e.

(** Computations over a state [S] that may raise. An exception keeps the
    state reached before it (what was printed and written stays). *)
Definition StateErr (S A : Type) : Type := S -> result A * S.

Definition ret {S A} (a : A) : StateErr S A := fun w => (Ok a, w).

Definition bind {S A B} (m : StateErr S A) (k : A -> StateErr S B) : StateErr S B :=
  fun w =>
    match m w with
    | (Ok a, w') => k a w'
    | (Err e, w') => (Err e, w')
    end.

Definition raise {S A} (e : error) : StateErr S A := fun w => (Err e, w).

(** The recoder's computations. *)
Abbreviation M := (StateErr world).

Definition warn (x : warning) : M unit :=
  fun w => (Ok tt, World (printed w ++ [x]) (written w)).

Definition write_file (path : string) (a : artifact) : M unit :=
  fun w => (Ok tt, World (printed w) (written w ++ [(path, a)])).

Declare Scope etl_scope.
Delimit Scope etl_scope with etl.
Notation "x <- m ;; k" := (bind m (fun x => k))
  (at level 100, m at next level, right associativity) : etl_scope.
Notation "m ;;; k" := (bind m (fun _ => k))
  (at level 100, right associativity) : etl_scope.
Local Open Scope etl_scope.

(** [df[label]], raising KeyError on an absent label; on a frame with
    distinct labels. *)
Definition col {S} (label : string) (df : frame) : StateErr S column :=
  match get_col label df with
  | Some c => ret c
  | None => raise (KeyError label)
  end.

(** A [for] loop threading a value through its body. *)
Fixpoint for_each {W A S} (l : list A) (body : A -> S -> StateErr W S) (s : S)
    : StateErr W S :=
  match l with
  | [] => ret s
  | x :: l' => s' <- body x s ;; for_each l' body s'
  end.

(** [df[labels]]: the listed columns in the order listed, raising KeyError on
    the first label the frame does not have. *)
Definition select_cols {S} (labels : list string) (df : frame) : StateErr S frame :=
  for_each labels (fun n acc => c <- col n df ;; ret (acc ++ [(n, c)])%list) [].

(** ** Configuration of the recoder (src/etl.py, lines 30-155) *)

Definition RAW_DATA_PATH : string := "data/raw/v1/smmh.csv".
Definition PROCESSED_DATA_PATH : string := "data/processed/v1/smmh_clean.csv".
Definition DATA_DICTIONARY_PATH : string := "docs/data_dictionary.md".
Definition ETL_REPORT_PATH : string := "reports/etl_report.md".

Definition COLUMN_ITEMS : list (string * string) := [
  ("Timestamp", "timestamp");
  ("1. What is your age?", "age");
  ("2. Gender", "gender_raw");
  ("3. Relationship Status", "relationship_status");
  ("4. Occupation Status", "occupation_status");
  ("5. What type of organizations are you affiliated with?", "org_affiliations_raw");
  ("6. Do you use social media?", "uses_social_media");
  ("7. What social media platforms do you commonly use?", "platforms_raw");
  ("8. What is the average time you spend on social media every day?", "daily_time_band");
  ("9. How often do you find yourself using Social media without a specific purpose?", "purposeless_use");
  ("10. How often do you get distracted by Social media when you are busy doing something?", "distracted_when_busy");
  ("11. Do you feel restless if you haven't used Social media in a while?", "restless_without_sm");
  ("12. On a scale of 1 to 5, how easily distracted are you?", "easily_distracted");
  ("13. On a scale of 1 to 5, how much are you bothered by worries?", "worries_bother");
  ("14. Do you find it difficult to concentrate on things?", "difficulty_concentrating");
  ("15. On a scale of 1-5, how often do you compare yourself to other successful people through the use of social media?", "compare_to_successful");
  ("16. Following the previous question, how do you feel about these comparisons, generally speaking?", "comparison_feelings");
  ("17. How often do you look to seek validation from features of social media?", "seek_validation");
  ("18. How often do you feel depressed or down?", "low_mood_freq");
  ("19. On a scale of 1 to 5, how frequently does your interest in daily activities fluctuate?", "interest_fluctuation");
  ("20. On a scale of 1 to 5, how often do you face issues regarding sleep?", "sleep_issues")
].

Definition COLUMN_MAPPING : gmap string string := list_to_map COLUMN_ITEMS.

Definition LIKERT_COLUMNS : list string := [
  "purposeless_use";
  "distracted_when_busy";
  "restless_without_sm";
  "easily_distracted";
  "worries_bother";
  "difficulty_concentrating";
  "compare_to_successful";
  "comparison_feelings";
  "seek_validation";
  "low_mood_freq";
  "interest_fluctuation";
  "sleep_issues"
].

Definition PLATFORMS : list string := [
  "Facebook";
  "Twitter";
  "Instagram";
  "YouTube";
  "Snapchat";
  "Discord";
  "Reddit";
  "Pinterest";
  "TikTok"
].

(** A dict iterated in insertion order: its items as a list. *)
Definition AFFILIATIONS : list (string * list string) := [
  ("university", ["University"]);
  ("school", ["School"]);
  ("company", ["Company"]);
  ("private", ["Private"]);
  ("government", ["Government"; "Goverment"]);
  ("na", ["N/A"; "NA"; ""])
].

Definition TIME_BAND_ITEMS : list (string * Q) := [
  ("Less than an Hour", 1 # 2);
  ("Between 1 and 2 hours", 3 # 2);
  ("Between 2 and 3 hours", 5 # 2);
  ("Between 3 and 4 hours", 7 # 2);
  ("Between 4 and 5 hours", 9 # 2);
  ("More than 5 hours", 11 # 2)
]%Q.

Definition TIME_BAND_MIDPOINTS : gmap string Q := list_to_map TIME_BAND_ITEMS.

Definition GENDER_ITEMS : list (string * string) := [
  ("male", "Male");
  ("m", "Male");
  ("man", "Male");
  ("female", "Female");
  ("f", "Female");
  ("woman", "Female");
  ("nonbinary", "Non-binary");
  ("non-binary", "Non-binary");
  ("non binary", "Non-binary");
  ("nb", "Non-binary");
  ("enby", "Non-binary");
  ("genderqueer", "Non-binary");
  ("genderfluid", "Non-binary");
  ("agender", "Non-binary");
  ("trans", "Trans");
  ("transgender", "Trans");
  ("trans male", "Trans");
  ("trans female", "Trans");
  ("trans man", "Trans");
  ("trans woman", "Trans");
  ("unsure", "Unsure");
  ("questioning", "Unsure");
  ("unknown", "Unsure");
  ("prefer not to say", "Prefer not to say");
  ("rather not say", "Prefer not to say");
  ("decline", "Prefer not to say")
].

Definition GENDER_NORMALISATION : gmap string string := list_to_map GENDER_ITEMS.

Definition GENDER_GROUPING : gmap string string := list_to_map [
  ("Male", "Male");
  ("Female", "Female");
  ("Non-binary", "Non-binary & Other");
  ("Trans", "Non-binary & Other");
  ("Unsure", "Non-binary & Other");
  ("Other", "Non-binary & Other");
  ("Prefer not to say", "Prefer not to say")
].

(** The values [gender_clean] can take (the data dictionary's list). *)
Definition GENDER_CATEGORIES : list string :=
  ["Male"; "Female"; "Non-binary"; "Trans"; "Unsure"; "Other"; "Prefer not to say"].

(** [col.map(d)] on one cell: the dict's value for a text key it has, missing
    otherwise. *)
Definition map_dict {V} (d : gmap string V) (c : cell) : option V :=
  match c with
  | Str s => d !! s
  | _ => None
  end.

(** ** The recoder's stages (src/etl.py, lines 163-397) *)

Section Recoder.
Context `{PandasText}.

(** load_raw_data: [source] is the table stored at the path, if any. *)
Definition load_raw_data (source : option frame) (filepath : string) : M frame :=
  match source with
  | None => raise (FileNotFound filepath)
  | Some df => ret df
  end.

(** rename_columns *)
Definition rename_columns (df : frame) : M frame :=
  let missing_cols : gset string := dom COLUMN_MAPPING ∖ list_to_set (columns df) in
  if bool_decide (missing_cols = ∅)
  then ret ((fun nc => (default nc.1 (COLUMN_MAPPING !! nc.1), nc.2)) <$> df)
  else raise (MissingExpectedColumns missing_cols).

(** drop_timestamp *)
Definition drop_timestamp (df : frame) : M frame :=
  if bool_decide ("timestamp" ∈ columns df)
  then ret (drop_col "timestamp" df)
  else ret df.

(** get_age_band, on an element of the float column *)
Definition get_age_band (age : option Q) : string :=
  match age with
  | None => "Unknown"
  | Some q =>
      let age := py_int q in
      if age <? 18 then "<18"
      else if age <=? 24 then "18-24"
      else if age <=? 34 then "25-34"
      else if age <=? 44 then "35-44"
      else "45+"
  end.

(** A whole number that a 64-bit integer holds. *)
Definition fits_int64 (z : Z) : bool := (- 2 ^ 63 <=? z) && (z <? 2 ^ 63).

(** [pd.array(col.round().values, dtype="Int64")] on a float column: refused
    when a rounded value is beyond 64 bits. *)
Definition round_Int64 (l : list (option Q)) : M column :=
  if forallb (fun x => match x with
                       | Some q => fits_int64 (round_half_even q)
                       | None => true
                       end) l
  then ret ((fun a => of_Int64 (round_half_even <$> a)) <$> l)
  else raise UnsafeCast.

(** clean_age *)
Definition clean_age (df : frame) : M frame :=
  raw <- col "age" df ;;
  let age := to_numeric <$> raw in
  let df := set_col "age" (of_float <$> age) df in
  let df := set_col "age_band" ((fun a => Str (get_age_band a)) <$> age) df in
  ints <- round_Int64 age ;;
  ret (set_col "age" ints df).

(** normalise_gender *)
Definition normalise_gender (val : cell) : string :=
  if isna val then "Prefer not to say"
  else
    let val_clean := Py.lower (Py.strip (py_str val)) in
    match GENDER_NORMALISATION !! val_clean with
    | Some g => g
    | None => "Other"
    end.

(** clean_gender *)
Definition clean_gender (df : frame) : M frame :=
  raw <- col "gender_raw" df ;;
  let df := set_col "gender_clean" ((fun v => Str (normalise_gender v)) <$> raw) df in
  clean <- col "gender_clean" df ;;
  let grouped := (fun c => from_option Str NA (map_dict GENDER_GROUPING c)) <$> clean in
  let df := set_col "gender_grouped" grouped df in
  ret (drop_col "gender_raw" df).

(** to_bool: [None] is Python's None, the third state. *)
Definition to_bool (val : cell) : option bool :=
  if isna val then None
  else
    let val_str := Py.lower (Py.strip (py_str val)) in
    if Py.elem val_str ["yes"; "y"; "true"; "1"] then Some true
    else if Py.elem val_str ["no"; "n"; "false"; "0"] then Some false
    else None.

Definition of_bool (x : option bool) : cell :=
  match x with Some b => Bool b | None => NA end.

(** clean_yes_no *)
Definition clean_yes_no (df : frame) : M frame :=
  raw <- col "uses_social_media" df ;;
  ret (set_col "uses_social_media" ((fun v => of_bool (to_bool v)) <$> raw) df).

(** has_platform *)
Definition has_platform (p : string) (val : cell) : Z :=
  if isna val then 0
  else if Py.contains (Py.lower p) (Py.lower (py_str val)) then 1 else 0.

Definition platform_col (p : string) : string := "platform_" ++ Py.lower p.

(** [cell] as the integer it holds, for sums over flag columns. *)
Definition cell_Z (c : cell) : Z :=
  match c with
  | Int z => z
  | Bool true => 1
  | _ => 0
  end.

(** [sub.sum(axis=1)]: per row of the frame [sub], the sum over its columns. *)
Definition sum_axis1 (sub : frame) : column :=
  (fun i => Int (foldr Z.add 0 ((fun nc => cell_Z (nc.2 !!! i)) <$> sub))) <$> seq 0 (nrows sub).

(** parse_platforms *)
Definition parse_platforms (df : frame) : M frame :=
  df <- for_each PLATFORMS (fun platform df =>
          raw <- col "platforms_raw" df ;;
          ret (set_col (platform_col platform) ((fun v => Int (has_platform platform v)) <$> raw) df))
        df ;;
  let platform_cols := platform_col <$> PLATFORMS in
  sub <- select_cols platform_cols df ;;
  ret (set_col "platform_count" (sum_axis1 sub) df).

(** has_affiliation *)
Definition has_affiliation (values : list string) (val : cell) : Z :=
  if isna val then (if Py.elem "" values then 1 else 0)
  else
    let val_str := Py.strip (py_str val) in
    if existsb (fun v => Py.contains (Py.lower v) (Py.lower val_str)) values then 1 else 0.

Definition affil_col (affil_key : string) : string := "affil_" ++ affil_key.

(** parse_affiliations *)
Definition parse_affiliations (df : frame) : M frame :=
  for_each AFFILIATIONS (fun item df =>
    let affil_key := item.1 in
    let affil_values := item.2 in
    raw <- col "org_affiliations_raw" df ;;
    ret (set_col (affil_col affil_key) ((fun v => Int (has_affiliation affil_values v)) <$> raw) df))
  df.

(** The midpoint column's element for one band cell. *)
Definition time_midpoint (band : cell) : option Q := map_dict TIME_BAND_MIDPOINTS band.

(** create_time_midpoint *)
Definition create_time_midpoint (df : frame) : M frame :=
  band <- col "daily_time_band" df ;;
  let df := set_col "daily_hours_midpoint" ((fun b => of_float (time_midpoint b)) <$> band) df in
  mid <- col "daily_hours_midpoint" df ;;
  band <- col "daily_time_band" df ;;
  let unmapped := unique (mask_column (zip_with (fun m b => isna m && notna b) mid band) band) in
  (if (0 <? length unmapped)%nat then warn (UnmappedTimeBands unmapped) else ret tt) ;;;
  ret df.

(** [col.astype("Int64")] on a float column: refused when a present value is
    not a whole number. *)
Definition astype_Int64 (l : list (option Q)) : M column :=
  if forallb (fun x => match x with Some q => is_whole q | None => true end) l
  then ret ((fun x => of_Int64 (Qfloor <$> x)) <$> l)
  else raise UnsafeCast.

(** The body of the loop of validate_likert_scales for one column. *)
Definition validate_likert_column (c : string) (df : frame) : M frame :=
  if negb (bool_decide (c ∈ columns df)) then raise (MissingLikertColumn c)
  else
    raw <- col c df ;;
    let nums := to_numeric <$> raw in
    let df := set_col c (of_float <$> nums) df in
    let min_val := col_min nums in
    let max_val := col_max nums in
    match min_val with
    | Some m => if Qltb m 1 then raise (LikertBelow1 c m) else ret tt
    | None => ret tt
    end ;;;
    match max_val with
    | Some m => if Qltb 5 m then raise (LikertAbove5 c m) else ret tt
    | None => ret tt
    end ;;;
    ints <- astype_Int64 nums ;;
    ret (set_col c ints df).

(** validate_likert_scales *)
Definition validate_likert_scales (df : frame) : M frame :=
  for_each LIKERT_COLUMNS validate_likert_column df.

(** [x == True] on one cell. *)
Definition eq_True (c : cell) : bool :=
  match c with
  | Bool b => b
  | Int z => bool_decide (z = 1)
  | Float q => Qeq_bool q 1
  | _ => false
  end.

(** create_analysis_flag *)
Definition create_analysis_flag (df : frame) : M frame :=
  uses <- col "uses_social_media" df ;;
  ret (set_col "include_in_analysis" ((fun c => Bool (eq_True c)) <$> uses) df).

(** reorder_columns *)
Definition reorder_columns (df : frame) : M frame :=
  let id_cols := ["age"; "age_band"; "gender_clean"; "gender_grouped"] in
  let demo_cols := ["relationship_status"; "occupation_status"] in
  let usage_cols := ["uses_social_media"; "daily_time_band"; "daily_hours_midpoint"] in
  let platform_cols := ((platform_col <$> PLATFORMS) ++ ["platform_count"])%list in
  let affil_cols := (fun kv => affil_col kv.1) <$> AFFILIATIONS in
  let behaviour_cols := [
    "purposeless_use"; "distracted_when_busy"; "restless_without_sm";
    "easily_distracted"; "worries_bother"; "difficulty_concentrating"] in
  let wellbeing_cols := [
    "compare_to_successful"; "comparison_feelings"; "seek_validation";
    "low_mood_freq"; "interest_fluctuation"; "sleep_issues"] in
  let raw_cols := ["platforms_raw"; "org_affiliations_raw"] in
  let flag_cols := ["include_in_analysis"] in
  let ordered_cols :=
    (id_cols ++ demo_cols ++ usage_cols ++ platform_cols ++ affil_cols ++
     behaviour_cols ++ wellbeing_cols ++ raw_cols ++ flag_cols)%list in
  let final_cols := filter (fun c => c ∈ columns df) ordered_cols in
  let remaining := filter (fun c => c ∉ final_cols) (columns df) in
  select_cols (final_cols ++ remaining)%list df.

(** The transform part of run_etl (lines 733-744). *)
Definition transform (df : frame) : M frame :=
  df <- rename_columns df ;;
  df <- drop_timestamp df ;;
  df <- clean_age df ;;
  df <- clean_gender df ;;
  df <- clean_yes_no df ;;
  df <- parse_platforms df ;;
  df <- parse_affiliations df ;;
  df <- create_time_midpoint df ;;
  df <- validate_likert_scales df ;;
  df <- create_analysis_flag df ;;
  reorder_columns df.

End Recoder.

(** ** The analyzer (run_eda.py) *)

(** What scipy and numpy compute and the script only calls: float64 numbers
    with the few operations the script applies to them, the two tests, and
    the global random generator. [kruskal_statistic] is what
    scipy.stats.kruskal does on two samples or more: the statistic and the
    p-value, or [None] when it raises (some versions refuse samples whose
    numbers are all identical). *)
Class Numerics : Type := {
  float64 : Type;
  spearmanr : list cell -> list cell -> float64 * float64;
  kruskal_statistic : list (list cell) -> option (float64 * float64);
  div_int : float64 -> Z -> float64;
  fabs : float64 -> float64;
  lt_const : float64 -> Q -> bool;
  rng : Type;
  seed : Z -> rng;
  uniform : Q -> Q -> nat -> rng -> list float64 * rng;
  add_noise : cell -> float64 -> float64
}.

(** A toy reading used to run the model on examples: the statistics are
    group and sample counts, the generator a counter. *)
Definition toy_numerics : Numerics := {|
  float64 := Q;
  spearmanr := fun a b => (inject_Z (Z.of_nat (length a)), 0%Q);
  kruskal_statistic := fun gs => Some (inject_Z (Z.of_nat (length gs)), 0%Q);
  div_int := fun x n => (x / inject_Z n)%Q;
  fabs := Qabs;
  lt_const := Qltb;
  rng := Z;
  seed := fun z => z;
  uniform := fun lo hi n g => (replicate n (inject_Z g), g + 1);
  add_noise := fun c x => x
|}.

Definition LIKERT_COLS : list string := [
  "purposeless_use"; "distracted_when_busy"; "restless_without_sm";
  "easily_distracted"; "worries_bother"; "difficulty_concentrating";
  "compare_to_successful"; "comparison_feelings"; "seek_validation";
  "low_mood_freq"; "interest_fluctuation"; "sleep_issues"].

Definition TIME_BAND_ORDER : list string := [
  "Less than an Hour"; "Between 1 and 2 hours"; "Between 2 and 3 hours";
  "Between 3 and 4 hours"; "Between 4 and 5 hours"; "More than 5 hours"].

(** An element of a numeric column read back from the cleaned table. *)
Definition cell_float (c : cell) : option Q :=
  match c with
  | Int z => Some (inject_Z z)
  | Float q => Some q
  | Bool b => Some (if b then 1%Q else 0%Q)
  | _ => None
  end.

(** One element of [pd.Categorical(col, categories=cats)]: a value that is
    no category becomes missing. *)
Definition as_categorical (cats : list string) (c : cell) : cell :=
  match c with
  | Str s => if bool_decide (s ∈ cats) then Str s else NA
  | _ => NA
  end.

(** [df[[a, b]].dropna()] as the mask of the rows it keeps. *)
Definition complete_pairs (a b : column) : list bool :=
  zip_with (fun x y => notna x && notna y) a b.

(** The values of [outcome] on the rows where [group] holds the label [k]. *)
Definition group_values (k : string) (group outcome : column) : column :=
  mask_column ((fun g => cell_eqb g (Str k)) <$> group) outcome.

(** [col.value_counts().get(k, 0)] *)
Definition value_count (k : string) (c : column) : nat :=
  length (filter (fun x => cell_eqb x (Str k) = true) c).

Section Analyzer.
Context `{Numerics}.

(** One row of the hypothesis results table. *)
Record HypothesisResult : Type := {
  hypothesis_id : string;
  outcome : string;
  predictor : string;
  test_used : string;
  n : nat;
  statistic : float64;
  p_value : float64;
  effect_size_name : string;
  effect_size_value : float64;
  interpretation : string;
  significant : bool
}.

(** What a test function returns (a dict in the script). *)
Record TestResult : Type := {
  t_n : nat;
  t_statistic : float64;
  t_p_value : float64;
  t_effect_size_name : string;
  t_effect_size_value : float64;
  t_interpretation : string
}.

(** A saved chart: the data drawn in it. *)
Inductive figure : Type :=
| Scatter (x y : list float64)
| BoxPlot (tick_labels : list string) (box_data : list column).

(** The files of one run of the script. *)
Inductive report : Type :=
| HypothesisResultsCsv (rows : list HypothesisResult)
| Png (fig : figure).

(** The script's state: numpy's global generator and the files saved. *)
Record session : Type := Session {
  np_random : rng;
  saved : list (string * report)
}.

Abbreviation E := (StateErr session).

Definition save (path : string) (r : report) : E unit :=
  fun s => (Ok tt, Session (np_random s) (saved s ++ [(path, r)])).

(** [np.random.seed(z)] *)
Definition np_random_seed (z : Z) : E unit :=
  fun s => (Ok tt, Session (seed z) (saved s)).

(** [np.random.uniform(lo, hi, size)] *)
Definition np_random_uniform (lo hi : Q) (size : nat) : E (list float64) :=
  fun s => let '(xs, g) := uniform lo hi size (np_random s) in
           (Ok xs, Session g (saved s)).

(** epsilon_squared *)
Definition epsilon_squared (h_stat : float64) (n : nat) (k : nat) : float64 :=
  div_int h_stat (Z.of_nat n - 1).

(** interpret_rho *)
Definition interpret_rho (rho : float64) : string :=
  if lt_const (fabs rho) (10 # 100) then "negligible"
  else if lt_const (fabs rho) (30 # 100) then "small"
  else if lt_const (fabs rho) (50 # 100) then "moderate"
  else "large".

(** interpret_epsilon *)
Definition interpret_epsilon (eps : float64) : string :=
  if lt_const eps (1 # 100) then "negligible"
  else if lt_const eps (6 # 100) then "small"
  else if lt_const eps (14 # 100) then "moderate"
  else "large".

(** run_spearman. With [v1 = v2] the frame [df[[v1, v2]]] has the label
    twice, [data[v1]] is a DataFrame and the call of scipy raises. *)
Definition run_spearman (df : frame) (v1 v2 : string) : E TestResult :=
  a <- col v1 df ;;
  b <- col v2 df ;;
  if bool_decide (v1 = v2) then raise RepeatedLabel else
  let keep := complete_pairs a b in
  let '(rho, p) := spearmanr (mask_column keep a) (mask_column keep b) in
  ret {| t_n := length (mask_column keep a);
         t_statistic := rho;
         t_p_value := p;
         t_effect_size_name := "Spearman rho";
         t_effect_size_value := rho;
         t_interpretation := interpret_rho rho |}.

(** [scipy.stats.kruskal] on the unpacked samples. On fewer than two samples
    every version of scipy raises (a ValueError that asks for two groups, or
    an IndexError from inside the computation); the script has no check of
    its own before the call. *)
Definition stats_kruskal (samples : list column) : E (float64 * float64) :=
  if (length samples <? 2)%nat then raise KruskalError
  else
    match kruskal_statistic samples with
    | Some hp => ret hp
    | None => raise KruskalError
    end.

(** The non-empty groups of [data.groupby(group, observed=True)] for a
    categorical [group] column with categories [cats], each as the values of
    [outcome] in it. *)
Definition kruskal_groups (cats : list string) (group outcome : column) : list column :=
  let keep := complete_pairs group outcome in
  let g := mask_column keep group in
  let o := mask_column keep outcome in
  filter (fun vals => (0 < length vals)%nat) ((fun k => group_values k g o) <$> cats).

(** run_kruskal. The grouping column is categorical; its categories, which
    pandas keeps in the column's dtype, are the argument [cats]. *)
Definition run_kruskal (cats : list string) (df : frame) (group outcome : string)
    : E TestResult :=
  g <- col group df ;;
  o <- col outcome df ;;
  let n_data := length (mask_column (complete_pairs g o) g) in
  let groups := kruskal_groups cats g o in
  hp <- stats_kruskal groups ;;
  let '(h, p) := hp in
  let eps := epsilon_squared h n_data (length groups) in
  ret {| t_n := n_data;
         t_statistic := h;
         t_p_value := p;
         t_effect_size_name := "epsilon_squared";
         t_effect_size_value := eps;
         t_interpretation := interpret_epsilon eps |}.

(** A results row from a test's outcome; [significant] is the column added
    to the results table (p_value < 0.05). *)
Definition result_row (id out pred test : string) (t : TestResult) : HypothesisResult :=
  {| hypothesis_id := id;
     outcome := out;
     predictor := pred;
     test_used := test;
     n := t_n t;
     statistic := t_statistic t;
     p_value := t_p_value t;
     effect_size_name := t_effect_size_name t;
     effect_size_value := t_effect_size_value t;
     interpretation := t_interpretation t;
     significant := lt_const (t_p_value t) (5 # 100) |}.

(** Lines 31-58: the rows to analyse, the time band as a categorical, and
    the assertion on the Likert columns. *)
Definition likert_in_range (c : column) : bool :=
  match col_min (cell_float <$> c), col_max (cell_float <$> c) with
  | Some lo, Some hi => Qle_bool 1 lo && Qle_bool hi 5
  | _, _ => false
  end.

Definition load_analysis_rows (df_full : frame) : E frame :=
  flag <- col "include_in_analysis" df_full ;;
  let df := mask_rows (eq_True <$> flag) df_full in
  band <- col "daily_time_band" df ;;
  let df := set_col "daily_time_band" (as_categorical TIME_BAND_ORDER <$> band) df in
  for_each LIKERT_COLS (fun c df =>
    x <- col c df ;;
    if likert_in_range x then ret df else raise (LikertAssertion c)) df.

(** Lines 87-116: the five hypotheses and the results table. *)
Definition hypothesis_testing (df : frame) : E (list HypothesisResult) :=
  h1 <- run_kruskal TIME_BAND_ORDER df "daily_time_band" "low_mood_freq" ;;
  h2 <- run_spearman df "purposeless_use" "low_mood_freq" ;;
  h3 <- run_spearman df "compare_to_successful" "low_mood_freq" ;;
  h4 <- run_spearman df "seek_validation" "low_mood_freq" ;;
  h5 <- run_spearman df "restless_without_sm" "sleep_issues" ;;
  let results := [
    result_row "H1" "low_mood_freq" "daily_time_band" "Kruskal-Wallis" h1;
    result_row "H2" "low_mood_freq" "purposeless_use" "Spearman" h2;
    result_row "H3" "low_mood_freq" "compare_to_successful" "Spearman" h3;
    result_row "H4" "low_mood_freq" "seek_validation" "Spearman" h4;
    result_row "H5" "sleep_issues" "restless_without_sm" "Spearman" h5] in
  save "reports/hypothesis_results.csv" (HypothesisResultsCsv results) ;;;
  ret results.

(** The scatter of two columns with uniform jitter on both (lines 179-181
    and 208-210); the other layers of the chart are not modelled. *)
Definition jitter_scatter (df : frame) (vx vy path : string) : E unit :=
  cx <- col vx df ;;
  nx <- np_random_uniform (-15 # 100) (15 # 100) (nrows df) ;;
  cy <- col vy df ;;
  ny <- np_random_uniform (-15 # 100) (15 # 100) (nrows df) ;;
  save path (Png (Scatter (zip_with add_noise cx nx) (zip_with add_noise cy ny))).

(** A segment plot (lines 218-236): of the listed subgroups, those with at
    least ten rows, each with the low-mood values present in it. When no
    subgroup has ten rows the list comprehension reads no column and
    [ax.boxplot([], tick_labels=[])] raises, before the file is saved. *)
Definition segment_plot (df : frame) (by_col : string) (candidates : list string)
    (path : string) : E unit :=
  groups <- col by_col df ;;
  let valid := filter (fun b => (10 <= value_count b groups)%nat) candidates in
  if bool_decide (valid = []) then raise EmptyBoxplot else
  mood <- col "low_mood_freq" df ;;
  let box_data := (fun b => filter (fun v => notna v = true) (group_values b groups mood)) <$> valid in
  save path (Png (BoxPlot valid box_data)).

(** Lines 176-236, the charts that use the random generator or report
    demographic segments. *)
Definition figures (df : frame) : E unit :=
  np_random_seed 42 ;;;
  jitter_scatter df "purposeless_use" "low_mood_freq" "reports/figures/h2_purposeless_vs_mood.png" ;;;
  jitter_scatter df "restless_without_sm" "sleep_issues" "reports/figures/h5_restless_vs_sleep.png" ;;;
  segment_plot df "age_band" ["<18"; "18-24"; "25-34"; "35-44"; "45+"]
    "reports/figures/segment_mood_by_age.png" ;;;
  segment_plot df "gender_grouped" ["Male"; "Female"]
    "reports/figures/segment_mood_by_gender.png".

(** The script, from the cleaned table as read back from its file. *)
Definition run_eda (df_full : frame) : E (list HypothesisResult) :=
  df <- load_analysis_rows df_full ;;
  results <- hypothesis_testing df ;;
  figures df ;;;
  ret results.

End Analyzer.

(** ** Quality checks (src/etl.py, lines 400-430) *)

(** [round(x, ndigits)] on a float: to the nearest multiple of 10^-ndigits,
    a tie to the even one. *)
Definition py_round (q : Q) (ndigits : nat) : Q :=
  (inject_Z (round_half_even (q * inject_Z (10 ^ Z.of_nat ndigits)))
   / inject_Z (10 ^ Z.of_nat ndigits))%Q.

(** [d[k] = v] on a dict, kept as the list of its items in insertion order. *)
Fixpoint dict_set {V} (k : string) (v : V) (d : list (string * V)) : list (string * V) :=
  match d with
  | [] => [(k, v)]
  | (k', v') :: d' =>
      if bool_decide (k' = k) then (k', v) :: d' else (k', v') :: dict_set k v d'
  end.

(** [col.isna().sum()] *)
Definition isna_sum (c : column) : nat := length (filter (fun x => isna x = true) c).

(** The rows of a frame. *)
Definition row (df : frame) (i : nat) : list cell := (fun nc : string * column => nc.2 !!! i) <$> df.

Definition rows (df : frame) : list (list cell) := row df <$> seq 0 (nrows df).

(** Two cells of one column hold the same value for [duplicated]: equal
    numbers (a bool counts as 0 or 1), equal texts, or two missing values. *)
Definition same_value (a b : cell) : bool :=
  match a, b with
  | NA, NA => true
  | Str s, Str t => bool_decide (s = t)
  | _, _ =>
      match cell_float a, cell_float b with
      | Some x, Some y => Qeq_bool x y
      | _, _ => false
      end
  end.

Definition same_row (r1 r2 : list cell) : bool :=
  bool_decide (length r1 = length r2) &&
  forallb (fun xy : cell * cell => same_value xy.1 xy.2) (zip r1 r2).

(** [df.duplicated()]: a row is marked when an earlier row holds the same
    values. *)
Fixpoint duplicated_from (seen rs : list (list cell)) : list bool :=
  match rs with
  | [] => []
  | r :: rs' => existsb (same_row r) seen :: duplicated_from (seen ++ [r]) rs'
  end.

Definition duplicated (df : frame) : list bool := duplicated_from [] (rows df).

Module Checks.

(** An entry of the [missingness] dict. *)
Record missing : Type := {
  count : nat;
  pct : Q
}.

(** The [checks] dict. *)
Record t : Type := {
  stage : string;
  row_count : nat;
  column_count : nat;
  duplicate_rows : nat;
  missingness : list (string * missing);
  columns : list string
}.

End Checks.

(** run_quality_checks; what it prints is not modelled. *)
Definition run_quality_checks (df : frame) (stage : string) : Checks.t :=
  let missingness :=
    foldl (fun acc col =>
             let missing := isna_sum (default [] (get_col col df)) in
             if (0 <? missing)%nat
             then dict_set col
                    {| Checks.count := missing;
                       Checks.pct := py_round (inject_Z (Z.of_nat missing)
                                               / inject_Z (Z.of_nat (nrows df)) * 100) 2 |}
                    acc
             else acc)
      [] (columns df) in
  {| Checks.stage := stage;
     Checks.row_count := nrows df;
     Checks.column_count := length (columns df);
     Checks.duplicate_rows := length (filter (fun b => b = true) (duplicated df));
     Checks.missingness := missingness;
     Checks.columns := columns df |}.

(** The missingness entries as run_quality_checks builds them on a frame
    with distinct labels: one per column that has a missing value, in the
    order of the columns. *)
Definition missing_entry (n : nat) (nc : string * column) : option (string * Checks.missing) :=
  if (0 <? isna_sum nc.2)%nat
  then Some (nc.1, {| Checks.count := isna_sum nc.2;
                      Checks.pct := py_round (inject_Z (Z.of_nat (isna_sum nc.2))
                                              / inject_Z (Z.of_nat n) * 100) 2 |})
  else None.

(** ** The data dictionary (src/etl.py, lines 483-581) *)

(** A dict literal or comprehension: a later item replaces an earlier one
    with the same key. *)
Definition dict_of {V} (items : list (string * V)) : gmap string V :=
  foldl (fun d kv => <[kv.1 := kv.2]> d) ∅ items.

(** The entries of [column_info] written out in the source: type, allowed
    values, description. *)
Definition COLUMN_INFO_ITEMS : list (string * (string * string * string)) := [
  ("age", ("numeric", "1-100+",
     "Respondent age in years"));
  ("age_band", ("categorical", "<18, 18-24, 25-34, 35-44, 45+, Unknown",
     "Age grouped into bands for privacy"));
  ("gender_clean", ("categorical", "Male, Female, Non-binary, Trans, Unsure, Other, Prefer not to say",
     "Standardised gender response"));
  ("gender_grouped", ("categorical", "Male, Female, Non-binary & Other, Prefer not to say",
     "Aggregated gender for small-group privacy"));
  ("relationship_status", ("categorical", "Single, In a relationship, Married, Divorced",
     "Relationship status"));
  ("occupation_status", ("categorical", "University Student, School Student, Salaried Worker, Retired",
     "Current occupation"));
  ("uses_social_media", ("boolean", "True, False",
     "Whether respondent uses social media"));
  ("daily_time_band", ("ordinal", "Less than an Hour to More than 5 hours",
     "Original time band response"));
  ("daily_hours_midpoint", ("numeric", "0.5-5.5",
     "Numeric midpoint of time band for analysis"));
  ("purposeless_use", ("ordinal", "1-5",
     "Frequency of using SM without specific purpose"));
  ("distracted_when_busy", ("ordinal", "1-5",
     "Frequency of SM distraction when busy"));
  ("restless_without_sm", ("ordinal", "1-5",
     "Restlessness when not using SM"));
  ("easily_distracted", ("ordinal", "1-5",
     "General distractibility (1=low, 5=high)"));
  ("worries_bother", ("ordinal", "1-5",
     "How much worries bother respondent"));
  ("difficulty_concentrating", ("ordinal", "1-5",
     "Difficulty concentrating on things"));
  ("compare_to_successful", ("ordinal", "1-5",
     "Frequency of comparing to successful people via SM"));
  ("comparison_feelings", ("ordinal", "1-5",
     "How comparisons make respondent feel"));
  ("seek_validation", ("ordinal", "1-5",
     "Frequency of seeking validation from SM"));
  ("low_mood_freq", ("ordinal", "1-5",
     "Frequency of feeling depressed or down"));
  ("interest_fluctuation", ("ordinal", "1-5",
     "How often interest in activities fluctuates"));
  ("sleep_issues", ("ordinal", "1-5",
     "Frequency of sleep issues"));
  ("platforms_raw", ("text", "Multi-select list",
     "Original platforms response (retained for reference)"));
  ("org_affiliations_raw", ("text", "Free text",
     "Original affiliation response (retained for reference)"));
  ("platform_count", ("numeric", "0-9",
     "Count of platforms used"));
  ("include_in_analysis", ("boolean", "True, False",
     "True if uses_social_media=True; default filter for Tableau"))
].

Definition affil_names : list (string * string) := [
  ("university", "University");
  ("school", "School");
  ("company", "Company");
  ("private", "Private organisation");
  ("government", "Government");
  ("na", "No affiliation / N/A")
].

(** [column_info] after the two loops that add the platform and the
    affiliation flags. *)
Definition column_info : gmap string (string * string * string) :=
  let column_info := dict_of COLUMN_INFO_ITEMS in
  let column_info :=
    foldl (fun d p =>
             <[platform_col p := ("boolean", "0, 1", "Uses " ++ p ++ " (derived from platforms_raw)")]> d)
      column_info PLATFORMS in
  foldl (fun d kn => <[affil_col kn.1 := ("boolean", "0, 1", "Affiliated with " ++ kn.2)]> d)
    column_info affil_names.

Definition reverse_mapping : gmap string string :=
  dict_of ((fun kv : string * string => (kv.2, kv.1)) <$> COLUMN_ITEMS).

(** [s.replace(old, new)] for a one-character [old]. *)
Fixpoint replace_char (old : ascii) (new s : string) : string :=
  match s with
  | EmptyString => EmptyString
  | String c s' =>
      if bool_decide (c = old) then new ++ replace_char old new s'
      else String c (replace_char old new s')
  end.

(** The dash that stands for an absent entry. *)
Definition EM_DASH : string := "—".

(** The last cell of a row: the survey question the column comes from, cut
    after 50 characters. *)
Definition original_column (col : string) : string :=
  let original := default EM_DASH (reverse_mapping !! col) in
  let original := if bool_decide (original = col) then EM_DASH else original in
  substring 0 50 original ++ (if (50 <? String.length original)%nat then "..." else "").

(** The row of the column reference for one column. *)
Definition dictionary_row (col : string) : string :=
  let '(dtype, values, desc) := default ("unknown", EM_DASH, EM_DASH) (column_info !! col) in
  let values := replace_char "|" "\|" values in
  "| `" ++ col ++ "` | " ++ dtype ++ " | " ++ values ++ " | " ++ desc ++ " | "
    ++ original_column col ++ " |".

(** The lines of the data dictionary for a table with the columns [cols] and
    [n_rows] rows, generated at the time [now]. *)
Definition data_dictionary_lines (now : string) (cols : list string) (n_rows : nat)
    : list string :=
  (["# Data Dictionary";
    "";
    "**Dataset:** smmh_clean.csv";
    ("**Generated:** " ++ now)%string;
    ("**Rows:** " ++ pretty n_rows)%string;
    ("**Columns:** " ++ pretty (length cols))%string;
    "";
    "## Column Reference";
    "";
    "| Cleaned Name | Type | Allowed Values | Description | Original Column |";
    "|--------------|------|----------------|-------------|-----------------|"] ++
   (dictionary_row <$> cols) ++
   ["";
    "## Notes";
    "";
    "- **Likert scales (1-5):** Higher values generally indicate higher frequency/intensity";
    "- **Privacy:** Timestamp dropped; age banded; gender grouped for small-n protection";
    "- **Analysis flag:** `include_in_analysis=True` filters to SM users only (default for dashboards)";
    "- **Platform/Affiliation flags:** Binary (0/1) derived from multi-select fields";
    ""])%list.

(** The text written to the file: the lines joined by line feeds. *)
Definition data_dictionary_text (now : string) (cols : list string) (n_rows : nat) : string :=
  String.concat (String (ascii_of_nat 10) "") (data_dictionary_lines now cols n_rows).

(** ** The run of the recoder (src/etl.py, lines 473-480, 584-704 and 712-761) *)

(** run_quality_checks as run_etl calls it. On a table with a repeated label
    [df[col]] is a DataFrame, [missing] a Series, and [if missing > 0] raises
    before anything is printed; otherwise it returns the dict modelled above
    and prints its warning when it has counted duplicate rows. *)
Definition quality_checks (df : frame) (stage : string) : M Checks.t :=
  if bool_decide (NoDup (columns df)) then
    let checks := run_quality_checks df stage in
    (if (0 <? Checks.duplicate_rows checks)%nat
     then warn (DuplicateRows (Checks.duplicate_rows checks))
     else ret tt) ;;;
    ret checks
  else raise RepeatedLabel.

(** save_processed_data *)
Definition save_processed_data (df : frame) (filepath : string) : M unit :=
  write_file filepath (CleanCsv df).

(** generate_data_dictionary: it reads the labels and the row count only;
    the text it writes is modelled above. *)
Definition generate_data_dictionary (df : frame) (filepath : string) : M unit :=
  write_file filepath (DataDictionary (columns df) (nrows df)).

(** [round(count / len(df_after) * 100, 1)] as far as it can fail: on a table
    without rows the count is the integer 0 and the division raises. *)
Definition percent_of_rows (df_after : frame) : M unit :=
  if (nrows df_after =? 0)%nat then raise ZeroDivision else ret tt.

(** generate_etl_report: the columns it reads and the percentages it takes,
    in the order of the code, then the file; the text rendered into the file
    is not modelled. The two loops over [value_counts()] divide only when the
    table has a row. *)
Definition generate_etl_report (df_after : frame) (checks_before checks_after : Checks.t)
    (filepath : string) : M unit :=
  gender_clean <- col "gender_clean" df_after ;;
  gender_grouped <- col "gender_grouped" df_after ;;
  for_each PLATFORMS (fun p (_ : unit) =>
    flags <- col (platform_col p) df_after ;;
    percent_of_rows df_after) tt ;;;
  uses_sm <- col "uses_social_media" df_after ;;
  percent_of_rows df_after ;;;
  included <- col "include_in_analysis" df_after ;;
  write_file filepath (EtlReport df_after).

Section Run.
Context `{PandasText}.

(** run_etl *)
Definition run_etl (source : option frame)
    (raw_path processed_path dict_path report_path : string) : M frame :=
  df <- load_raw_data source raw_path ;;
  checks_before <- quality_checks df "raw" ;;
  df <- transform df ;;
  checks_after <- quality_checks df "processed" ;;
  save_processed_data df processed_path ;;;
  generate_data_dictionary df dict_path ;;;
  generate_etl_report df checks_before checks_after report_path ;;;
  ret df.

End Run.

(** ** Example tables *)

(** A raw export with the expected headers, built from the cells of each
    field by its clean name. *)
Definition raw_table (cells : string -> column) : frame :=
  (fun kv => (kv.1, cells kv.2)) <$> COLUMN_ITEMS.

(** Three respondents: a user, a non-user, and one who left the usage and the
    platform questions blank and one Likert question unanswered. *)
Definition survey_cells (field : string) : column :=
  if bool_decide (field = "timestamp") then [Str "4/18/2022 19:18:47"; Str "4/18/2022 19:19:28"; Str "4/18/2022 19:25:59"]
  else if bool_decide (field = "age") then [Str "21"; Str "47"; Str "twenty"]
  else if bool_decide (field = "gender_raw") then [Str "Male"; Str " FEMALE "; Str "NB"]
  else if bool_decide (field = "relationship_status") then [Str "Single"; Str "Married"; Str "Single"]
  else if bool_decide (field = "occupation_status") then [Str "University Student"; Str "Salaried Worker"; Str "School Student"]
  else if bool_decide (field = "org_affiliations_raw") then [Str "University"; Str "Company, Private"; NA]
  else if bool_decide (field = "uses_social_media") then [Str "Yes"; Str "No"; NA]
  else if bool_decide (field = "platforms_raw") then [Str "Facebook, Twitter, Instagram, YouTube"; Str "facebook"; NA]
  else if bool_decide (field = "daily_time_band") then [Str "Between 2 and 3 hours"; Str "More than 5 hours"; Str "All day"]
  else if bool_decide (field = "sleep_issues") then [Float 5; Float 1; NA]
  else [Int 3; Int 2; Int 4].

Definition survey : frame := raw_table survey_cells.

(** The same export with a fraction in the first Likert column and a 6 in the
    last one. *)
Definition survey_fraction_then_six : frame :=
  raw_table (fun field =>
    if bool_decide (field = "purposeless_use") then [Float (7 # 2); Float 2; Float 4]
    else if bool_decide (field = "sleep_issues") then [Float 6; Float 1; NA]
    else survey_cells field).

(** The same export with a 6 in one Likert column and nothing else wrong. *)
Definition survey_six : frame :=
  raw_table (fun field =>
    if bool_decide (field = "low_mood_freq") then [Int 3; Int 6; Int 4]
    else survey_cells field).

(** The cleaned table of [survey]. *)
Definition survey_clean : frame :=
  Eval vm_compute in
    match @transform plain_text survey fresh with
    | (Ok df, _) => df
    | (Err _, _) => []
    end.


(** Thirteen analysed rows: ten aged 18-24 and three aged 45+, ten women
    and three men. *)
Definition segments_example : frame := [
  ("purposeless_use", replicate 13 (Int 3));
  ("low_mood_freq", (replicate 12 (Int 4) ++ [NA])%list);
  ("restless_without_sm", replicate 13 (Int 2));
  ("sleep_issues", replicate 13 (Int 1));
  ("age_band", (replicate 10 (Str "18-24") ++ replicate 3 (Str "45+"))%list);
  ("gender_grouped", (replicate 10 (Str "Female") ++ replicate 3 (Str "Male"))%list)
].

(** The same rows with nine women and four men. *)
Definition segments_few_women : frame :=
  set_col "gender_grouped" (replicate 9 (Str "Female") ++ replicate 4 (Str "Male"))%list
    segments_example.


(** A raw export that has the expected headers and no row. *)
Definition survey_without_rows : frame := raw_table (fun _ => []).

(** A table with a column the recoder does not know, out of order. *)
Definition shuffled_table : frame := [
  ("respondent_id", [Int 7; Int 8]);
  ("sleep_issues", [Int 2; Int 4]);
  ("age", [Int 30; Int 19])
].

(** Four respondents in two time bands, one without a band and one without
    an answer. *)
Definition two_bands : frame := [
  ("daily_time_band", [Str "More than 5 hours"; Str "Less than an Hour";
                       Str "More than 5 hours"; NA; Str "Less than an Hour"]);
  ("low_mood_freq", [Int 3; Int 4; NA; Int 2; Int 1])
].

(** A cleaned table in which nobody uses social media. *)
Definition no_users : frame := [
  ("include_in_analysis", [Bool false; Bool false]);
  ("daily_time_band", [Str "Less than an Hour"; NA]);
  ("purposeless_use", [Int 3; Int 1])
].

(** ** Vocabulary of the properties *)

(** The labels a stage may write or drop: outside [T] the two frames hold
    the same columns. *)
Definition agree_off (T : list string) (df df' : frame) : Prop :=
  forall X, X ∉ T -> get_col X df' = get_col X df.

(** The body of a loop that adds one flag column per item, each read off the
    raw column [R], and the frame such a loop returns. *)
Definition flag_body {W A} (name : A -> string) (f : A -> cell -> cell) (R : string)
    (x : A) (df : frame) : StateErr W frame :=
  raw <- col R df ;; ret (set_col (name x) (f x <$> raw) df).

Definition add_flags {A} (name : A -> string) (f : A -> cell -> cell)
    (raw : column) (df : frame) (l : list A) : frame :=
  foldl (fun df x => set_col (name x) (f x <$> raw) df) df l.

(** [rename_columns] without its check. *)
Definition rename_labels (df : frame) : frame :=
  (fun nc => (default nc.1 (COLUMN_MAPPING !! nc.1), nc.2)) <$> df.

(** A computation that writes no file and raises no range-validation error. *)
Definition tame {A} (m : M A) : Prop :=
  forall w, written (m w).2 = written w /\
            forall e, (m w).1 = Err e -> forall c, ~ range_error_names e c.

(** The labels the warning of create_time_midpoint lists. *)
Definition unmapped_bands (band : column) : list cell :=
  unique (mask_column
            (zip_with (fun m b => isna m && notna b)
               ((fun b => of_float (time_midpoint b)) <$> band) band)
            band).

Definition PLATFORM_LABELS : list string := ((platform_col <$> PLATFORMS) ++ ["platform_count"])%list.

Definition AFFILIATION_LABELS : list string := (fun item => affil_col item.1) <$> AFFILIATIONS.

(** The labels the stages before validation write or drop. *)
Definition RECODED : list string :=
  (["timestamp"] ++ ["age"; "age_band"] ++
   ["gender_clean"; "gender_grouped"; "gender_raw"] ++ ["uses_social_media"] ++
   PLATFORM_LABELS ++ AFFILIATION_LABELS ++ ["daily_hours_midpoint"])%list.

(** The columns generate_etl_report reads. *)
Definition REPORT_COLS : list string :=
  (["gender_clean"; "gender_grouped"] ++ (platform_col <$> PLATFORMS) ++
   ["uses_social_media"; "include_in_analysis"])%list.

(** A value outside the closed range from 1 to 5. *)
Definition out_of_range (q : Q) : Prop := (q < 1)%Q \/ (5 < q)%Q.

(** The first of two checks that reports an error. *)
Definition or_else (a b : option error) : option error :=
  match a with Some e => Some e | None => b end.

(** What the loop body decides for one column from its numbers: the error it
    raises, if any. *)
Definition likert_verdict (c : string) (nums : list (option Q)) : option error :=
  or_else
    match col_min nums with
    | Some m => if Qltb m 1 then Some (LikertBelow1 c m) else None
    | None => None
    end
    (or_else
       match col_max nums with
       | Some m => if Qltb 5 m then Some (LikertAbove5 c m) else None
       | None => None
       end
       (if forallb (fun x => match x with Some q => is_whole q | None => true end) nums
        then None else Some UnsafeCast)).

(** The column the loop body stores when it raises nothing. *)
Definition likert_stored (nums : list (option Q)) : column :=
  (fun x => of_Int64 (Qfloor <$> x)) <$> nums.

(** The frame has every label of the list. *)
Definition has (L : list string) (d : frame) : Prop :=
  forall X, X ∈ L -> is_Some (get_col X d).

(** The number of pairwise-complete rows whose group is [k]. *)
Definition group_size (k : string) (group outcome : column) : nat :=
  length (filter (fun xy : cell * cell => cell_eqb xy.1 (Str k) && notna xy.2 = true)
            (zip group outcome)).

Section Pipeline.
Context `{PandasText}.

(** The raw ages that clean_age can store: every one that is a number rounds
    to an integer of 64 bits. *)
Definition ages_fit (raw : column) : bool :=
  forallb (fun x => match x with
                    | Some q => fits_int64 (round_half_even q)
                    | None => true
                    end) (to_numeric <$> raw).

(** The stages before validation, and those from validation on. *)
Definition recode (df : frame) : M frame :=
  df <- rename_columns df ;;
  df <- drop_timestamp df ;;
  df <- clean_age df ;;
  df <- clean_gender df ;;
  df <- clean_yes_no df ;;
  df <- parse_platforms df ;;
  df <- parse_affiliations df ;;
  create_time_midpoint df.

Definition finish (df : frame) : M frame :=
  df <- validate_likert_scales df ;;
  df <- create_analysis_flag df ;;
  reorder_columns df.

End Pipeline.

Section RandomState.
Context `{Numerics}.

(** A computation that does not read or set the random generator: from two
    states that differ in the generator only it gives the same outcome and
    saves the same files. *)
Definition blind {A} (m : StateErr session A) : Prop :=
  forall g1 g2 files, exists r files',
    m (Session g1 files) = (r, Session g1 files') /\
    m (Session g2 files) = (r, Session g2 files').

(** Two runs from states that differ in the generator only end the same way
    and save the same files. *)
Definition same_run {A} (m : StateErr session A) (g1 g2 : rng) : Prop :=
  forall files,
    (m (Session g1 files)).1 = (m (Session g2 files)).1 /\
    saved (m (Session g1 files)).2 = saved (m (Session g2 files)).2.

End RandomState.

(** The order reorder_columns gives the columns it knows (lines 438-457). *)
Definition ORDERED_COLS : list string :=
  (["age"; "age_band"; "gender_clean"; "gender_grouped"] ++
   ["relationship_status"; "occupation_status"] ++
   ["uses_social_media"; "daily_time_band"; "daily_hours_midpoint"] ++
   ((platform_col <$> PLATFORMS) ++ ["platform_count"]) ++
   ((fun kv : string * list string => affil_col kv.1) <$> AFFILIATIONS) ++
   ["purposeless_use"; "distracted_when_busy"; "restless_without_sm";
    "easily_distracted"; "worries_bother"; "difficulty_concentrating"] ++
   ["compare_to_successful"; "comparison_feelings"; "seek_validation";
    "low_mood_freq"; "interest_fluctuation"; "sleep_issues"] ++
   ["platforms_raw"; "org_affiliations_raw"] ++
   ["include_in_analysis"])%list.

(** The frame [df[final_cols]] that reorder_columns returns. *)
Definition reordered (d : frame) : frame :=
  let final_cols := filter (fun c => c ∈ columns d) ORDERED_COLS in
  let remaining := filter (fun c => c ∉ final_cols) (columns d) in
  (fun X => (X, default [] (get_col X d))) <$> (final_cols ++ remaining)%list.

(** Every column of the frame has [n] rows. *)
Definition rectangular (n : nat) (df : frame) : Prop :=
  Forall (fun nc : string * column => length nc.2 = n) df.

(** The labels of [d'] are those of [d] without the labels [D], and the
    labels [W]. *)
Definition effect (W D : list string) (d d' : frame) : Prop :=
  forall X, X ∈ columns d' <-> X ∈ W \/ (X ∈ columns d /\ X ∉ D).

(** The columns the recoder computes, and those it removes. *)
Definition WRITTEN : list string :=
  (["age"; "age_band"; "gender_clean"; "gender_grouped"; "uses_social_media"] ++
   PLATFORM_LABELS ++ AFFILIATION_LABELS ++ ["daily_hours_midpoint"] ++
   LIKERT_COLUMNS ++ ["include_in_analysis"])%list.

Definition DROPPED : list string := ["timestamp"; "gender_raw"].

(** A column the recoder does not know: it is kept as it is, after the known
    ones. *)
Definition unknown_label (X : string) : Prop := X ∉ (ORDERED_COLS ++ DROPPED)%list.

#[global] Instance unknown_label_dec (X : string) : Decision (unknown_label X).
Proof. unfold unknown_label. apply _. Defined.

(** Errors that report an absent column or file. *)
Definition lookup_error (e : error) : Prop :=
  match e with
  | KeyError _ | MissingLikertColumn _ | FileNotFound _ => True
  | _ => False
  end.

(** A computation that writes no file. *)
Definition writes_nothing {A} (m : M A) : Prop :=
  forall w, written (m w).2 = written w.

(** What a stage does to a frame: the labels it adds and removes, the
    unknown labels and the row count it keeps. *)
Definition step (W D : list string) (d d' : frame) : Prop :=
  effect W D d d' /\
  filter unknown_label (columns d') = filter unknown_label (columns d) /\
  forall n, rectangular n d -> rectangular n d'.

(** A cell of a validated Likert column: missing, or an integer from 1 to 5. *)
Definition likert_cell (x : cell) : Prop :=
  x = NA \/ exists z, x = Int z /\ 1 <= z <= 5.

(** [missing_cols] of rename_columns: the expected headers the table lacks. *)
Definition missing_cols (df : frame) : gset string :=
  dom COLUMN_MAPPING ∖ list_to_set (columns df).

(** The values of [gender_grouped] (the data dictionary's list). *)
Definition GENDER_GROUPS : list string :=
  ["Male"; "Female"; "Non-binary & Other"; "Prefer not to say"].

(** A cell of a categorical column with the categories [cats]. *)
Definition categorical_cell (cats : list string) (c : cell) : Prop :=
  c = NA \/ exists k, c = Str k /\ k ∈ cats.

(** The rows the analyzer works on: those flagged for analysis, the time
    band as a categorical. *)
Definition analysis_rows (df_full : frame) (flag band : column) : frame :=
  set_col "daily_time_band"
    (as_categorical TIME_BAND_ORDER <$> mask_column (eq_True <$> flag) band)
    (mask_rows (eq_True <$> flag) df_full).

(** The assertion on one Likert column (run_eda.py, line 57). *)
Definition assert_likert {S} (c : string) (df : frame) : StateErr S frame :=
  x <- col c df ;;
  if likert_in_range x then ret df else raise (LikertAssertion c).

(** * Properties *)

(** ** Text *)

Lemma lower_char_idem (c : ascii) : Py.lower_char (Py.lower_char c) = Py.lower_char c.
Proof. by destruct c as [[] [] [] [] [] [] [] []]. Qed.

Lemma isspace_lower_char (c : ascii) : Py.isspace (Py.lower_char c) = Py.isspace c.
Proof. by destruct c as [[] [] [] [] [] [] [] []]. Qed.

Lemma lower_idem (s : string) : Py.lower (Py.lower s) = Py.lower s.
Proof. induction s as [|c s IH]; simpl; [done|]. by rewrite lower_char_idem, IH. Qed.

Lemma lstrip_lower (s : string) : Py.lstrip (Py.lower s) = Py.lower (Py.lstrip s).
Proof.
  induction s as [|c s IH]; simpl; [done|].
  rewrite isspace_lower_char. by destruct (Py.isspace c).
Qed.

Lemma rstrip_lower (s : string) : Py.rstrip (Py.lower s) = Py.lower (Py.rstrip s).
Proof.
  induction s as [|c s IH]; simpl; [done|].
  rewrite IH, isspace_lower_char.
  destruct (Py.rstrip s) as [|d r]; simpl; [|done].
  by destruct (Py.isspace c).
Qed.

(** Trimming and case folding commute. *)
Lemma strip_lower (s : string) : Py.strip (Py.lower s) = Py.lower (Py.strip s).
Proof. unfold Py.strip. by rewrite lstrip_lower, rstrip_lower. Qed.

Lemma lstrip_all_space (s : string) : Py.all_space s = true -> Py.lstrip s = "".
Proof.
  induction s as [|c s IH]; simpl; [done|].
  destruct (Py.isspace c); simpl; [done|discriminate].
Qed.

Lemma rstrip_all_space (s : string) : Py.all_space s = true -> Py.rstrip s = "".
Proof.
  induction s as [|c s IH]; simpl; [done|].
  destruct (Py.isspace c); simpl; [|discriminate].
  intros Hs. by rewrite IH.
Qed.

Lemma lstrip_app_l (a s : string) :
  Py.all_space a = true -> Py.lstrip (a ++ s) = Py.lstrip s.
Proof.
  induction a as [|c a IH]; simpl; [done|].
  destruct (Py.isspace c); simpl; [done|discriminate].
Qed.

Lemma rstrip_app_r (s b : string) :
  Py.all_space b = true -> Py.rstrip (s ++ b) = Py.rstrip s.
Proof.
  intros Hb. induction s as [|c s IH]; simpl.
  - by apply rstrip_all_space.
  - by rewrite IH.
Qed.

Lemma lstrip_app_r (s b : string) :
  Py.lstrip (s ++ b) = if Py.all_space s then Py.lstrip b else Py.lstrip s ++ b.
Proof.
  induction s as [|c s IH]; simpl; [done|].
  destruct (Py.isspace c); simpl; [done|done].
Qed.

(** White space around a text does not change what [strip] returns. *)
Lemma strip_padding (a s b : string) :
  Py.all_space a = true -> Py.all_space b = true ->
  Py.strip (a ++ s ++ b) = Py.strip s.
Proof.
  intros Ha Hb. unfold Py.strip.
  rewrite lstrip_app_l by done. rewrite lstrip_app_r.
  destruct (Py.all_space s) eqn:Hs.
  - rewrite (lstrip_all_space b Hb), (lstrip_all_space s Hs). done.
  - by apply rstrip_app_r.
Qed.

Lemma startswith_spec (s p : string) :
  Py.startswith s p = true <-> exists post, s = p ++ post.
Proof.
  revert s. induction p as [|a p IH]; intros s; simpl.
  - split; [|done]. by exists s.
  - destruct s as [|b s]; simpl.
    + split; [done|]. by intros [post ?].
    + rewrite andb_true_iff, bool_decide_eq_true, IH. split.
      * intros [-> [post ->]]. by exists post.
      * intros [post Heq]. injection Heq as -> ->. eauto.
Qed.

(** [sub in s] holds exactly when [s] is some text, then [sub], then some
    text. *)
Lemma contains_spec (sub s : string) :
  Py.contains sub s = true <-> exists pre post, s = pre ++ sub ++ post.
Proof.
  induction s as [|c s IH].
  - simpl. rewrite orb_false_r, startswith_spec. split.
    + intros [post Heq]. by exists "", post.
    + intros [pre [post Heq]]. destruct pre; [by exists post|done].
  - cbn [Py.contains]. rewrite orb_true_iff, startswith_spec, IH. split.
    + intros [[post Heq]|[pre [post Heq]]].
      * by exists "", post.
      * exists (String c pre), post. simpl. by rewrite Heq.
    + intros [pre [post Heq]]. destruct pre as [|d pre]; simpl in Heq.
      * left. by exists post.
      * right. injection Heq as -> ->. by exists pre, post.
Qed.

(** The empty text occurs in every text. *)
Lemma contains_empty (s : string) : Py.contains "" s = true.
Proof. by destruct s. Qed.

(** Deciding a closed proposition by evaluation. *)
Ltac by_compute := apply (bool_decide_unpack _); vm_compute; exact I.

(** ** Frames *)

Lemma get_set_eq (name : string) (c : column) (df : frame) :
  get_col name (set_col name c df) = Some c.
Proof.
  induction df as [|[n c'] df IH]; simpl.
  - by rewrite bool_decide_eq_true_2.
  - destruct (bool_decide (n = name)) eqn:E; simpl; rewrite E; done.
Qed.

Lemma get_set_ne (name other : string) (c : column) (df : frame) :
  name <> other -> get_col other (set_col name c df) = get_col other df.
Proof.
  intros Hne. induction df as [|[n c'] df IH]; simpl.
  - by rewrite bool_decide_eq_false_2.
  - destruct (bool_decide (n = name)) eqn:E; simpl.
    + apply bool_decide_eq_true in E as ->. by rewrite !bool_decide_eq_false_2.
    + by rewrite IH.
Qed.

Lemma get_drop_ne (name other : string) (df : frame) :
  name <> other -> get_col other (drop_col name df) = get_col other df.
Proof.
  intros Hne. unfold drop_col. induction df as [|[n c'] df IH]; [done|].
  rewrite filter_cons. simpl. destruct (decide (n <> name)) as [Hn|Hn]; simpl.
  - by rewrite IH.
  - apply dec_stable in Hn as ->. by rewrite bool_decide_eq_false_2.
Qed.

Lemma get_col_Some_columns (name : string) (df : frame) :
  is_Some (get_col name df) <-> name ∈ columns df.
Proof.
  unfold columns. induction df as [|[n c] df IH]; simpl.
  - split; [by intros [? ?]|by intros ?%elem_of_nil].
  - rewrite elem_of_cons. destruct (bool_decide (n = name)) eqn:E.
    + apply bool_decide_eq_true in E as ->. split; [by left|by eexists].
    + apply bool_decide_eq_false in E. rewrite IH. split; [by right|].
      by intros [?|?].
Qed.

Lemma agree_off_refl T df : agree_off T df df.
Proof. by intros X _. Qed.

Lemma agree_off_trans T df1 df2 df3 :
  agree_off T df1 df2 -> agree_off T df2 df3 -> agree_off T df1 df3.
Proof. intros H12 H23 X HX. by rewrite H23, H12. Qed.

Lemma agree_off_set T name c df : name ∈ T -> agree_off T df (set_col name c df).
Proof. intros Hin X HX. apply get_set_ne. by intros ->. Qed.

Lemma agree_off_drop T name df : name ∈ T -> agree_off T df (drop_col name df).
Proof. intros Hin X HX. apply get_drop_ne. by intros ->. Qed.

(** ** The monad *)

Lemma bind_Ok {S A B} (m : StateErr S A) (k : A -> StateErr S B) w a w1 :
  m w = (Ok a, w1) -> bind m k w = k a w1.
Proof. unfold bind. by intros ->. Qed.

Lemma bind_Err {S A B} (m : StateErr S A) (k : A -> StateErr S B) w e w1 :
  m w = (Err e, w1) -> bind m k w = (Err e, w1).
Proof. unfold bind. by intros ->. Qed.

Lemma bind_inv {S A B} (m : StateErr S A) (k : A -> StateErr S B) w b w' :
  bind m k w = (Ok b, w') -> exists a w1, m w = (Ok a, w1) /\ k a w1 = (Ok b, w').
Proof.
  unfold bind. destruct (m w) as [[a|e] w1]; [|done]. intros Hk. by exists a, w1.
Qed.

Lemma col_Some {S} (label : string) (df : frame) (c : column) (w : S) :
  get_col label df = Some c -> col label df w = (Ok c, w).
Proof. unfold col. by intros ->. Qed.

Lemma col_inv {S} (label : string) (df : frame) (c : column) (w w' : S) :
  col label df w = (Ok c, w') -> get_col label df = Some c /\ w' = w.
Proof.
  unfold col. destruct (get_col label df); [|done].
  unfold ret. by intros [= -> ->].
Qed.

Lemma ret_inv {S A} (a b : A) (w w' : S) : ret a w = (Ok b, w') -> b = a /\ w' = w.
Proof. unfold ret. by intros [= -> ->]. Qed.

(** The loops that add one flag column per item, each read off one raw
    column that the loop does not write. *)
Section FlagLoop.
Context {A : Type} (name : A -> string) (f : A -> cell -> cell) (R : string).

Lemma add_flags_cons raw df x l :
  add_flags name f raw df (x :: l)
  = add_flags name f raw (set_col (name x) (f x <$> raw) df) l.
Proof. done. Qed.

Lemma get_add_flags_notin raw df l X :
  X ∉ name <$> l -> get_col X (add_flags name f raw df l) = get_col X df.
Proof.
  revert df. induction l as [|x l IH]; intros df Hnot; [done|].
  rewrite fmap_cons, not_elem_of_cons in Hnot. destruct Hnot as [Hx Hl].
  rewrite add_flags_cons, IH by done. by apply get_set_ne.
Qed.

Lemma get_add_flags_in raw df l x :
  NoDup (name <$> l) -> x ∈ l ->
  get_col (name x) (add_flags name f raw df l) = Some (f x <$> raw).
Proof.
  revert df. induction l as [|y l IH]; intros df Hnd Hin; [by apply elem_of_nil in Hin|].
  rewrite fmap_cons in Hnd. apply NoDup_cons in Hnd as [Hy Hnd].
  rewrite add_flags_cons.
  destruct (decide (name x = name y)) as [Heq|Hne].
  - rewrite Heq in *. rewrite (get_add_flags_notin raw _ l (name y) Hy).
    rewrite get_set_eq. apply elem_of_cons in Hin as [->|Hin]; [done|].
    exfalso. apply Hy. rewrite <- Heq. by apply list_elem_of_fmap_2.
  - apply elem_of_cons in Hin as [->|Hin]; [done|]. by apply IH.
Qed.

Lemma flag_loop_run {W} raw df l (w : W) :
  get_col R df = Some raw -> R ∉ name <$> l ->
  for_each l (flag_body name f R) df w = (Ok (add_flags name f raw df l), w).
Proof.
  revert df. induction l as [|x l IH]; intros df Hraw Hnot; [done|].
  rewrite fmap_cons, not_elem_of_cons in Hnot. destruct Hnot as [Hx Hl].
  cbn [for_each]. unfold flag_body at 1.
  rewrite (bind_Ok _ _ _ _ _ (bind_Ok _ _ _ _ _ (col_Some R df raw w Hraw))).
  rewrite add_flags_cons. apply IH; [|done].
  rewrite get_set_ne by done. done.
Qed.

End FlagLoop.

Lemma select_cols_acc {S} (labels : list string) (df acc : frame) (w : S) :
  (forall X, X ∈ labels -> is_Some (get_col X df)) ->
  for_each labels (fun X acc => c <- col X df ;; ret (acc ++ [(X, c)])%list) acc w
  = (Ok (acc ++ ((fun X => (X, default [] (get_col X df))) <$> labels))%list, w).
Proof.
  revert acc. induction labels as [|X labels IH]; intros acc Hall; simpl.
  - by rewrite app_nil_r.
  - destruct (Hall X ltac:(by left)) as [c Hc].
    rewrite (bind_Ok _ _ _ _ _ (bind_Ok _ _ _ _ _ (col_Some X df c w Hc))).
    unfold ret at 1. rewrite IH by (intros Y HY; apply Hall; by right).
    rewrite Hc. simpl. by rewrite <- app_assoc.
Qed.

(** Selecting labels the frame has returns their columns, in that order. *)
Lemma select_cols_run {S} (labels : list string) (df : frame) (w : S) :
  (forall X, X ∈ labels -> is_Some (get_col X df)) ->
  select_cols labels df w = (Ok ((fun X => (X, default [] (get_col X df))) <$> labels), w).
Proof. intros Hall. unfold select_cols. by rewrite select_cols_acc. Qed.

Lemma get_col_select (labels : list string) (df : frame) (X : string) :
  X ∈ labels ->
  get_col X ((fun X => (X, default [] (get_col X df))) <$> labels) = Some (default [] (get_col X df)).
Proof.
  induction labels as [|Y labels IH]; intros Hin; [by apply elem_of_nil in Hin|].
  simpl. destruct (bool_decide (Y = X)) eqn:E.
  - by apply bool_decide_eq_true in E as ->.
  - apply bool_decide_eq_false in E. apply elem_of_cons in Hin as [->|Hin]; [done|auto].
Qed.

(** The row sums of a frame of integer flag columns computed from one raw
    column. *)
Lemma sum_axis1_flags {A} (name : A -> string) (g : A -> cell -> Z) (raw : column)
    (l : list A) :
  l <> [] ->
  sum_axis1 ((fun p => (name p, (fun v => Int (g p v)) <$> raw)) <$> l)
  = (fun v => Int (foldr Z.add 0 ((fun p => g p v) <$> l))) <$> raw.
Proof.
  intros Hl. unfold sum_axis1.
  assert (nrows ((fun p => (name p, (fun v => Int (g p v)) <$> raw)) <$> l) = length raw) as ->.
  { destruct l as [|p l]; [done|]. simpl. by rewrite length_fmap. }
  apply list_eq. intros i. rewrite !list_lookup_fmap.
  destruct (raw !! i) as [v|] eqn:Hi; simpl.
  - rewrite lookup_seq_lt by (by eapply lookup_lt_Some). simpl. do 2 f_equal.
    rewrite <- list_fmap_compose. f_equal. apply list_fmap_ext. intros _ p _. simpl.
    rewrite (list_lookup_total_correct _ i (Int (g p v))); [done|].
    by rewrite list_lookup_fmap, Hi.
  - rewrite lookup_seq_ge; [done|]. by apply lookup_ge_None.
Qed.

(** ** The recoder *)

Section RecoderProperties.
Context `{PandasText}.

(** *** What the stages leave alone *)

Lemma tame_ret {A} (a : A) : tame (ret a).
Proof. by intros w. Qed.

Lemma tame_raise {A} (e : error) : (forall c, ~ range_error_names e c) -> tame (@raise world A e).
Proof. intros He w. split; [done|]. by intros e' [= <-]. Qed.

Lemma tame_warn (x : warning) : tame (warn x).
Proof. by intros w. Qed.

Lemma tame_col (label : string) (df : frame) : tame (col label df).
Proof.
  intros w. unfold col. destruct (get_col label df); [done|].
  split; [done|]. intros e [= <-] c. cbn. tauto.
Qed.

Lemma tame_bind {A B} (m : M A) (k : A -> M B) :
  tame m -> (forall a, tame (k a)) -> tame (bind m k).
Proof.
  intros Hm Hk w. unfold bind. destruct (Hm w) as [Hw He].
  destruct (m w) as [[a|e] w1]; simpl in *.
  - destruct (Hk a w1) as [Hw1 He1]. split; [congruence|done].
  - split; [done|]. intros e' [= <-]. by apply He.
Qed.

Lemma tame_for_each {A S} (l : list A) (body : A -> S -> M S) (s : S) :
  (forall x s, tame (body x s)) -> tame (for_each l body s).
Proof.
  intros Hbody. revert s. induction l as [|x l IH]; intros s; simpl.
  - apply tame_ret.
  - apply tame_bind; [apply Hbody|apply IH].
Qed.

(** One step of a proof that monadic code is tame, read off its shape. *)
Ltac tame_step :=
  lazymatch goal with
  | |- tame (bind _ _) => apply tame_bind; [|intros ?]
  | |- tame (ret _) => apply tame_ret
  | |- tame (raise _) => apply tame_raise; intros ?; cbn; tauto
  | |- tame (warn _) => apply tame_warn
  | |- tame (col _ _) => apply tame_col
  | |- tame (for_each _ _ _) => apply tame_for_each; intros ? ?
  | |- tame (select_cols _ _) => apply tame_for_each; intros ? ?
  | |- tame (if ?b then _ else _) => destruct b
  | |- tame (match ?x with _ => _ end) => destruct x
  end.

Ltac tame := cbv zeta; repeat tame_step.

(** *** Affiliation flags *)

Lemma has_affiliation_na (val : cell) : has_affiliation ["N/A"; "NA"; ""] val = 1.
Proof.
  unfold has_affiliation. destruct (isna val); [done|].
  cbn [existsb]. change (Py.lower "") with "".
  by rewrite contains_empty, !orb_true_r.
Qed.

Lemma NoDup_affil_cols : NoDup ((fun item : string * list string => affil_col item.1) <$> AFFILIATIONS).
Proof. by_compute. Qed.

Lemma parse_affiliations_run (df : frame) (raw : column) (w : world) :
  get_col "org_affiliations_raw" df = Some raw ->
  parse_affiliations df w =
    (Ok (add_flags (fun item => affil_col item.1)
           (fun item v => Int (has_affiliation item.2 v)) raw df AFFILIATIONS), w).
Proof.
  intros Hraw. unfold parse_affiliations.
  apply (flag_loop_run (fun item : string * list string => affil_col item.1)
           (fun item v => Int (has_affiliation item.2 v)) "org_affiliations_raw");
    [done|].
  by_compute.
Qed.

Lemma parse_affiliations_needs_raw (df df' : frame) (w w' : world) :
  parse_affiliations df w = (Ok df', w') -> is_Some (get_col "org_affiliations_raw" df).
Proof.
  unfold parse_affiliations. cbn [for_each AFFILIATIONS]. intros Hrun.
  apply bind_inv in Hrun as (a & w1 & H1 & _).
  apply bind_inv in H1 as (raw & w2 & H1 & _).
  apply col_inv in H1 as [H1 _]. by eexists.
Qed.

(** C5. For every input row the flag [affil_na] is 1: a missing raw
    affiliation matches the bucket because the empty text is among its match
    values, and a present one because the empty text occurs in every text. *)
Theorem affil_na_always_one (df df' : frame) (w w' : world) :
  parse_affiliations df w = (Ok df', w') ->
  exists raw,
    get_col "org_affiliations_raw" df = Some raw /\
    get_col "affil_na" df' = Some (replicate (length raw) (Int 1)) /\
    (forall val, has_affiliation ["N/A"; "NA"; ""] val = 1) /\
    Py.elem "" ["N/A"; "NA"; ""] = true /\
    (forall text, Py.contains (Py.lower "") (Py.lower text) = true).
Proof.
  intros Hrun.
  destruct (parse_affiliations_needs_raw _ _ _ _ Hrun) as [raw Hraw].
  rewrite (parse_affiliations_run df raw w Hraw) in Hrun.
  injection Hrun as <- <-. exists raw. split; [done|]. split; [|split; [|split]].
  - refine (eq_trans (get_add_flags_in (fun item : string * list string => affil_col item.1)
               (fun item v => Int (has_affiliation item.2 v)) raw df AFFILIATIONS
               ("na", ["N/A"; "NA"; ""]) NoDup_affil_cols _) _).
    + by_compute.
    + f_equal. clear Hraw. induction raw as [|v raw IH]; [done|].
      cbn [fmap list_fmap length replicate snd]. rewrite has_affiliation_na. by f_equal.
  - apply has_affiliation_na.
  - done.
  - intros text. apply contains_empty.
Qed.

(** *** Platform flags *)

Lemma has_platform_01 (p : string) (val : cell) :
  has_platform p val = 1 \/ has_platform p val = 0.
Proof.
  unfold has_platform. destruct (isna val); [by right|].
  destruct (Py.contains _ _); [by left|by right].
Qed.

(** A flag is 1 exactly when the value is present and its text, case folded,
    holds the platform name, case folded. *)
Lemma has_platform_spec (p : string) (val : cell) :
  has_platform p val = 1 <->
  isna val = false /\ exists pre post, Py.lower (py_str val) = pre ++ Py.lower p ++ post.
Proof.
  unfold has_platform. destruct (isna val).
  - split; [done|]. by intros [? _].
  - rewrite <- contains_spec. destruct (Py.contains _ _); split; try done.
    by intros [_ ?].
Qed.

Lemma NoDup_platform_cols : NoDup (platform_col <$> PLATFORMS).
Proof. by_compute. Qed.

Lemma parse_platforms_needs_raw (df df' : frame) (w w' : world) :
  parse_platforms df w = (Ok df', w') -> is_Some (get_col "platforms_raw" df).
Proof.
  unfold parse_platforms. cbn [for_each PLATFORMS]. intros Hrun.
  apply bind_inv in Hrun as (a & w1 & H1 & _).
  apply bind_inv in H1 as (b & w2 & H1 & _).
  apply bind_inv in H1 as (raw & w3 & H1 & _).
  apply col_inv in H1 as [H1 _]. by eexists.
Qed.

(** What parse_platforms returns on a frame that has the raw column. *)
Lemma parse_platforms_run (df : frame) (raw : column) (w : world) :
  get_col "platforms_raw" df = Some raw ->
  parse_platforms df w =
    (Ok (set_col "platform_count"
           ((fun v => Int (foldr Z.add 0 ((fun p => has_platform p v) <$> PLATFORMS))) <$> raw)
           (add_flags platform_col (fun p v => Int (has_platform p v)) raw df PLATFORMS)), w).
Proof.
  intros Hraw. unfold parse_platforms.
  set (df1 := add_flags platform_col (fun p v => Int (has_platform p v)) raw df PLATFORMS).
  assert (Hflag : forall p, p ∈ PLATFORMS ->
            get_col (platform_col p) df1 = Some ((fun v => Int (has_platform p v)) <$> raw)).
  { intros p Hp. by apply (get_add_flags_in platform_col (fun p v => Int (has_platform p v)) raw df PLATFORMS p NoDup_platform_cols). }
  rewrite (bind_Ok _ _ _ df1 w).
  2:{ apply (flag_loop_run platform_col (fun p v => Int (has_platform p v)) "platforms_raw");
        [done|by_compute]. }
  assert (Hall : forall X, X ∈ platform_col <$> PLATFORMS -> is_Some (get_col X df1)).
  { intros X (p & -> & Hp)%list_elem_of_fmap_1. rewrite Hflag by done. by eexists. }
  rewrite (bind_Ok _ _ _ _ w (select_cols_run (platform_col <$> PLATFORMS) df1 w Hall)).
  unfold ret. do 3 f_equal.
  rewrite <- list_fmap_compose.
  rewrite <- (sum_axis1_flags platform_col has_platform raw PLATFORMS) by done.
  f_equal. apply list_fmap_ext. intros _ p Hp%list_elem_of_lookup_2. simpl.
  by rewrite Hflag.
Qed.

(** C8. After parse_platforms, [platform_count] is, row by row, the sum of
    the nine platform flags; each flag is 1 exactly when the raw text is
    present and holds the platform name up to case; a missing raw text has
    every flag 0 and the count 0. *)
Theorem platform_count_is_sum_of_flags (df df' : frame) (w w' : world) :
  parse_platforms df w = (Ok df', w') ->
  exists raw,
    get_col "platforms_raw" df = Some raw /\
    (forall p, p ∈ PLATFORMS ->
       get_col (platform_col p) df' = Some ((fun v => Int (has_platform p v)) <$> raw)) /\
    get_col "platform_count" df' =
      Some ((fun v => Int (foldr Z.add 0 ((fun p => has_platform p v) <$> PLATFORMS))) <$> raw) /\
    length PLATFORMS = 9%nat /\
    (forall p v, has_platform p v = 1 \/ has_platform p v = 0) /\
    (forall p v, has_platform p v = 1 <->
       isna v = false /\ exists pre post, Py.lower (py_str v) = pre ++ Py.lower p ++ post) /\
    (forall p, has_platform p NA = 0) /\
    foldr Z.add 0 ((fun p => has_platform p NA) <$> PLATFORMS) = 0.
Proof.
  intros Hrun.
  destruct (parse_platforms_needs_raw _ _ _ _ Hrun) as [raw Hraw].
  rewrite (parse_platforms_run df raw w Hraw) in Hrun.
  injection Hrun as <- <-. exists raw. split; [done|].
  split; [|split; [|split; [|split; [|split; [|split]]]]].
  - intros p Hp. rewrite get_set_ne.
    + by apply (get_add_flags_in platform_col (fun p v => Int (has_platform p v)) raw df PLATFORMS p NoDup_platform_cols).
    + revert p Hp. apply Forall_forall. by_compute.
  - apply get_set_eq.
  - done.
  - apply has_platform_01.
  - apply has_platform_spec.
  - done.
  - done.
Qed.

(** *** Gender *)

Lemma gender_values_closed (k g : string) :
  GENDER_NORMALISATION !! k = Some g -> g ∈ GENDER_CATEGORIES.
Proof.
  intros Hk. apply elem_of_list_to_map_2 in Hk.
  assert (HF : Forall (fun kg : string * string => kg.2 ∈ GENDER_CATEGORIES) GENDER_ITEMS)
    by by_compute.
  rewrite Forall_forall in HF. exact (HF (k, g) Hk).
Qed.

Lemma normalise_gender_closed (val : cell) : normalise_gender val ∈ GENDER_CATEGORIES.
Proof.
  unfold normalise_gender. destruct (isna val); [by_compute|].
  destruct (GENDER_NORMALISATION !! _) as [g|] eqn:Hk;
    [by eapply gender_values_closed|by_compute].
Qed.

Lemma normalise_gender_fixes_categories :
  Forall (fun g => normalise_gender (Str g) = g) GENDER_CATEGORIES.
Proof.
  repeat (apply List.Forall_cons; [vm_compute; reflexivity|]). apply List.Forall_nil.
Qed.

Lemma normalise_gender_text (s : string) :
  normalise_gender (Str s) = default "Other" (GENDER_NORMALISATION !! Py.lower (Py.strip s)).
Proof.
  unfold normalise_gender. cbn [isna py_str].
  by destruct (GENDER_NORMALISATION !! _).
Qed.

Lemma clean_gender_run (df : frame) (raw : column) (w : world) :
  get_col "gender_raw" df = Some raw ->
  clean_gender df w =
    (Ok (drop_col "gender_raw"
           (set_col "gender_grouped"
              ((fun c => from_option Str NA (map_dict GENDER_GROUPING c)) <$>
                 ((fun v => Str (normalise_gender v)) <$> raw))
              (set_col "gender_clean" ((fun v => Str (normalise_gender v)) <$> raw) df))), w).
Proof.
  intros Hraw. unfold clean_gender.
  rewrite (bind_Ok _ _ _ _ _ (col_Some _ _ _ w Hraw)).
  by rewrite (bind_Ok _ _ _ _ _ (col_Some _ _ _ w (get_set_eq _ _ _))).
Qed.

(** C6. Gender normalisation returns one of the seven categories and
    returns each category unchanged, so normalising twice is normalising
    once; it does not depend on letter case or on white space around the
    text; a present value the synonym table does not match becomes "Other",
    a missing one "Prefer not to say"; and on a frame with distinct labels
    the [gender_clean] column that clean_gender stores holds the category of
    the raw answer in every row. *)
Theorem gender_normalisation_idempotent :
  (forall val, normalise_gender (Str (normalise_gender val)) = normalise_gender val) /\
  Forall (fun g => normalise_gender (Str g) = g) GENDER_CATEGORIES /\
  (forall val, normalise_gender val ∈ GENDER_CATEGORIES) /\
  (forall s t, Py.lower s = Py.lower t ->
     normalise_gender (Str s) = normalise_gender (Str t)) /\
  (forall a s b, Py.all_space a = true -> Py.all_space b = true ->
     normalise_gender (Str (a ++ s ++ b)) = normalise_gender (Str s)) /\
  (forall val, isna val = false ->
     GENDER_NORMALISATION !! Py.lower (Py.strip (py_str val)) = None ->
     normalise_gender val = "Other") /\
  normalise_gender NA = "Prefer not to say" /\
  (forall df raw w, NoDup (columns df) -> get_col "gender_raw" df = Some raw ->
     exists df', clean_gender df w = (Ok df', w) /\
       get_col "gender_clean" df' = Some ((fun v => Str (normalise_gender v)) <$> raw)).
Proof.
  split; [|split; [|split; [|split; [|split; [|split; [|split]]]]]].
  - intros val. generalize (normalise_gender_closed val).
    generalize (normalise_gender val). apply Forall_forall, normalise_gender_fixes_categories.
  - apply normalise_gender_fixes_categories.
  - apply normalise_gender_closed.
  - intros s t Heq. rewrite !normalise_gender_text, <- !strip_lower. by rewrite Heq.
  - intros a s b Ha Hb. rewrite !normalise_gender_text. by rewrite strip_padding.
  - intros val Hna Hk. unfold normalise_gender. by rewrite Hna, Hk.
  - done.
  - intros df raw w _ Hraw. eexists. split; [by apply clean_gender_run|].
    rewrite get_drop_ne by done. rewrite get_set_ne by done. apply get_set_eq.
Qed.

(** *** Time bands *)

Lemma time_midpoint_known :
  Forall (fun kv : string * Q => time_midpoint (Str kv.1) = Some kv.2) TIME_BAND_ITEMS.
Proof.
  repeat (apply List.Forall_cons; [vm_compute; reflexivity|]). apply List.Forall_nil.
Qed.

Lemma time_midpoint_image (c : cell) (q : Q) :
  time_midpoint c = Some q -> q ∈ TIME_BAND_ITEMS.*2.
Proof.
  destruct c as [| | | |s]; try done. unfold time_midpoint, map_dict.
  intros Hk%elem_of_list_to_map_2. by apply (list_elem_of_fmap_2 snd) in Hk.
Qed.

Lemma time_midpoint_unknown (l : string) :
  l ∉ TIME_BAND_ITEMS.*1 -> time_midpoint (Str l) = None.
Proof. intros Hl. by apply not_elem_of_list_to_map_1. Qed.

Lemma create_time_midpoint_run (df : frame) (band : column) (w : world) :
  get_col "daily_time_band" df = Some band ->
  create_time_midpoint df w =
    (Ok (set_col "daily_hours_midpoint" ((fun b => of_float (time_midpoint b)) <$> band) df),
     if (0 <? length (unmapped_bands band))%nat
     then World (printed w ++ [UnmappedTimeBands (unmapped_bands band)]) (written w)
     else w).
Proof.
  intros Hband. unfold create_time_midpoint.
  rewrite (bind_Ok _ _ _ _ _ (col_Some _ _ _ w Hband)).
  rewrite (bind_Ok _ _ _ _ _ (col_Some _ _ _ w (get_set_eq _ _ _))).
  rewrite (bind_Ok _ _ _ band w).
  2:{ apply col_Some. by rewrite get_set_ne. }
  fold (unmapped_bands band). by destruct (0 <? length (unmapped_bands band))%nat.
Qed.

Lemma cell_eqb_refl (c : cell) : cell_eqb c c = true.
Proof.
  destruct c; simpl; try by apply bool_decide_eq_true_2.
  - done.
  - by apply Qeq_bool_iff.
Qed.

Lemma cell_eqb_Str (s : string) (c : cell) : cell_eqb (Str s) c = true -> c = Str s.
Proof. destruct c; simpl; try done. by intros ->%bool_decide_eq_true. Qed.

(** Every value of the list has an equal in [unique]. *)
Lemma unique_from_complete (seen l : list cell) (x : cell) :
  x ∈ l ->
  existsb (cell_eqb x) seen = true \/
  exists y, y ∈ unique_from seen l /\ cell_eqb x y = true.
Proof.
  revert seen. induction l as [|a l IH]; intros seen Hx; [by apply elem_of_nil in Hx|].
  cbn [unique_from]. destruct (existsb (cell_eqb a) seen) eqn:Ha.
  - apply elem_of_cons in Hx as [->|Hx]; [by left|by apply IH].
  - apply elem_of_cons in Hx as [->|Hx].
    + right. exists a. split; [by left|apply cell_eqb_refl].
    + destruct (IH (a :: seen) Hx) as [Hseen|(y & Hy & Hxy)].
      * cbn [existsb] in Hseen. apply orb_true_iff in Hseen as [Hxa|Hseen]; [|by left].
        right. exists a. split; [by left|done].
      * right. exists y. split; [by right|done].
Qed.

Lemma unique_text (l : list cell) (s : string) : Str s ∈ l -> Str s ∈ unique l.
Proof.
  intros Hs. destruct (unique_from_complete [] l (Str s) Hs) as [?|(y & Hy & Hxy)]; [done|].
  by apply cell_eqb_Str in Hxy as ->.
Qed.

Lemma mask_zip_filter {A B} (f : A -> B) (g : B -> A -> bool) (l : list A) :
  mask_column (zip_with g (f <$> l) l) l = filter (fun x => g (f x) x = true) l.
Proof.
  induction l as [|x l IH]; [done|].
  cbn [fmap list_fmap zip_with mask_column]. rewrite filter_cons.
  destruct (g (f x) x) eqn:E.
  - rewrite decide_True by done. f_equal. apply IH.
  - rewrite decide_False by done. apply IH.
Qed.

Lemma unmapped_bands_complete (band : column) (l : string) :
  Str l ∈ band -> l ∉ TIME_BAND_ITEMS.*1 -> Str l ∈ unmapped_bands band.
Proof.
  intros Hin Hl. unfold unmapped_bands. apply unique_text.
  rewrite (mask_zip_filter (fun b => of_float (time_midpoint b)) (fun m b => isna m && notna b)).
  apply list_elem_of_filter. split; [|done].
  by rewrite (time_midpoint_unknown l Hl).
Qed.

(** C7. The midpoint mapping is defined on the six known band labels, its
    values are exactly 0.5, 1.5, 2.5, 3.5, 4.5 and 5.5, and a label outside
    the known set has no midpoint; create_time_midpoint returns normally on
    every frame with distinct labels that has the band column, writes no
    file, stores the midpoint of a known band as a float, leaves the
    midpoint of an unknown label and of a missing band missing, and prints a
    warning that lists the unknown label. *)
Theorem time_midpoint_total_on_known_bands :
  length TIME_BAND_ITEMS = 6%nat /\
  Forall (fun kv : string * Q => time_midpoint (Str kv.1) = Some kv.2) TIME_BAND_ITEMS /\
  TIME_BAND_ITEMS.*2 = [1 # 2; 3 # 2; 5 # 2; 7 # 2; 9 # 2; 11 # 2]%Q /\
  (forall c q, time_midpoint c = Some q -> q ∈ TIME_BAND_ITEMS.*2) /\
  (forall l, l ∉ TIME_BAND_ITEMS.*1 -> time_midpoint (Str l) = None) /\
  Forall (fun kv : string * Q => of_float (time_midpoint (Str kv.1)) = Float kv.2)
    TIME_BAND_ITEMS /\
  of_float (time_midpoint NA) = NA /\
  (forall df band w, NoDup (columns df) -> get_col "daily_time_band" df = Some band ->
     exists df' w',
       create_time_midpoint df w = (Ok df', w') /\
       written w' = written w /\
       get_col "daily_hours_midpoint" df' = Some ((fun b => of_float (time_midpoint b)) <$> band) /\
       (forall l, Str l ∈ band -> l ∉ TIME_BAND_ITEMS.*1 ->
          of_float (time_midpoint (Str l)) = NA /\
          exists labels, printed w' = (printed w ++ [UnmappedTimeBands labels])%list /\
                         Str l ∈ labels)).
Proof.
  split; [done|]. split; [apply time_midpoint_known|]. split; [done|].
  split; [apply time_midpoint_image|]. split; [apply time_midpoint_unknown|].
  split.
  { eapply Forall_impl; [apply time_midpoint_known|]. by intros kv ->. }
  split; [done|].
  intros df band w _ Hband. eexists _, _.
  split; [by apply create_time_midpoint_run|].
  split; [by destruct (0 <? length (unmapped_bands band))%nat|].
  split; [apply get_set_eq|].
  intros l Hin Hl. split; [by rewrite time_midpoint_unknown|].
  pose proof (unmapped_bands_complete band l Hin Hl) as Hu.
  exists (unmapped_bands band). split; [|done].
  destruct (unmapped_bands band) as [|y u]; [by apply elem_of_nil in Hu|done].
Qed.

(** *** Age *)

Lemma clean_age_run (df : frame) (raw : column) (w : world) :
  get_col "age" df = Some raw -> ages_fit raw = true ->
  clean_age df w =
    (Ok (set_col "age" ((fun a => of_Int64 (round_half_even <$> a)) <$> (to_numeric <$> raw))
           (set_col "age_band" ((fun a => Str (get_age_band a)) <$> (to_numeric <$> raw))
              (set_col "age" (of_float <$> (to_numeric <$> raw)) df))), w).
Proof.
  intros Hraw Hfit. unfold clean_age.
  rewrite (bind_Ok _ _ _ _ _ (col_Some _ _ _ w Hraw)). cbv zeta.
  unfold bind, round_Int64. unfold ages_fit in Hfit. by rewrite Hfit.
Qed.

Lemma clean_age_overflow (df : frame) (raw : column) (w : world) :
  get_col "age" df = Some raw -> ages_fit raw = false ->
  clean_age df w = (Err UnsafeCast, w).
Proof.
  intros Hraw Hfit. unfold clean_age.
  rewrite (bind_Ok _ _ _ _ _ (col_Some _ _ _ w Hraw)). cbv zeta.
  unfold bind, round_Int64. unfold ages_fit in Hfit. by rewrite Hfit.
Qed.

Lemma clean_age_inv (df df' : frame) (w w' : world) :
  clean_age df w = (Ok df', w') ->
  exists raw, get_col "age" df = Some raw /\ ages_fit raw = true /\ w' = w /\
    df' = set_col "age" ((fun a => of_Int64 (round_half_even <$> a)) <$> (to_numeric <$> raw))
            (set_col "age_band" ((fun a => Str (get_age_band a)) <$> (to_numeric <$> raw))
               (set_col "age" (of_float <$> (to_numeric <$> raw)) df)).
Proof.
  intros Hrun. destruct (get_col "age" df) as [raw|] eqn:Hraw.
  - destruct (ages_fit raw) eqn:Hfit.
    + rewrite (clean_age_run df raw w Hraw Hfit) in Hrun. injection Hrun as <- <-.
      by exists raw.
    + by rewrite (clean_age_overflow df raw w Hraw Hfit) in Hrun.
  - unfold clean_age, bind, col in Hrun. by rewrite Hraw in Hrun.
Qed.

Lemma ages_fit_spec (raw : column) :
  ages_fit raw = true <->
  forall v q, v ∈ raw -> to_numeric v = Some q ->
    - 2 ^ 63 <= round_half_even q < 2 ^ 63.
Proof.
  unfold ages_fit. rewrite forallb_forall. split.
  - intros Hall v q Hv Hq.
    assert (Hin : In (Some q) (to_numeric <$> raw)).
    { apply list_elem_of_In, list_elem_of_fmap. exists v. by rewrite Hq. }
    apply Hall in Hin. unfold fits_int64 in Hin. lia.
  - intros Hall x Hx. destruct x as [q|]; [|done].
    apply list_elem_of_In, list_elem_of_fmap in Hx as (v & Hq & Hv).
    specialize (Hall v q Hv (eq_sym Hq)). unfold fits_int64. lia.
Qed.

Lemma get_age_band_number (q : Q) :
  get_age_band (Some q) ∈ ["<18"; "18-24"; "25-34"; "35-44"; "45+"].
Proof.
  unfold get_age_band. repeat case_match; by_compute.
Qed.

(** C4, as the code has it. clean_age applies no range check to an age. A
    raw age that is not a number is stored as a missing age with the band
    "Unknown". Every raw age that is a number is kept when clean_age returns,
    whatever its size or sign: the stored age is the number rounded to the
    nearest integer and the band is one of the five numeric bands. On a
    frame with distinct labels and an age column clean_age returns exactly
    when every rounded age fits 64 bits; an age beyond that is not made
    missing either, the conversion to Int64 raises. *)
Theorem clean_age_keeps_every_number :
  (forall df df' w w', clean_age df w = (Ok df', w') ->
     exists raw, get_col "age" df = Some raw /\ w' = w /\
       get_col "age" df' =
         Some ((fun v => of_Int64 (round_half_even <$> to_numeric v)) <$> raw) /\
       get_col "age_band" df' =
         Some ((fun v => Str (get_age_band (to_numeric v))) <$> raw)) /\
  (forall df raw w, NoDup (columns df) -> get_col "age" df = Some raw ->
     (ages_fit raw = true -> exists df', clean_age df w = (Ok df', w)) /\
     (ages_fit raw = false -> clean_age df w = (Err UnsafeCast, w))) /\
  (forall raw, ages_fit raw = true <->
     forall v q, v ∈ raw -> to_numeric v = Some q ->
       - 2 ^ 63 <= round_half_even q < 2 ^ 63) /\
  (forall v, to_numeric v = None ->
     of_Int64 (round_half_even <$> to_numeric v) = NA /\
     get_age_band (to_numeric v) = "Unknown") /\
  (forall v q, to_numeric v = Some q ->
     of_Int64 (round_half_even <$> to_numeric v) = Int (round_half_even q) /\
     get_age_band (to_numeric v) ∈ ["<18"; "18-24"; "25-34"; "35-44"; "45+"]).
Proof.
  split; [|split; [|split; [|split]]].
  - intros df df' w w' (raw & Hraw & _ & -> & ->)%clean_age_inv.
    exists raw. split; [done|]. split; [done|]. split.
    + rewrite get_set_eq. f_equal. by rewrite <- list_fmap_compose.
    + rewrite get_set_ne by done. rewrite get_set_eq. f_equal.
      by rewrite <- list_fmap_compose.
  - intros df raw w _ Hraw. split.
    + intros Hfit. eexists. by apply (clean_age_run df raw).
    + intros Hfit. by apply (clean_age_overflow df raw).
  - apply ages_fit_spec.
  - intros v ->. done.
  - intros v q ->. split; [done|apply get_age_band_number].
Qed.

(** *** The stages before validation *)

Lemma agree_off_add_flags {A} T (name : A -> string) f raw df (l : list A) :
  Forall (fun x => name x ∈ T) l -> agree_off T df (add_flags name f raw df l).
Proof.
  intros Hall X HX. apply get_add_flags_notin.
  intros (x & -> & Hx)%list_elem_of_fmap_1. rewrite Forall_forall in Hall. by apply HX, Hall.
Qed.

(** Peels the column assignments and drops off the frame on the right. *)
Ltac agree :=
  repeat lazymatch goal with
  | |- agree_off ?T ?d ?d => apply agree_off_refl
  | |- agree_off ?T ?d (set_col ?n ?c ?X) =>
      apply (agree_off_trans T d X); [|apply agree_off_set; by_compute]
  | |- agree_off ?T ?d (drop_col ?n ?X) =>
      apply (agree_off_trans T d X); [|apply agree_off_drop; by_compute]
  | |- agree_off ?T ?d (add_flags ?name ?f ?raw ?X ?l) =>
      apply (agree_off_trans T d X); [|apply agree_off_add_flags; by_compute]
  | |- agree_off ?T ?d (if ?b then _ else _) => destruct b
  end.

Lemma bind_col_needs {A} (R : string) (d : frame) (k : column -> M A) w r w' :
  bind (col R d) k w = (Ok r, w') -> is_Some (get_col R d).
Proof.
  intros (raw & w1 & H1 & _)%bind_inv. apply col_inv in H1 as [H1 _]. by eexists.
Qed.

Lemma rename_columns_inv (df d : frame) (w w' : world) :
  rename_columns df w = (Ok d, w') ->
  d = rename_labels df /\ w' = w /\ dom COLUMN_MAPPING ∖ list_to_set (columns df) =@{gset string} ∅.
Proof.
  unfold rename_columns. case_bool_decide as Hm; [|done].
  by intros [-> ->]%ret_inv.
Qed.

Lemma rename_columns_run (df : frame) (w : world) :
  dom COLUMN_MAPPING ∖ list_to_set (columns df) =@{gset string} ∅ ->
  rename_columns df w = (Ok (rename_labels df), w).
Proof. intros Hm. unfold rename_columns. by rewrite bool_decide_eq_true_2. Qed.

Lemma drop_timestamp_run (d : frame) (w : world) :
  drop_timestamp d w =
    (Ok (if bool_decide ("timestamp" ∈ columns d) then drop_col "timestamp" d else d), w).
Proof. unfold drop_timestamp. by destruct (bool_decide _). Qed.

Lemma drop_timestamp_agree (d d' : frame) (w w' : world) :
  drop_timestamp d w = (Ok d', w') -> agree_off ["timestamp"] d d' /\ w' = w.
Proof. rewrite drop_timestamp_run. intros [= <- <-]. split; [agree|done]. Qed.

Lemma clean_age_agree (d d' : frame) (w w' : world) :
  clean_age d w = (Ok d', w') -> agree_off ["age"; "age_band"] d d' /\ w' = w.
Proof.
  intros (raw & _ & _ & -> & ->)%clean_age_inv. split; [agree|done].
Qed.

Lemma clean_gender_agree (d d' : frame) (w w' : world) :
  clean_gender d w = (Ok d', w') ->
  agree_off ["gender_clean"; "gender_grouped"; "gender_raw"] d d' /\ w' = w.
Proof.
  intros Hrun. destruct (bind_col_needs _ _ _ _ _ _ Hrun) as [raw Hraw].
  rewrite (clean_gender_run d raw w Hraw) in Hrun. injection Hrun as <- <-.
  split; [agree|done].
Qed.

Lemma clean_yes_no_run (d : frame) (raw : column) (w : world) :
  get_col "uses_social_media" d = Some raw ->
  clean_yes_no d w =
    (Ok (set_col "uses_social_media" ((fun v => of_bool (to_bool v)) <$> raw) d), w).
Proof.
  intros Hraw. unfold clean_yes_no. by rewrite (bind_Ok _ _ _ _ _ (col_Some _ _ _ w Hraw)).
Qed.

Lemma clean_yes_no_inv (d d' : frame) (w w' : world) :
  clean_yes_no d w = (Ok d', w') ->
  exists raw, get_col "uses_social_media" d = Some raw /\
    d' = set_col "uses_social_media" ((fun v => of_bool (to_bool v)) <$> raw) d /\ w' = w.
Proof.
  intros Hrun. destruct (bind_col_needs _ _ _ _ _ _ Hrun) as [raw Hraw].
  rewrite (clean_yes_no_run d raw w Hraw) in Hrun. injection Hrun as <- <-. by exists raw.
Qed.

Lemma clean_yes_no_agree (d d' : frame) (w w' : world) :
  clean_yes_no d w = (Ok d', w') -> agree_off ["uses_social_media"] d d' /\ w' = w.
Proof. intros (raw & _ & -> & ->)%clean_yes_no_inv. split; [agree|done]. Qed.

Lemma parse_platforms_agree (d d' : frame) (w w' : world) :
  parse_platforms d w = (Ok d', w') -> agree_off PLATFORM_LABELS d d' /\ w' = w.
Proof.
  intros Hrun. destruct (parse_platforms_needs_raw _ _ _ _ Hrun) as [raw Hraw].
  rewrite (parse_platforms_run d raw w Hraw) in Hrun. injection Hrun as <- <-.
  split; [agree|done].
Qed.

Lemma parse_affiliations_agree (d d' : frame) (w w' : world) :
  parse_affiliations d w = (Ok d', w') -> agree_off AFFILIATION_LABELS d d' /\ w' = w.
Proof.
  intros Hrun. destruct (parse_affiliations_needs_raw _ _ _ _ Hrun) as [raw Hraw].
  rewrite (parse_affiliations_run d raw w Hraw) in Hrun. injection Hrun as <- <-.
  split; [agree|done].
Qed.

Lemma create_time_midpoint_agree (d d' : frame) (w w' : world) :
  create_time_midpoint d w = (Ok d', w') ->
  agree_off ["daily_hours_midpoint"] d d' /\ written w' = written w.
Proof.
  intros Hrun. destruct (bind_col_needs _ _ _ _ _ _ Hrun) as [band Hband].
  rewrite (create_time_midpoint_run d band w Hband) in Hrun. injection Hrun as <- <-.
  split; [agree|]. by destruct (0 <? _)%nat.
Qed.

Lemma create_analysis_flag_run (d : frame) (uses : column) (w : world) :
  get_col "uses_social_media" d = Some uses ->
  create_analysis_flag d w =
    (Ok (set_col "include_in_analysis" ((fun c => Bool (eq_True c)) <$> uses) d), w).
Proof.
  intros Huses. unfold create_analysis_flag.
  by rewrite (bind_Ok _ _ _ _ _ (col_Some _ _ _ w Huses)).
Qed.

Lemma create_analysis_flag_inv (d d' : frame) (w w' : world) :
  create_analysis_flag d w = (Ok d', w') ->
  exists uses, get_col "uses_social_media" d = Some uses /\
    d' = set_col "include_in_analysis" ((fun c => Bool (eq_True c)) <$> uses) d /\ w' = w.
Proof.
  intros Hrun. destruct (bind_col_needs _ _ _ _ _ _ Hrun) as [uses Huses].
  rewrite (create_analysis_flag_run d uses w Huses) in Hrun. injection Hrun as <- <-.
  by exists uses.
Qed.

Lemma select_all_columns {S} (ordered : list string) (d : frame) (w : S) :
  let final := filter (fun c => c ∈ columns d) ordered in
  let remaining := filter (fun c => c ∉ final) (columns d) in
  exists d', select_cols (final ++ remaining)%list d w = (Ok d', w) /\
             forall X, get_col X d' = get_col X d.
Proof.
  intros final remaining.
  assert (Hlab : forall X, X ∈ (final ++ remaining)%list <-> X ∈ columns d).
  { intros X. rewrite elem_of_app. unfold remaining.
    rewrite (list_elem_of_filter (fun c => c ∉ final)).
    assert (Hf : X ∈ final -> X ∈ columns d) by (by intros [? ?]%list_elem_of_filter).
    destruct (decide (X ∈ final)); tauto. }
  eexists. split.
  - apply select_cols_run. intros X HX. apply get_col_Some_columns. by apply Hlab.
  - intros X. destruct (decide (X ∈ columns d)) as [Hin|Hout].
    + rewrite get_col_select by (by apply Hlab).
      apply get_col_Some_columns in Hin as [c Hc]. by rewrite Hc.
    + destruct (get_col X d) as [c|] eqn:Hc.
      { exfalso. apply Hout, get_col_Some_columns. by eexists. }
      destruct (get_col X (_ <$> _)) as [c|] eqn:Hc'; [|done].
      exfalso. apply Hout, Hlab.
      assert (Hs : is_Some (get_col X ((fun X => (X, default [] (get_col X d))) <$>
                                          (final ++ remaining)%list))) by (by eexists).
      apply get_col_Some_columns in Hs. unfold columns in Hs.
      rewrite <- list_fmap_compose in Hs. by rewrite list_fmap_id in Hs.
Qed.

(** reorder_columns keeps every column, whatever the order it gives them. *)
Lemma reorder_columns_run (d : frame) (w : world) :
  exists d', reorder_columns d w = (Ok d', w) /\ forall X, get_col X d' = get_col X d.
Proof. unfold reorder_columns. apply select_all_columns. Qed.

Lemma tame_rename_columns df : tame (rename_columns df).
Proof. unfold rename_columns. tame. Qed.

Lemma tame_drop_timestamp d : tame (drop_timestamp d).
Proof. unfold drop_timestamp. tame. Qed.

Lemma tame_clean_age d : tame (clean_age d).
Proof. unfold clean_age, round_Int64. tame. Qed.

Lemma tame_clean_gender d : tame (clean_gender d).
Proof. unfold clean_gender. tame. Qed.

Lemma tame_clean_yes_no d : tame (clean_yes_no d).
Proof. unfold clean_yes_no. tame. Qed.

Lemma tame_parse_platforms d : tame (parse_platforms d).
Proof. unfold parse_platforms. tame. Qed.

Lemma tame_parse_affiliations d : tame (parse_affiliations d).
Proof. unfold parse_affiliations. tame. Qed.

Lemma tame_create_time_midpoint d : tame (create_time_midpoint d).
Proof. unfold create_time_midpoint. tame. Qed.

Lemma tame_create_analysis_flag d : tame (create_analysis_flag d).
Proof. unfold create_analysis_flag. tame. Qed.

Lemma tame_reorder_columns d : tame (reorder_columns d).
Proof. unfold reorder_columns. tame. Qed.

(** *** Validation of the Likert columns *)

Lemma Qltb_lt (a b : Q) : Qltb a b = true <-> (a < b)%Q.
Proof.
  unfold Qltb. rewrite negb_true_iff, <- not_true_iff_false, Qle_bool_iff.
  split; [apply Qnot_le_lt|apply Qlt_not_le].
Qed.

Lemma Qltb_ge (a b : Q) : Qltb a b = false <-> (b <= a)%Q.
Proof. unfold Qltb. by rewrite negb_false_iff, Qle_bool_iff. Qed.

Lemma qmin_spec (x y : Q) :
  (qmin x y = x \/ qmin x y = y) /\ (qmin x y <= x)%Q /\ (qmin x y <= y)%Q.
Proof.
  unfold qmin. destruct (Qle_bool x y) eqn:E.
  - apply Qle_bool_iff in E. split; [by left|]. split; [apply Qle_refl|done].
  - apply not_true_iff_false in E. rewrite Qle_bool_iff in E.
    apply Qnot_le_lt, Qlt_le_weak in E. split; [by right|]. split; [done|apply Qle_refl].
Qed.

Lemma qmax_spec (x y : Q) :
  (qmax x y = x \/ qmax x y = y) /\ (x <= qmax x y)%Q /\ (y <= qmax x y)%Q.
Proof.
  unfold qmax. destruct (Qle_bool x y) eqn:E.
  - apply Qle_bool_iff in E. split; [by right|]. split; [done|apply Qle_refl].
  - apply not_true_iff_false in E. rewrite Qle_bool_iff in E.
    apply Qnot_le_lt, Qlt_le_weak in E. split; [by left|]. split; [apply Qle_refl|done].
Qed.

Lemma foldl_qmin_spec (xs : list Q) (x : Q) :
  foldl qmin x xs ∈ x :: xs /\ forall q, q ∈ x :: xs -> (foldl qmin x xs <= q)%Q.
Proof.
  revert x. induction xs as [|y xs IH]; intros x; simpl.
  - split; [by left|]. intros q ->%list_elem_of_singleton. apply Qle_refl.
  - destruct (IH (qmin x y)) as [Hin Hle].
    destruct (qmin_spec x y) as (Hcase & Hx & Hy). split.
    + apply elem_of_cons in Hin as [->|Hin].
      * destruct Hcase as [->| ->]; [by left|by right; left].
      * by right; right.
    + intros q Hq. apply elem_of_cons in Hq as [->|Hq].
      * eapply Qle_trans; [apply Hle; by left|done].
      * apply elem_of_cons in Hq as [->|Hq].
        -- eapply Qle_trans; [apply Hle; by left|done].
        -- apply Hle. by right.
Qed.

Lemma foldl_qmax_spec (xs : list Q) (x : Q) :
  foldl qmax x xs ∈ x :: xs /\ forall q, q ∈ x :: xs -> (q <= foldl qmax x xs)%Q.
Proof.
  revert x. induction xs as [|y xs IH]; intros x; simpl.
  - split; [by left|]. intros q ->%list_elem_of_singleton. apply Qle_refl.
  - destruct (IH (qmax x y)) as [Hin Hle].
    destruct (qmax_spec x y) as (Hcase & Hx & Hy). split.
    + apply elem_of_cons in Hin as [->|Hin].
      * destruct Hcase as [->| ->]; [by left|by right; left].
      * by right; right.
    + intros q Hq. apply elem_of_cons in Hq as [->|Hq].
      * eapply Qle_trans; [done|apply Hle; by left].
      * apply elem_of_cons in Hq as [->|Hq].
        -- eapply Qle_trans; [done|apply Hle; by left].
        -- apply Hle. by right.
Qed.

Lemma present_omap (nums : list (option Q)) (q : Q) : q ∈ omap id nums <-> Some q ∈ nums.
Proof.
  rewrite list_elem_of_omap. split.
  - intros (x & Hx & Hid). unfold id in Hid. by subst.
  - intros Hq. by exists (Some q).
Qed.

(** The minimum of a float column is its least present value, and is missing
    exactly when nothing is present. *)
Lemma col_min_spec (nums : list (option Q)) :
  match col_min nums with
  | Some m => Some m ∈ nums /\ forall q, Some q ∈ nums -> (m <= q)%Q
  | None => forall q, Some q ∉ nums
  end.
Proof.
  unfold col_min. destruct (omap id nums) as [|x xs] eqn:E.
  - intros q Hq%present_omap. rewrite E in Hq. by apply elem_of_nil in Hq.
  - destruct (foldl_qmin_spec xs x) as [Hin Hle]. rewrite <- E in Hin, Hle. split.
    + by apply present_omap.
    + intros q Hq. by apply Hle, present_omap.
Qed.

Lemma col_max_spec (nums : list (option Q)) :
  match col_max nums with
  | Some m => Some m ∈ nums /\ forall q, Some q ∈ nums -> (q <= m)%Q
  | None => forall q, Some q ∉ nums
  end.
Proof.
  unfold col_max. destruct (omap id nums) as [|x xs] eqn:E.
  - intros q Hq%present_omap. rewrite E in Hq. by apply elem_of_nil in Hq.
  - destruct (foldl_qmax_spec xs x) as [Hin Hle]. rewrite <- E in Hin, Hle. split.
    + by apply present_omap.
    + intros q Hq. by apply Hle, present_omap.
Qed.

Lemma validate_likert_column_eq (c : string) (df : frame) (raw : column) (w : world) :
  get_col c df = Some raw ->
  validate_likert_column c df w =
    match likert_verdict c (to_numeric <$> raw) with
    | Some e => (Err e, w)
    | None => (Ok (set_col c (likert_stored (to_numeric <$> raw))
                     (set_col c (of_float <$> (to_numeric <$> raw)) df)), w)
    end.
Proof.
  intros Hraw. unfold validate_likert_column, likert_verdict.
  rewrite bool_decide_eq_true_2 by (apply get_col_Some_columns; by eexists).
  cbn [negb]. rewrite (bind_Ok _ _ _ _ _ (col_Some _ _ _ w Hraw)). cbv zeta.
  unfold astype_Int64, likert_stored.
  destruct (col_min (to_numeric <$> raw)) as [m|]; [destruct (Qltb m 1); [reflexivity|]|];
    (destruct (col_max (to_numeric <$> raw)) as [m'|]; [destruct (Qltb 5 m'); [reflexivity|]|]);
    destruct (forallb _ _); reflexivity.
Qed.

Lemma validate_likert_column_missing (c : string) (df : frame) (w : world) :
  get_col c df = None ->
  validate_likert_column c df w = (Err (MissingLikertColumn c), w).
Proof.
  intros Hnone. unfold validate_likert_column.
  rewrite bool_decide_eq_false_2; [done|].
  intros [x Hx]%get_col_Some_columns. congruence.
Qed.

(** A present value out of range makes the verdict a range error that names
    the column. *)
Lemma likert_verdict_out_of_range (c : string) (nums : list (option Q)) (q : Q) :
  Some q ∈ nums -> out_of_range q ->
  exists e, likert_verdict c nums = Some e /\ range_error_names e c.
Proof.
  intros Hq Hout. unfold likert_verdict.
  pose proof (col_min_spec nums) as Hmin. pose proof (col_max_spec nums) as Hmax.
  destruct (col_min nums) as [m|]; [|by destruct (Hmin q)].
  destruct (col_max nums) as [m'|]; [|by destruct (Hmax q)].
  destruct Hmin as [_ Hmin], Hmax as [_ Hmax].
  destruct (Qltb m 1) eqn:E1; [by eexists|].
  destruct (Qltb 5 m') eqn:E2; [by eexists|].
  exfalso. apply Qltb_ge in E1, E2. destruct Hout as [Hlt|Hgt].
  - apply (Qlt_not_le _ _ Hlt). eapply Qle_trans; [exact E1|by apply Hmin].
  - apply (Qlt_not_le _ _ Hgt). eapply Qle_trans; [by apply Hmax|exact E2].
Qed.

(** A range error comes from a present value out of range in the column it
    names. *)
Lemma likert_verdict_range_error (c c' : string) (nums : list (option Q)) (e : error) :
  likert_verdict c nums = Some e -> range_error_names e c' ->
  c' = c /\ exists q, Some q ∈ nums /\ out_of_range q.
Proof.
  unfold likert_verdict.
  pose proof (col_min_spec nums) as Hmin. pose proof (col_max_spec nums) as Hmax.
  destruct (col_min nums) as [m|].
  - destruct (Qltb m 1) eqn:E1.
    { intros [= <-] Hn. cbn in Hn. split; [done|]. exists m.
      split; [apply Hmin|left; by apply Qltb_lt]. }
    destruct (col_max nums) as [m'|]; [|destruct Hmin as [Hin _]; by destruct (Hmax m)].
    destruct (Qltb 5 m') eqn:E2.
    { intros [= <-] Hn. cbn in Hn. split; [done|]. exists m'.
      split; [apply Hmax|right; by apply Qltb_lt]. }
    destruct (forallb _ _); [done|]. by intros [= <-] Hn.
  - destruct (col_max nums) as [m'|].
    { destruct Hmax as [Hin _]. by destruct (Hmin m'). }
    destruct (forallb _ _); [done|]. by intros [= <-] Hn.
Qed.

(** No verdict: every present value is in range and whole. *)
Lemma likert_verdict_None (c : string) (nums : list (option Q)) :
  likert_verdict c nums = None <->
  forall q, Some q ∈ nums -> (1 <= q)%Q /\ (q <= 5)%Q /\ is_whole q = true.
Proof.
  split.
  - intros Hv q Hq. split; [|split].
    + apply Qnot_lt_le. intros Hlt.
      destruct (likert_verdict_out_of_range c nums q Hq (or_introl Hlt)) as (e & He & _).
      congruence.
    + apply Qnot_lt_le. intros Hgt.
      destruct (likert_verdict_out_of_range c nums q Hq (or_intror Hgt)) as (e & He & _).
      congruence.
    + unfold likert_verdict in Hv.
      destruct (forallb _ nums) eqn:Hall.
      * rewrite forallb_forall in Hall. apply (Hall (Some q)). by apply list_elem_of_In.
      * by destruct (match col_min nums with Some _ => _ | None => _ end),
                    (match col_max nums with Some _ => _ | None => _ end).
  - intros Hall. unfold likert_verdict.
    pose proof (col_min_spec nums) as Hmin. pose proof (col_max_spec nums) as Hmax.
    assert (Hw : forallb (fun x => match x with Some q => is_whole q | None => true end) nums = true).
    { apply forallb_forall. intros [q|] Hq%list_elem_of_In; [by apply Hall|done]. }
    rewrite Hw.
    destruct (col_min nums) as [m|].
    + destruct Hmin as [Hm _]. destruct (Hall m Hm) as (H1 & _ & _).
      apply Qltb_ge in H1. rewrite H1.
      destruct (col_max nums) as [m'|]; [|done].
      destruct Hmax as [Hm' _]. destruct (Hall m' Hm') as (_ & H5 & _).
      apply Qltb_ge in H5. by rewrite H5.
    + destruct (col_max nums) as [m'|]; [|done].
      destruct Hmax as [Hm' _]. destruct (Hall m' Hm') as (_ & H5 & _).
      apply Qltb_ge in H5. by rewrite H5.
Qed.

Lemma validate_body_inv (c : string) (df d1 : frame) (w w1 : world) :
  validate_likert_column c df w = (Ok d1, w1) ->
  exists raw, get_col c df = Some raw /\
    likert_verdict c (to_numeric <$> raw) = None /\
    d1 = set_col c (likert_stored (to_numeric <$> raw))
           (set_col c (of_float <$> (to_numeric <$> raw)) df) /\
    w1 = w.
Proof.
  destruct (get_col c df) as [raw|] eqn:Hraw.
  - rewrite (validate_likert_column_eq c df raw w Hraw).
    destruct (likert_verdict _ _) eqn:Hv; [done|]. intros [= <- <-]. by exists raw.
  - by rewrite validate_likert_column_missing.
Qed.

(** A run of the validation loop that returns: nothing was raised for any
    column, each column now holds its integers, and the rest of the frame is
    as it was. *)
Lemma validate_loop_inv (l : list string) (df df' : frame) (w w' : world) :
  NoDup l ->
  for_each l validate_likert_column df w = (Ok df', w') ->
  w' = w /\ agree_off l df df' /\
  forall c, c ∈ l -> exists raw,
    get_col c df = Some raw /\ likert_verdict c (to_numeric <$> raw) = None /\
    get_col c df' = Some (likert_stored (to_numeric <$> raw)).
Proof.
  revert df w. induction l as [|c0 l IH]; intros df w Hnd Hrun.
  - apply ret_inv in Hrun as [-> ->]. split; [done|]. split; [apply agree_off_refl|].
    by intros c ?%elem_of_nil.
  - apply NoDup_cons in Hnd as [Hc0 Hnd]. cbn [for_each] in Hrun.
    apply bind_inv in Hrun as (d1 & w1 & Hbody & Hrun).
    apply validate_body_inv in Hbody as (raw0 & Hraw0 & Hv0 & -> & ->).
    destruct (IH _ _ Hnd Hrun) as (-> & Hag & Hcols). split; [done|]. split.
    + intros X HX. apply not_elem_of_cons in HX as [HX0 HX].
      rewrite (Hag X HX). by rewrite !get_set_ne.
    + intros c [->|Hc]%elem_of_cons.
      * exists raw0. split; [done|]. split; [done|].
        rewrite (Hag c0 Hc0). apply get_set_eq.
      * destruct (Hcols c Hc) as (raw & Hraw & Hv & Hst). exists raw.
        split; [|done]. rewrite <- Hraw. symmetry.
        assert (c0 <> c) by (by intros ->). by rewrite !get_set_ne.
Qed.

(** A run of the validation loop that raises: the error is the verdict on a
    column as the loop found it, or reports the column absent. *)
Lemma validate_loop_err (l : list string) (df : frame) (w w' : world) (e : error) :
  NoDup l ->
  for_each l validate_likert_column df w = (Err e, w') ->
  w' = w /\ exists c, c ∈ l /\
    (get_col c df = None /\ e = MissingLikertColumn c \/
     exists raw, get_col c df = Some raw /\ likert_verdict c (to_numeric <$> raw) = Some e).
Proof.
  revert df w. induction l as [|c0 l IH]; intros df w Hnd Hrun; [done|].
  apply NoDup_cons in Hnd as [Hc0 Hnd]. cbn [for_each] in Hrun. unfold bind in Hrun.
  destruct (get_col c0 df) as [raw0|] eqn:Hraw0.
  - rewrite (validate_likert_column_eq c0 df raw0 w Hraw0) in Hrun.
    destruct (likert_verdict c0 _) as [e0|] eqn:Hv0.
    + injection Hrun as <- <-. split; [done|]. exists c0. split; [by left|]. right. by exists raw0.
    + destruct (IH _ _ Hnd Hrun) as (-> & c & Hc & Hcase). split; [done|].
      exists c. split; [by right|].
      assert (c0 <> c) by (by intros ->).
      by rewrite !get_set_ne in Hcase.
  - rewrite validate_likert_column_missing in Hrun by done. injection Hrun as <- <-.
    split; [done|]. exists c0. split; [by left|]. by left.
Qed.

(** The loop stops at the first column with a verdict, with that verdict. *)
Lemma validate_loop_first (l1 l2 : list string) (c : string) (df : frame) (raw : column)
    (w : world) (e : error) :
  NoDup (l1 ++ c :: l2) ->
  (forall c', c' ∈ l1 -> exists raw',
     get_col c' df = Some raw' /\ likert_verdict c' (to_numeric <$> raw') = None) ->
  get_col c df = Some raw -> likert_verdict c (to_numeric <$> raw) = Some e ->
  for_each (l1 ++ c :: l2) validate_likert_column df w = (Err e, w).
Proof.
  revert df. induction l1 as [|c0 l1 IH]; intros df Hnd Hbefore Hraw Hv.
  - cbn [app for_each]. unfold bind.
    by rewrite (validate_likert_column_eq c df raw w Hraw), Hv.
  - rewrite <- app_comm_cons in Hnd. apply NoDup_cons in Hnd as [Hc0 Hnd].
    destruct (Hbefore c0 ltac:(by left)) as (raw0 & Hraw0 & Hv0).
    rewrite <- app_comm_cons. cbn [for_each]. unfold bind.
    rewrite (validate_likert_column_eq c0 df raw0 w Hraw0), Hv0.
    apply IH; [done| | |done].
    + intros c' Hc'. destruct (Hbefore c' ltac:(by right)) as (raw' & Hraw' & Hv').
      exists raw'. split; [|done].
      assert (c0 <> c') by (intros ->; apply Hc0, elem_of_app; by left).
      by rewrite !get_set_ne.
    + assert (c0 <> c) by (intros ->; apply Hc0, elem_of_app; right; by left).
      by rewrite !get_set_ne.
Qed.

Lemma NoDup_LIKERT_COLUMNS : NoDup LIKERT_COLUMNS.
Proof. by_compute. Qed.

Lemma validate_likert_scales_world (d : frame) (w w' : world) r :
  validate_likert_scales d w = (r, w') -> w' = w.
Proof.
  unfold validate_likert_scales. intros Hrun. destruct r as [d'|e].
  - by apply (validate_loop_inv _ _ _ _ _ NoDup_LIKERT_COLUMNS) in Hrun as (-> & _).
  - by apply (validate_loop_err _ _ _ _ _ NoDup_LIKERT_COLUMNS) in Hrun as (-> & _).
Qed.

(** *** The pipeline *)

Lemma transform_split (df : frame) (w : world) :
  transform df w = bind (recode df) finish w.
Proof.
  unfold transform, recode, finish, bind.
  repeat match goal with
  | |- context [match ?m ?x with _ => _ end] =>
      lazymatch m with
      | rename_columns _ => idtac | drop_timestamp _ => idtac | clean_age _ => idtac
      | clean_gender _ => idtac | clean_yes_no _ => idtac | parse_platforms _ => idtac
      | parse_affiliations _ => idtac | create_time_midpoint _ => idtac
      end;
      destruct (m x) as [[?|?] ?]; [|reflexivity]
  end.
  reflexivity.
Qed.

Lemma tame_recode (df : frame) : tame (recode df).
Proof.
  unfold recode.
  apply tame_bind; [apply tame_rename_columns|intros ?].
  apply tame_bind; [apply tame_drop_timestamp|intros ?].
  apply tame_bind; [apply tame_clean_age|intros ?].
  apply tame_bind; [apply tame_clean_gender|intros ?].
  apply tame_bind; [apply tame_clean_yes_no|intros ?].
  apply tame_bind; [apply tame_parse_platforms|intros ?].
  apply tame_bind; [apply tame_parse_affiliations|intros ?].
  apply tame_create_time_midpoint.
Qed.

(** A run of the stages before validation that returns. *)
Lemma recode_inv (df d8 : frame) (w w8 : world) :
  recode df w = (Ok d8, w8) ->
  dom COLUMN_MAPPING ∖ list_to_set (columns df) =@{gset string} ∅ /\
  written w8 = written w /\
  (forall X, X ∉ RECODED -> get_col X d8 = get_col X (rename_labels df)) /\
  exists raw_uses,
    get_col "uses_social_media" (rename_labels df) = Some raw_uses /\
    get_col "uses_social_media" d8 = Some ((fun v => of_bool (to_bool v)) <$> raw_uses).
Proof.
  unfold recode. intros Hrun.
  apply bind_inv in Hrun as (d1 & w1 & H1 & Hrun).
  apply bind_inv in Hrun as (d2 & w2 & H2 & Hrun).
  apply bind_inv in Hrun as (d3 & w3 & H3 & Hrun).
  apply bind_inv in Hrun as (d4 & w4 & H4 & Hrun).
  apply bind_inv in Hrun as (d5 & w5 & H5 & Hrun).
  apply bind_inv in Hrun as (d6 & w6 & H6 & Hrun).
  apply bind_inv in Hrun as (d7 & w7 & H7 & H8).
  apply rename_columns_inv in H1 as (-> & -> & Hmissing).
  apply drop_timestamp_agree in H2 as [A2 ->].
  apply clean_age_agree in H3 as [A3 ->].
  apply clean_gender_agree in H4 as [A4 ->].
  pose proof (clean_yes_no_agree _ _ _ _ H5) as [A5 _].
  apply clean_yes_no_inv in H5 as (raw & Hraw & Hd5 & ->).
  apply parse_platforms_agree in H6 as [A6 ->].
  apply parse_affiliations_agree in H7 as [A7 ->].
  apply create_time_midpoint_agree in H8 as [A8 Hw].
  split; [done|]. split; [done|]. split.
  - intros X HX. unfold RECODED in HX. rewrite !not_elem_of_app in HX.
    destruct HX as (X2 & X3 & X4 & X5 & X6 & X7 & X8).
    by rewrite (A8 X X8), (A7 X X7), (A6 X X6), (A5 X X5), (A4 X X4), (A3 X X3), (A2 X X2).
  - exists raw. split.
    + rewrite <- Hraw. rewrite (A4 "uses_social_media"), (A3 "uses_social_media"),
        (A2 "uses_social_media"); [done|by_compute..].
    + rewrite (A8 "uses_social_media"), (A7 "uses_social_media"),
        (A6 "uses_social_media"); [|by_compute..].
      rewrite Hd5. apply get_set_eq.
Qed.

(** *** The analysis flag *)

Lemma eq_True_of_bool (x : option bool) :
  eq_True (of_bool x) = bool_decide (x = Some true).
Proof. by destruct x as [[]|]. Qed.

Lemma finish_inv (d8 out : frame) (w8 w' : world) :
  finish d8 w8 = (Ok out, w') ->
  w' = w8 /\
  exists d9 uses,
    for_each LIKERT_COLUMNS validate_likert_column d8 w8 = (Ok d9, w8) /\
    get_col "uses_social_media" d9 = Some uses /\
    (forall X, get_col X out =
               get_col X (set_col "include_in_analysis" ((fun c => Bool (eq_True c)) <$> uses) d9)).
Proof.
  unfold finish. intros Hrun.
  apply bind_inv in Hrun as (d9 & w9 & H9 & Hrun).
  apply bind_inv in Hrun as (d10 & w10 & H10 & H11).
  pose proof (validate_likert_scales_world _ _ _ _ H9) as ->.
  apply create_analysis_flag_inv in H10 as (uses & Huses & -> & ->).
  destruct (reorder_columns_run (set_col "include_in_analysis" ((fun c => Bool (eq_True c)) <$> uses) d9) w8)
    as (d' & Hre & Hsame).
  rewrite Hre in H11. injection H11 as <- <-. split; [done|]. by exists d9, uses.
Qed.

(** C2. In the cleaned table the flag [include_in_analysis] is true in a row
    exactly when the normalised [uses_social_media] of that row is true: the
    two columns are computed row by row from the raw answer, and both a false
    and a missing normalised value give a false flag. *)
Theorem include_iff_uses_social_media_true (df out : frame) (w w' : world) :
  transform df w = (Ok out, w') ->
  exists raw_uses,
    get_col "uses_social_media" (rename_labels df) = Some raw_uses /\
    get_col "uses_social_media" out = Some ((fun v => of_bool (to_bool v)) <$> raw_uses) /\
    get_col "include_in_analysis" out =
      Some ((fun v => Bool (bool_decide (to_bool v = Some true))) <$> raw_uses) /\
    (forall x : option bool, eq_True (of_bool x) = true <-> x = Some true) /\
    eq_True (of_bool (Some false)) = false /\
    eq_True (of_bool None) = false.
Proof.
  rewrite transform_split. intros Hrun.
  apply bind_inv in Hrun as (d8 & w8 & H8 & Hfin).
  apply recode_inv in H8 as (_ & _ & _ & raw & Hraw & Huses8).
  apply finish_inv in Hfin as (-> & d9 & uses & H9 & Huses9 & Hout).
  apply (validate_loop_inv _ _ _ _ _ NoDup_LIKERT_COLUMNS) in H9 as (_ & Hag & _).
  rewrite (Hag "uses_social_media") in Huses9 by by_compute.
  rewrite Huses8 in Huses9. injection Huses9 as <-.
  exists raw. split; [done|]. split; [|split; [|split; [|done]]].
  - rewrite Hout. rewrite get_set_ne by done.
    rewrite (Hag "uses_social_media") by by_compute. done.
  - rewrite Hout, get_set_eq. f_equal. rewrite <- list_fmap_compose.
    apply list_fmap_ext. intros _ v _. simpl. by rewrite eq_True_of_bool.
  - intros x. rewrite eq_True_of_bool. apply bool_decide_eq_true.
Qed.

(** *** Range validation in the whole run *)

Lemma has_step (T L L' : list string) (d d' : frame) :
  agree_off T d d' -> Forall (fun X => X ∈ L /\ X ∉ T) L' -> has L d -> has L' d'.
Proof.
  intros Hag Hall Hhas X HX. rewrite Forall_forall in Hall.
  destruct (Hall X HX) as [HL HT]. rewrite (Hag X HT). by apply Hhas.
Qed.

Lemma NoDup_COLUMN_ITEMS : NoDup COLUMN_ITEMS.*1.
Proof. by_compute. Qed.

(** After the rename check the frame has every clean name. *)
Lemma renamed_has (df : frame) :
  dom COLUMN_MAPPING ∖ list_to_set (columns df) =@{gset string} ∅ ->
  has COLUMN_ITEMS.*2 (rename_labels df).
Proof.
  intros Hm X (kv & -> & Hkv)%list_elem_of_fmap_1. destruct kv as [k X]. simpl.
  assert (Hk : COLUMN_MAPPING !! k = Some X)
    by (by apply elem_of_list_to_map_1; [apply NoDup_COLUMN_ITEMS|]).
  assert (Hin : k ∈ columns df).
  { destruct (decide (k ∈ columns df)) as [|Hout]; [done|].
    assert (Hd : k ∈ dom COLUMN_MAPPING ∖ list_to_set (C:=gset string) (columns df)).
    { apply elem_of_difference. split; [by apply elem_of_dom_2 in Hk|].
      by rewrite elem_of_list_to_set. }
    rewrite Hm in Hd. by apply elem_of_empty in Hd. }
  apply get_col_Some_columns. unfold columns, rename_labels in *.
  apply list_elem_of_fmap_1 in Hin as ([k' c] & -> & Hkc). cbn [fst] in Hk.
  apply list_elem_of_fmap. exists (X, c). split; [done|].
  apply list_elem_of_fmap. exists (k', c). split; [|done]. cbn [fst snd]. by rewrite Hk.
Qed.

(** With the expected columns present and ages that fit 64 bits, the stages
    before validation return. *)
Lemma recode_run (df : frame) (w : world) :
  dom COLUMN_MAPPING ∖ list_to_set (columns df) =@{gset string} ∅ ->
  (forall raw, get_col "age" (rename_labels df) = Some raw -> ages_fit raw = true) ->
  exists d8 w8, recode df w = (Ok d8, w8).
Proof.
  intros Hm Hage. pose proof (renamed_has df Hm) as Hhas. unfold recode.
  rewrite (bind_Ok _ _ _ _ _ (rename_columns_run df w Hm)).
  pose proof (drop_timestamp_run (rename_labels df) w) as R2.
  rewrite (bind_Ok _ _ _ _ _ R2).
  apply drop_timestamp_agree in R2 as [A2 _].
  assert (H2 : has ["age"; "gender_raw"; "uses_social_media"; "platforms_raw";
                    "org_affiliations_raw"; "daily_time_band"] _)
    by (refine (has_step _ _ _ _ _ A2 _ Hhas); by_compute).
  rewrite <- (A2 "age") in Hage by by_compute.
  clear Hhas A2. revert H2 Hage. generalize (if bool_decide ("timestamp" ∈ columns (rename_labels df))
    then drop_col "timestamp" (rename_labels df) else rename_labels df). intros d2 H2 Hage.
  destruct (H2 "age" ltac:(by_compute)) as [raw3 Hraw3].
  pose proof (clean_age_run d2 raw3 w Hraw3 (Hage raw3 Hraw3)) as R3. clear Hage.
  rewrite (bind_Ok _ _ _ _ _ R3).
  apply clean_age_agree in R3 as [A3 _].
  assert (H3 : has ["gender_raw"; "uses_social_media"; "platforms_raw";
                    "org_affiliations_raw"; "daily_time_band"] _)
    by (refine (has_step _ _ _ _ _ A3 _ H2); by_compute).
  clear H2 A3 Hraw3. revert H3. generalize (set_col "age"
    ((fun a => of_Int64 (round_half_even <$> a)) <$> (to_numeric <$> raw3))
    (set_col "age_band" ((fun a => Str (get_age_band a)) <$> (to_numeric <$> raw3))
       (set_col "age" (of_float <$> (to_numeric <$> raw3)) d2))). intros d3 H3.
  destruct (H3 "gender_raw" ltac:(by_compute)) as [raw4 Hraw4].
  pose proof (clean_gender_run d3 raw4 w Hraw4) as R4. rewrite (bind_Ok _ _ _ _ _ R4).
  apply clean_gender_agree in R4 as [A4 _].
  assert (H4 : has ["uses_social_media"; "platforms_raw";
                    "org_affiliations_raw"; "daily_time_band"] _)
    by (refine (has_step _ _ _ _ _ A4 _ H3); by_compute).
  clear H3 A4 Hraw4. revert H4. generalize (drop_col "gender_raw"
    (set_col "gender_grouped"
       ((fun c => from_option Str NA (map_dict GENDER_GROUPING c)) <$>
          ((fun v => Str (normalise_gender v)) <$> raw4))
       (set_col "gender_clean" ((fun v => Str (normalise_gender v)) <$> raw4) d3))).
  intros d4 H4.
  destruct (H4 "uses_social_media" ltac:(by_compute)) as [raw5 Hraw5].
  pose proof (clean_yes_no_run d4 raw5 w Hraw5) as R5. rewrite (bind_Ok _ _ _ _ _ R5).
  apply clean_yes_no_agree in R5 as [A5 _].
  assert (H5 : has ["platforms_raw"; "org_affiliations_raw"; "daily_time_band"] _)
    by (refine (has_step _ _ _ _ _ A5 _ H4); by_compute).
  clear H4 A5 Hraw5. revert H5.
  generalize (set_col "uses_social_media" ((fun v => of_bool (to_bool v)) <$> raw5) d4).
  intros d5 H5.
  destruct (H5 "platforms_raw" ltac:(by_compute)) as [raw6 Hraw6].
  pose proof (parse_platforms_run d5 raw6 w Hraw6) as R6. rewrite (bind_Ok _ _ _ _ _ R6).
  apply parse_platforms_agree in R6 as [A6 _].
  assert (H6 : has ["org_affiliations_raw"; "daily_time_band"] _)
    by (refine (has_step _ _ _ _ _ A6 _ H5); by_compute).
  clear H5 A6 Hraw6. revert H6. generalize (set_col "platform_count"
    ((fun v => Int (foldr Z.add 0 ((fun p => has_platform p v) <$> PLATFORMS))) <$> raw6)
    (add_flags platform_col (fun p v => Int (has_platform p v)) raw6 d5 PLATFORMS)).
  intros d6 H6.
  destruct (H6 "org_affiliations_raw" ltac:(by_compute)) as [raw7 Hraw7].
  pose proof (parse_affiliations_run d6 raw7 w Hraw7) as R7. rewrite (bind_Ok _ _ _ _ _ R7).
  apply parse_affiliations_agree in R7 as [A7 _].
  assert (H7 : has ["daily_time_band"] _)
    by (refine (has_step _ _ _ _ _ A7 _ H6); by_compute).
  clear H6 A7 Hraw7. revert H7. generalize (add_flags
    (fun item : string * list string => affil_col item.1)
    (fun item v => Int (has_affiliation item.2 v)) raw7 d6 AFFILIATIONS). intros d7 H7.
  destruct (H7 "daily_time_band" ltac:(by_compute)) as [band Hband].
  rewrite (create_time_midpoint_run d7 band w Hband). by eexists _, _.
Qed.

(** *** The run *)

Lemma quality_checks_run (df : frame) (stage : string) (w : world) :
  NoDup (columns df) ->
  exists w0, quality_checks df stage w = (Ok (run_quality_checks df stage), w0) /\
             written w0 = written w.
Proof.
  intros Hnd. unfold quality_checks. rewrite bool_decide_eq_true_2 by done. cbv zeta.
  unfold bind. destruct (0 <? _)%nat; by eexists.
Qed.

Lemma quality_checks_inv (df : frame) (stage : string) (w w' : world) r :
  quality_checks df stage w = (r, w') ->
  written w' = written w /\
  match r with
  | Ok checks => NoDup (columns df) /\ checks = run_quality_checks df stage
  | Err e => e = RepeatedLabel /\ ~ NoDup (columns df) /\ w' = w
  end.
Proof.
  unfold quality_checks. case_bool_decide as Hnd.
  - cbv zeta. unfold bind. destruct (0 <? _)%nat; by intros [= <- <-].
  - by intros [= <- <-].
Qed.

Lemma report_loop_inv (df : frame) (l : list string) (w w' : world) r :
  for_each l (fun p (_ : unit) => flags <- col (platform_col p) df ;; percent_of_rows df) tt w
    = (r, w') ->
  w' = w /\
  match r with
  | Ok _ => (l = [] \/ nrows df <> 0%nat) /\
            forall p, p ∈ l -> is_Some (get_col (platform_col p) df)
  | Err e => (e = ZeroDivision /\ nrows df = 0%nat) \/
             exists p, p ∈ l /\ e = KeyError (platform_col p) /\
                       get_col (platform_col p) df = None
  end.
Proof.
  revert r. induction l as [|p l IH]; intros r; simpl.
  - intros [= <- <-]. split; [done|]. split; [by left|]. by intros p ?%elem_of_nil.
  - unfold bind at 1. unfold bind at 1. unfold col at 1.
    destruct (get_col (platform_col p) df) as [flags|] eqn:Hp.
    + unfold ret at 1. unfold percent_of_rows at 1.
      destruct (nrows df =? 0)%nat eqn:Hn.
      * intros [= <- <-]. split; [done|]. left. split; [done|]. by apply Nat.eqb_eq.
      * apply Nat.eqb_neq in Hn. unfold ret at 1. intros Hrun.
        apply IH in Hrun as [-> Hr]. split; [done|]. destruct r as [[]|e].
        -- destruct Hr as [_ Hall]. split; [by right|].
           intros p' [->|Hp']%elem_of_cons; [by eexists|by apply Hall].
        -- destruct Hr as [[_ H0]|(p' & Hp' & -> & Hnone)]; [done|].
           right. exists p'. split; [by right|done].
    + intros [= <- <-]. split; [done|]. right. exists p. split; [by left|done].
Qed.

(** What generate_etl_report does: it fails before it writes, on a column
    it cannot read or on a table without rows, or it writes the report. *)
Lemma generate_etl_report_inv (df : frame) (cb ca : Checks.t) (path : string)
    (w w' : world) r :
  generate_etl_report df cb ca path w = (r, w') ->
  match r with
  | Ok _ => w' = World (printed w) (written w ++ [(path, EtlReport df)]) /\
            nrows df <> 0%nat
  | Err e => w' = w /\
             ((e = ZeroDivision /\ nrows df = 0%nat) \/
              exists X, X ∈ REPORT_COLS /\ e = KeyError X /\ get_col X df = None)
  end.
Proof.
  unfold generate_etl_report.
  unfold bind at 1. unfold col at 1.
  destruct (get_col "gender_clean" df) eqn:H1; cycle 1.
  { intros [= <- <-]. split; [done|]. right. exists "gender_clean". split; [by_compute|done]. }
  unfold ret at 1. unfold bind at 1. unfold col at 1.
  destruct (get_col "gender_grouped" df) eqn:H2; cycle 1.
  { intros [= <- <-]. split; [done|]. right. exists "gender_grouped". split; [by_compute|done]. }
  unfold ret at 1. unfold bind at 1.
  destruct (for_each PLATFORMS _ tt w) as [r0 w0] eqn:Hloop.
  apply report_loop_inv in Hloop as [-> Hr0]. destruct r0 as [[]|e0]; cycle 1.
  { intros [= <- <-]. split; [done|].
    destruct Hr0 as [?|(p & Hp & -> & Hnone)]; [by left|]. right.
    exists (platform_col p). split; [|done]. unfold REPORT_COLS.
    rewrite !elem_of_app. right. left. by apply list_elem_of_fmap_2. }
  destruct Hr0 as [[Hnil|Hn] _]; [done|].
  unfold bind at 1. unfold col at 1.
  destruct (get_col "uses_social_media" df) eqn:H3; cycle 1.
  { intros [= <- <-]. split; [done|]. right. exists "uses_social_media".
    split; [by_compute|done]. }
  unfold ret at 1. unfold bind at 1. unfold percent_of_rows.
  destruct (nrows df =? 0)%nat eqn:Hn0; [by apply Nat.eqb_eq in Hn0|].
  unfold ret at 1. unfold bind at 1. unfold col at 1.
  destruct (get_col "include_in_analysis" df) eqn:H4; cycle 1.
  { intros [= <- <-]. split; [done|]. right. exists "include_in_analysis".
    split; [by_compute|done]. }
  unfold ret at 1. unfold write_file. by intros [= <- <-].
Qed.

(** On a table that has the columns it reads, the report fails exactly when
    the table has no row. *)
Lemma generate_etl_report_run (df : frame) (cb ca : Checks.t) (path : string) (w : world) :
  has REPORT_COLS df ->
  generate_etl_report df cb ca path w =
    if (nrows df =? 0)%nat then (Err ZeroDivision, w)
    else (Ok tt, World (printed w) (written w ++ [(path, EtlReport df)])).
Proof.
  intros Hhas.
  destruct (generate_etl_report df cb ca path w) as [r w'] eqn:Hrun.
  apply generate_etl_report_inv in Hrun. destruct r as [[]|e].
  - destruct Hrun as [-> Hn]. apply Nat.eqb_neq in Hn. by rewrite Hn.
  - destruct Hrun as [-> [[-> Hn]|(X & HX & _ & Hnone)]].
    + apply Nat.eqb_eq in Hn. by rewrite Hn.
    + destruct (Hhas X HX) as [c Hc]. by rewrite Hc in Hnone.
Qed.

Lemma run_etl_eq (df : frame) (rp pp dp tp : string) (w : world) :
  run_etl (Some df) rp pp dp tp w =
    match quality_checks df "raw" w with
    | (Err e, w0) => (Err e, w0)
    | (Ok checks_before, w0) =>
        match transform df w0 with
        | (Err e, w1) => (Err e, w1)
        | (Ok out, w1) =>
            match quality_checks out "processed" w1 with
            | (Err e, w2) => (Err e, w2)
            | (Ok checks_after, w2) =>
                match generate_etl_report out checks_before checks_after tp
                        (World (printed w2)
                           (written w2 ++ [(pp, CleanCsv out);
                                           (dp, DataDictionary (columns out) (nrows out))]))
                with
                | (Ok _, w3) => (Ok out, w3)
                | (Err e, w3) => (Err e, w3)
                end
            end
        end
    end.
Proof.
  unfold run_etl, load_raw_data. unfold bind at 1. unfold ret at 1.
  unfold bind at 1. destruct (quality_checks df "raw" w) as [[cb|e] w0]; [|done].
  unfold bind at 1. destruct (transform df w0) as [[out|e] w1]; [|done].
  unfold bind at 1. destruct (quality_checks out "processed" w1) as [[ca|e] w2]; [|done].
  unfold bind at 1. unfold save_processed_data at 1. unfold write_file at 1.
  unfold bind at 1. unfold generate_data_dictionary at 1. unfold write_file at 1.
  cbn [printed written]. rewrite <- app_assoc. cbn [app].
  unfold bind at 1. by destruct (generate_etl_report _ _ _ _ _) as [[[]|e] w3].
Qed.

(** A run whose transform fails ends in that error, unless the raw table
    had a repeated label; in both cases it writes nothing. *)
Lemma run_etl_transform_err (df : frame) (rp pp dp tp : string) (w : world) :
  (forall w0, written w0 = written w ->
     exists e w1, transform df w0 = (Err e, w1) /\ written w1 = written w0) ->
  exists e w', run_etl (Some df) rp pp dp tp w = (Err e, w') /\ written w' = written w.
Proof.
  intros Hfail. rewrite run_etl_eq.
  destruct (quality_checks df "raw" w) as [[cb|e] w0] eqn:Hq;
    apply quality_checks_inv in Hq as [Hw0 Hq].
  - destruct (Hfail w0 Hw0) as (e & w1 & -> & Hw1). exists e, w1. by rewrite Hw1.
  - by exists e, w0.
Qed.

Lemma likert_not_recoded : Forall (fun c => c ∉ RECODED) LIKERT_COLUMNS.
Proof. by_compute. Qed.

Lemma likert_are_clean_names : Forall (fun c => c ∈ COLUMN_ITEMS.*2) LIKERT_COLUMNS.
Proof. by_compute. Qed.

Lemma tame_after_validation (d9 : frame) :
  tame (df <- create_analysis_flag d9 ;; reorder_columns df).
Proof.
  apply tame_bind; [apply tame_create_analysis_flag|intros ?; apply tame_reorder_columns].
Qed.

(** A transform that meets a Likert value out of range fails, and writes
    nothing. *)
Lemma transform_out_of_range (df : frame) (c : string) (raw : column) (q : Q) (w : world) :
  c ∈ LIKERT_COLUMNS -> get_col c (rename_labels df) = Some raw ->
  Some q ∈ to_numeric <$> raw -> out_of_range q ->
  exists e w', transform df w = (Err e, w') /\ written w' = written w.
Proof.
  pose proof likert_not_recoded as Hnr. rewrite Forall_forall in Hnr.
  intros Hc Hraw Hq Hout. rewrite transform_split.
  destruct (recode df w) as [[d8|e] w8] eqn:Hr.
  - rewrite (bind_Ok _ _ _ _ _ Hr).
    apply recode_inv in Hr as (_ & Hw8 & Hsame & _).
    unfold finish. destruct (validate_likert_scales d8 w8) as [[d9|e] w9] eqn:Hv.
    + exfalso. apply (validate_loop_inv _ _ _ _ _ NoDup_LIKERT_COLUMNS) in Hv
        as (_ & _ & Hcols). destruct (Hcols c Hc) as (raw' & Hraw' & Hnone & _).
      rewrite (Hsame c (Hnr c Hc)), Hraw in Hraw'. injection Hraw' as <-.
      rewrite likert_verdict_None in Hnone. destruct (Hnone q Hq) as (H1 & H5 & _).
      destruct Hout as [Hlt|Hgt]; [by apply (Qlt_not_le _ _ Hlt)|by apply (Qlt_not_le _ _ Hgt)].
    + rewrite (bind_Err _ _ _ _ _ Hv).
      apply validate_likert_scales_world in Hv as ->. by exists e, w8.
  - rewrite (bind_Err _ _ _ _ _ Hr). exists e, w8. split; [done|].
    pose proof (tame_recode df w) as [Hq8 _]. by rewrite Hr in Hq8.
Qed.

(** A range-validation error of the transform comes from a present number
    out of range in the column it names. *)
Lemma transform_range_error (df : frame) (w w' : world) (e : error) (c : string) :
  transform df w = (Err e, w') -> range_error_names e c ->
  c ∈ LIKERT_COLUMNS /\
  exists raw q, get_col c (rename_labels df) = Some raw /\
                Some q ∈ to_numeric <$> raw /\ out_of_range q.
Proof.
  pose proof likert_not_recoded as Hnr. rewrite Forall_forall in Hnr.
  rewrite transform_split.
  destruct (recode df w) as [[d8|e8] w8] eqn:Hr.
  - rewrite (bind_Ok _ _ _ _ _ Hr).
    apply recode_inv in Hr as (_ & Hw8 & Hsame & _).
    unfold finish. destruct (validate_likert_scales d8 w8) as [[d9|e9] w9] eqn:Hv.
    + rewrite (bind_Ok _ _ _ _ _ Hv).
      pose proof (tame_after_validation d9 w9) as [_ Hnot].
      destruct (bind (create_analysis_flag d9) _ w9) as [[out|e10] w10]; [done|].
      intros [= <- <-] Hn. exfalso. by apply (Hnot e10 eq_refl c).
    + rewrite (bind_Err _ _ _ _ _ Hv). intros [= <- <-] Hn.
      apply (validate_loop_err _ _ _ _ _ NoDup_LIKERT_COLUMNS) in Hv
        as (_ & c0 & Hc0 & [[_ ->]|(raw & Hraw & Hverdict)]); [done|].
      destruct (likert_verdict_range_error c0 c _ _ Hverdict Hn) as (-> & q & Hq & Hout).
      split; [done|]. exists raw, q. by rewrite <- (Hsame c0 (Hnr c0 Hc0)).
  - rewrite (bind_Err _ _ _ _ _ Hr). intros [= <- <-] Hn. exfalso.
    pose proof (tame_recode df w) as [_ Hnot]. rewrite Hr in Hnot.
    by apply (Hnot e8 eq_refl c).
Qed.

(** C1, as the code has it. A present value below 1 or above 5 in a Likert
    column always aborts the run before any file is written. The abort is the
    range-validation error naming that column when nothing stops the run
    before it: the expected columns are all there, the renamed labels are
    distinct, every age that is a number fits 64 bits when rounded, and every
    present value of the Likert columns validated before it is a whole number
    in range; otherwise an earlier step aborts the run first, as the
    conversion to integers of an earlier column holding a fraction does. A
    range validation error always comes from a present number out of range
    in the column it names, never from a missing value or from text coerced
    to missing. *)
Theorem likert_out_of_range_aborts_before_output
    (df : frame) (rp pp dp tp : string) (w : world) :
  (forall c raw q,
     c ∈ LIKERT_COLUMNS -> get_col c (rename_labels df) = Some raw ->
     Some q ∈ to_numeric <$> raw -> out_of_range q ->
     exists e w', run_etl (Some df) rp pp dp tp w = (Err e, w') /\
                  written w' = written w) /\
  (forall l1 c l2 raw q,
     LIKERT_COLUMNS = (l1 ++ c :: l2)%list ->
     dom COLUMN_MAPPING ∖ list_to_set (columns df) =@{gset string} ∅ ->
     NoDup (columns (rename_labels df)) ->
     (forall ages, get_col "age" (rename_labels df) = Some ages -> ages_fit ages = true) ->
     (forall c' raw' q', c' ∈ l1 -> get_col c' (rename_labels df) = Some raw' ->
        Some q' ∈ to_numeric <$> raw' ->
        (1 <= q')%Q /\ (q' <= 5)%Q /\ is_whole q' = true) ->
     get_col c (rename_labels df) = Some raw ->
     Some q ∈ to_numeric <$> raw -> out_of_range q ->
     exists e w', run_etl (Some df) rp pp dp tp w = (Err e, w') /\
                  range_error_names e c /\ written w' = written w) /\
  (forall e w' c,
     run_etl (Some df) rp pp dp tp w = (Err e, w') -> range_error_names e c ->
     c ∈ LIKERT_COLUMNS /\
     exists raw q, get_col c (rename_labels df) = Some raw /\
                   Some q ∈ to_numeric <$> raw /\ out_of_range q).
Proof.
  pose proof likert_not_recoded as Hnr. rewrite Forall_forall in Hnr.
  split; [|split].
  - intros c raw q Hc Hraw Hq Hout. apply run_etl_transform_err. intros w0 _.
    by apply (transform_out_of_range df c raw q).
  - intros l1 c l2 raw q Hsplit Hm Hnd Hage Hbefore Hraw Hq Hout.
    assert (Hnd0 : NoDup (columns df)).
    { unfold columns, rename_labels in Hnd. rewrite <- list_fmap_compose in Hnd.
      apply (NoDup_fmap_1 (fun k => default k (COLUMN_MAPPING !! k))).
      unfold columns. by rewrite <- list_fmap_compose. }
    destruct (quality_checks_run df "raw" w Hnd0) as (w0 & Hq0 & Hw0).
    rewrite run_etl_eq, Hq0, transform_split.
    destruct (recode_run df w0 Hm Hage) as (d8 & w8 & Hr). rewrite (bind_Ok _ _ _ _ _ Hr).
    apply recode_inv in Hr as (_ & Hw8 & Hsame & _).
    destruct (likert_verdict_out_of_range c (to_numeric <$> raw) q Hq Hout) as (e & He & Hname).
    assert (Hc : c ∈ LIKERT_COLUMNS) by (rewrite Hsplit, elem_of_app; right; by left).
    assert (Hv : validate_likert_scales d8 w8 = (Err e, w8)).
    { unfold validate_likert_scales. rewrite Hsplit.
      apply (validate_loop_first l1 l2 c d8 raw w8 e).
      - rewrite <- Hsplit. apply NoDup_LIKERT_COLUMNS.
      - intros c' Hc'.
        assert (Hc'L : c' ∈ LIKERT_COLUMNS) by (rewrite Hsplit, elem_of_app; by left).
        pose proof likert_are_clean_names as Hcl. rewrite Forall_forall in Hcl.
        destruct (renamed_has df Hm c' (Hcl c' Hc'L)) as [raw' Hraw'].
        exists raw'. split; [by rewrite (Hsame c' (Hnr c' Hc'L))|].
        apply likert_verdict_None. intros q' Hq'. by apply (Hbefore c' raw' q').
      - by rewrite (Hsame c (Hnr c Hc)).
      - done. }
    unfold finish. rewrite (bind_Err _ _ _ _ _ Hv). exists e, w8.
    split; [done|]. split; [done|]. by rewrite Hw8.
  - intros e w' c. rewrite run_etl_eq.
    destruct (quality_checks df "raw" w) as [[cb|e0] w0] eqn:Hq0;
      apply quality_checks_inv in Hq0 as [Hw0 Hq0]; cycle 1.
    { destruct Hq0 as (-> & _). by intros [= <- <-] ?. }
    destruct (transform df w0) as [[out|e1] w1] eqn:Ht; cycle 1.
    { intros [= <- <-] Hn. by apply (transform_range_error df w0 w1 e1 c). }
    destruct (quality_checks out "processed" w1) as [[ca|e2] w2] eqn:Hq2;
      apply quality_checks_inv in Hq2 as [Hw2 Hq2]; cycle 1.
    { destruct Hq2 as (-> & _). by intros [= <- <-] ?. }
    destruct (generate_etl_report _ _ _ _ _) as [[[]|e3] w3] eqn:Hg; [done|].
    apply generate_etl_report_inv in Hg as [_ [[-> _]|(X & _ & -> & _)]];
      by intros [= <- <-] ?.
Qed.

End RecoderProperties.

(** ** The recoder on concrete tables *)

(** C4 as stated fails: the ages -5 and 500 are numbers outside any range of
    ages, and clean_age stores them (bands "<18" and "45+") instead of making
    them missing; only the text that is no number becomes missing. *)
Lemma clean_age_out_of_range_kept :
  @clean_age plain_text [("age", [Int (-5); Float 500; Str "abc"])] fresh
  = (Ok [("age", [Int (-5); Int 500; NA]);
         ("age_band", [Str "<18"; Str "45+"; Str "Unknown"])], fresh).
Proof. vm_compute. reflexivity. Qed.

(** ** The analyzer *)

Lemma group_values_size (k : string) (group outcome : column) :
  length (group_values k (mask_column (complete_pairs group outcome) group)
            (mask_column (complete_pairs group outcome) outcome))
  = group_size k group outcome.
Proof.
  unfold group_size, group_values, complete_pairs.
  revert outcome. induction group as [|x group IH]; intros [|y outcome]; try done.
  cbn [zip_with zip]. rewrite filter_cons. cbn [fst snd].
  destruct x as [| | | |s], y;
    cbn [notna isna negb andb cell_eqb fmap list_fmap mask_column];
    try destruct (bool_decide (s = k));
    cbn [andb mask_column];
    first [ rewrite decide_False by done; apply IH
          | rewrite decide_True by done; cbn [length]; f_equal; apply IH ].
Qed.

Section AnalyzerProperties.
Context `{Numerics}.

Abbreviation E := (StateErr session).

(** *** The group-difference test *)


Lemma run_kruskal_run (cats : list string) (df : frame) (group outcome : string)
    (g o : column) (s : session) :
  get_col group df = Some g -> get_col outcome df = Some o ->
  run_kruskal cats df group outcome s =
    if (length (kruskal_groups cats g o) <? 2)%nat then (Err KruskalError, s)
    else
      match kruskal_statistic (kruskal_groups cats g o) with
      | None => (Err KruskalError, s)
      | Some hp =>
          let n_data := length (mask_column (complete_pairs g o) g) in
          let eps := epsilon_squared hp.1 n_data (length (kruskal_groups cats g o)) in
          (Ok {| t_n := n_data; t_statistic := hp.1; t_p_value := hp.2;
                 t_effect_size_name := "epsilon_squared"; t_effect_size_value := eps;
                 t_interpretation := interpret_epsilon eps |}, s)
      end.
Proof.
  intros Hg Ho. unfold run_kruskal.
  rewrite (bind_Ok _ _ _ _ _ (col_Some _ _ _ s Hg)).
  rewrite (bind_Ok _ _ _ _ _ (col_Some _ _ _ s Ho)).
  unfold stats_kruskal, bind. destruct (length (kruskal_groups cats g o) <? 2)%nat; [done|].
  destruct (kruskal_statistic _) as [[h p]|]; done.
Qed.


(** *** Segment plots *)



(** A segment plot of subgroups that all have fewer than ten rows is not
    saved: drawing it raises. *)
Lemma segment_plot_empty (df : frame) (by_col : string) (candidates : list string)
    (path : string) (groups : column) (s : session) :
  get_col by_col df = Some groups ->
  Forall (fun b => (value_count b groups < 10)%nat) candidates ->
  segment_plot df by_col candidates path s = (Err EmptyBoxplot, s).
Proof.
  intros Hg Hall. unfold segment_plot.
  rewrite (bind_Ok _ _ _ _ _ (col_Some _ _ _ s Hg)). cbv zeta.
  rewrite bool_decide_eq_true_2; [done|].
  induction candidates as [|b l IH]; [done|].
  apply Forall_cons in Hall as [Hb Hl]. rewrite filter_cons.
  rewrite decide_False by lia. by apply IH.
Qed.



(** *** Determinism of the statistics *)

Lemma blind_ret {A} (a : A) : blind (ret a).
Proof. intros g1 g2 files. by eexists _, _. Qed.

Lemma blind_raise {A} (e : error) : blind (@raise session A e).
Proof. intros g1 g2 files. by eexists _, _. Qed.

Lemma blind_col (label : string) (df : frame) : blind (col label df).
Proof. intros g1 g2 files. unfold col. destruct (get_col label df); by eexists _, _. Qed.

Lemma blind_save (path : string) (r : report) : blind (save path r).
Proof. intros g1 g2 files. by eexists _, _. Qed.

Lemma blind_bind {A B} (m : E A) (k : A -> E B) :
  blind m -> (forall a, blind (k a)) -> blind (bind m k).
Proof.
  intros Hm Hk g1 g2 files. destruct (Hm g1 g2 files) as (r & files1 & E1 & E2).
  unfold bind. rewrite E1, E2. destruct r as [a|e]; [apply Hk|by eexists _, _].
Qed.

Lemma blind_for_each {A S} (l : list A) (body : A -> S -> E S) (s : S) :
  (forall x s, blind (body x s)) -> blind (for_each l body s).
Proof.
  intros Hbody. revert s. induction l as [|x l IH]; intros s; simpl.
  - apply blind_ret.
  - apply blind_bind; [apply Hbody|apply IH].
Qed.

Ltac blind_step :=
  lazymatch goal with
  | |- blind (bind _ _) => apply blind_bind; [|intros ?]
  | |- blind (ret _) => apply blind_ret
  | |- blind (raise _) => apply blind_raise
  | |- blind (col _ _) => apply blind_col
  | |- blind (save _ _) => apply blind_save
  | |- blind (for_each _ _ _) => apply blind_for_each; intros ? ?
  | |- blind (if ?b then _ else _) => destruct b
  | |- blind (match ?x with _ => _ end) => destruct x
  end.

Ltac blind := cbv zeta; repeat blind_step.

Lemma blind_run_spearman df v1 v2 : blind (run_spearman df v1 v2).
Proof. unfold run_spearman. blind. Qed.

Lemma blind_run_kruskal cats df group outcome : blind (run_kruskal cats df group outcome).
Proof. unfold run_kruskal, stats_kruskal. blind. Qed.

Lemma blind_load_analysis_rows df_full : blind (load_analysis_rows df_full).
Proof. unfold load_analysis_rows. blind. Qed.

Lemma blind_hypothesis_testing df : blind (hypothesis_testing df).
Proof.
  unfold hypothesis_testing.
  apply blind_bind; [apply blind_run_kruskal|intros ?].
  do 4 (apply blind_bind; [apply blind_run_spearman|intros ?]).
  blind.
Qed.

Lemma same_run_bind {A B} (m : E A) (k : A -> E B) (g1 g2 : rng) :
  blind m -> (forall a, same_run (k a) g1 g2) -> same_run (bind m k) g1 g2.
Proof.
  intros Hm Hk files. destruct (Hm g1 g2 files) as (r & files1 & E1 & E2).
  unfold bind. rewrite E1, E2. destruct r as [a|e]; [apply Hk|done].
Qed.

(** C10. The statistics do not depend on the random generator: from any two
    states of numpy's generator, a run of the script on the same cleaned
    table ends the same way, with the same five hypothesis results, and
    saves the same files, charts included (the jitter is drawn after the
    generator is seeded with 42); and the hypothesis tests leave the
    generator as they found it. *)
Theorem analyzer_results_do_not_depend_on_random_state
    (df_full : frame) (g1 g2 : rng) (files : list (string * report)) :
  (run_eda df_full (Session g1 files)).1 = (run_eda df_full (Session g2 files)).1 /\
  saved (run_eda df_full (Session g1 files)).2 = saved (run_eda df_full (Session g2 files)).2 /\
  (forall df g, np_random (hypothesis_testing df (Session g files)).2 = g) /\
  (forall df rs s', hypothesis_testing df (Session g1 files) = (Ok rs, s') ->
     length rs = 5%nat /\
     saved s' = (files ++ [("reports/hypothesis_results.csv", HypothesisResultsCsv rs)])%list).
Proof.
  assert (Hrun : same_run (run_eda df_full) g1 g2).
  { unfold run_eda. apply same_run_bind; [apply blind_load_analysis_rows|intros df].
    apply same_run_bind; [apply blind_hypothesis_testing|intros rs].
    intros f. unfold figures. split; reflexivity. }
  destruct (Hrun files) as [Hr Hs]. split; [done|]. split; [done|]. split.
  - intros df g. destruct (blind_hypothesis_testing df g g files) as (r & f & E1 & _).
    by rewrite E1.
  - intros df rs s'. unfold hypothesis_testing. intros Hh.
    apply bind_inv in Hh as (h1 & s1 & H1 & Hh).
    apply bind_inv in Hh as (h2 & s2 & H2 & Hh).
    apply bind_inv in Hh as (h3 & s3 & H3 & Hh).
    apply bind_inv in Hh as (h4 & s4 & H4 & Hh).
    apply bind_inv in Hh as (h5 & s5 & H5 & Hh).
    apply bind_inv in Hh as ([] & s6 & H6 & Hh). apply ret_inv in Hh as [-> ->].
    assert (Hk : forall s t s1, run_kruskal TIME_BAND_ORDER df "daily_time_band" "low_mood_freq" s
                                = (Ok t, s1) -> s1 = s).
    { intros s t s1'. unfold run_kruskal, stats_kruskal. intros Hq.
      apply bind_inv in Hq as (a & w1 & Ha & Hq). apply col_inv in Ha as [_ ->].
      apply bind_inv in Hq as (b & w2 & Hb & Hq). apply col_inv in Hb as [_ ->].
      apply bind_inv in Hq as (hp & w3 & Hhp & Hq).
      destruct (length _ <? 2)%nat; [done|].
      destruct (kruskal_statistic _) as [hp'|]; [|done]. apply ret_inv in Hhp as [-> ->].
      destruct hp'. by apply ret_inv in Hq as [_ ->]. }
    assert (Hsp : forall v1 v2 s t s1, run_spearman df v1 v2 s = (Ok t, s1) -> s1 = s).
    { intros v1 v2 s t s1'. unfold run_spearman. intros Hq.
      apply bind_inv in Hq as (a & w1 & Ha & Hq). apply col_inv in Ha as [_ ->].
      apply bind_inv in Hq as (b & w2 & Hb & Hq). apply col_inv in Hb as [_ ->].
      destruct (bool_decide (v1 = v2)); [done|].
      destruct (spearmanr _ _). by apply ret_inv in Hq as [_ ->]. }
    apply Hk in H1 as ->. apply Hsp in H2 as ->. apply Hsp in H3 as ->.
    apply Hsp in H4 as ->. apply Hsp in H5 as ->.
    unfold save in H6. injection H6 as <-. done.
Qed.

End AnalyzerProperties.

(** * Further properties *)

(** ** Lists *)

Lemma filter_ext_in {A} (P Q : A -> Prop) `{!forall x, Decision (P x)}
    `{!forall x, Decision (Q x)} (l : list A) :
  (forall x, x ∈ l -> P x <-> Q x) -> filter P l = filter Q l.
Proof.
  induction l as [|x l IH]; intros Hall; [done|]. rewrite !filter_cons.
  rewrite IH by (intros y Hy; apply Hall; by right).
  destruct (decide (P x)) as [HP|HP], (decide (Q x)) as [HQ|HQ]; try done.
  - exfalso. apply HQ, Hall; [by left|done].
  - exfalso. apply HP, Hall; [by left|done].
Qed.

Lemma filter_all {A} (P : A -> Prop) `{!forall x, Decision (P x)} (l : list A) :
  (forall x, x ∈ l -> P x) -> filter P l = l.
Proof.
  induction l as [|x l IH]; intros Hall; [done|]. rewrite filter_cons.
  rewrite decide_True by (apply Hall; by left).
  f_equal. apply IH. intros y Hy. apply Hall. by right.
Qed.

Lemma filter_none {A} (P : A -> Prop) `{!forall x, Decision (P x)} (l : list A) :
  (forall x, x ∈ l -> ~ P x) -> filter P l = [].
Proof.
  induction l as [|x l IH]; intros Hall; [done|]. rewrite filter_cons.
  rewrite decide_False by (apply Hall; by left).
  apply IH. intros y Hy. apply Hall. by right.
Qed.

Lemma filter_twice {A} (P Q : A -> Prop) `{!forall x, Decision (P x)}
    `{!forall x, Decision (Q x)} (l : list A) :
  filter P (filter Q l) = filter (fun x => P x /\ Q x) l.
Proof.
  induction l as [|x l IH]; [done|]. rewrite !filter_cons.
  destruct (decide (Q x)) as [HQ|HQ].
  - rewrite filter_cons. destruct (decide (P x)) as [HP|HP].
    + rewrite decide_True by done. by rewrite IH.
    + rewrite decide_False by tauto. done.
  - rewrite decide_False by tauto. done.
Qed.

(** ** Frames, continued *)

Lemma get_drop_eq (name : string) (df : frame) : get_col name (drop_col name df) = None.
Proof.
  unfold drop_col. induction df as [|[n c] df IH]; [done|].
  rewrite filter_cons. simpl. destruct (decide (n <> name)) as [Hn|Hn]; simpl; [|done].
  by rewrite bool_decide_eq_false_2.
Qed.

Lemma set_col_twice (name : string) (c c' : column) (df : frame) :
  set_col name c (set_col name c' df) = set_col name c df.
Proof.
  induction df as [|[n c0] df IH]; simpl.
  - by rewrite bool_decide_eq_true_2.
  - destruct (bool_decide (n = name)) eqn:E; simpl; rewrite E; [done|]. by rewrite IH.
Qed.

Lemma elem_columns_set (X name : string) (c : column) (df : frame) :
  X ∈ columns (set_col name c df) <-> X = name \/ X ∈ columns df.
Proof.
  rewrite <- !get_col_Some_columns. destruct (decide (name = X)) as [->|Hne].
  - rewrite get_set_eq. split; [by left|by eexists].
  - rewrite get_set_ne by done. split; [by right|]. by intros [->|?].
Qed.

Lemma elem_columns_drop (X name : string) (df : frame) :
  X ∈ columns (drop_col name df) <-> X ∈ columns df /\ X <> name.
Proof.
  rewrite <- !get_col_Some_columns. destruct (decide (name = X)) as [->|Hne].
  - rewrite get_drop_eq. split; [by intros [? ?]|by intros [_ ?]].
  - rewrite get_drop_ne by done. split; [|by intros [? _]]. intros ?. split; [done|].
    by intros ->.
Qed.

Lemma columns_set_col (name : string) (c : column) (df : frame) :
  columns (set_col name c df)
  = if bool_decide (name ∈ columns df) then columns df else (columns df ++ [name])%list.
Proof.
  unfold columns. induction df as [|[n c0] df IH]; [done|].
  cbn [set_col]. destruct (bool_decide (n = name)) eqn:E.
  - apply bool_decide_eq_true in E as ->. cbn [fmap list_fmap fst].
    rewrite bool_decide_eq_true_2; [done|]. by left.
  - apply bool_decide_eq_false in E. cbn [fmap list_fmap fst]. rewrite IH.
    destruct (bool_decide (name ∈ df.*1)) eqn:E'.
    + apply bool_decide_eq_true in E'. rewrite bool_decide_eq_true_2; [done|]. by right.
    + apply bool_decide_eq_false in E'. rewrite bool_decide_eq_false_2; [done|].
      intros [?|?]%elem_of_cons; [by subst|done].
Qed.

Lemma columns_drop_col (name : string) (df : frame) :
  columns (drop_col name df) = filter (fun X => X <> name) (columns df).
Proof.
  unfold columns, drop_col. induction df as [|[n c] df IH]; [done|].
  rewrite filter_cons. cbn [fmap list_fmap fst]. rewrite filter_cons. cbn [fst].
  destruct (decide (n <> name)); [|done]. cbn [fmap list_fmap fst]. by rewrite IH.
Qed.

(** A frame with distinct labels is the list of its labels, each with its
    column. *)
Lemma frame_by_labels (df : frame) :
  NoDup (columns df) -> df = (fun X => (X, default [] (get_col X df))) <$> columns df.
Proof.
  unfold columns. induction df as [|[n c] df IH]; [done|].
  cbn [fmap list_fmap fst]. intros [Hn Hnd]%NoDup_cons.
  cbn [get_col]. rewrite bool_decide_eq_true_2 by done. f_equal.
  rewrite IH at 1 by done. apply list_fmap_ext. intros _ X HX%list_elem_of_lookup_2.
  rewrite bool_decide_eq_false_2; [done|]. by intros ->.
Qed.

(** ** reorder_columns *)

Section Reorder.
Context `{PandasText}.

Lemma ordered_or_remaining (d : frame) (X : string) :
  X ∈ (filter (fun c => c ∈ columns d) ORDERED_COLS ++
       filter (fun c => c ∉ filter (fun c => c ∈ columns d) ORDERED_COLS) (columns d))%list
  <-> X ∈ columns d.
Proof.
  rewrite elem_of_app, !list_elem_of_filter.
  destruct (decide (X ∈ ORDERED_COLS)); tauto.
Qed.

Lemma reorder_columns_eq {S} (d : frame) (w : S) :
  select_cols (filter (fun c => c ∈ columns d) ORDERED_COLS ++
               filter (fun c => c ∉ filter (fun c => c ∈ columns d) ORDERED_COLS) (columns d))%list
    d w = (Ok (reordered d), w).
Proof.
  apply select_cols_run. intros X HX. by apply get_col_Some_columns, ordered_or_remaining.
Qed.

Lemma reorder_columns_reordered (d : frame) (w : world) :
  reorder_columns d w = (Ok (reordered d), w).
Proof. apply (reorder_columns_eq d w). Qed.

Lemma columns_reordered (d : frame) :
  columns (reordered d)
  = (filter (fun c => c ∈ columns d) ORDERED_COLS ++
     filter (fun c => c ∉ ORDERED_COLS) (columns d))%list.
Proof.
  unfold reordered, columns at 1. cbv zeta.
  rewrite <- list_fmap_compose, list_fmap_id. f_equal.
  apply filter_ext_in. intros X HX. rewrite list_elem_of_filter. tauto.
Qed.

Lemma get_col_reordered (d : frame) (X : string) : get_col X (reordered d) = get_col X d.
Proof.
  destruct (select_all_columns (S:=unit) ORDERED_COLS d tt) as (d' & Hrun & Hsame).
  rewrite (reorder_columns_eq d tt) in Hrun. injection Hrun as <-. apply Hsame.
Qed.

Lemma NoDup_ORDERED_COLS : NoDup ORDERED_COLS.
Proof. by_compute. Qed.

Lemma reordered_Permutation (d : frame) : NoDup (columns d) -> reordered d ≡ₚ d.
Proof.
  intros Hnd. rewrite (frame_by_labels d Hnd) at 2. unfold reordered. cbv zeta.
  apply fmap_Permutation. apply NoDup_Permutation; [|done|apply ordered_or_remaining].
  apply NoDup_app. split; [|split].
  - apply NoDup_filter, NoDup_ORDERED_COLS.
  - intros X HX. rewrite list_elem_of_filter. tauto.
  - by apply NoDup_filter.
Qed.

(** X9. reorder_columns never fails and loses nothing: on a frame with distinct
    labels it returns the same columns, each with its data, the known ones
    first in the fixed order and the others after them in the order they
    had. *)
Theorem reorder_columns_is_a_permutation (d : frame) (w : world) :
  NoDup (columns d) ->
  exists d',
    reorder_columns d w = (Ok d', w) /\
    d' ≡ₚ d /\
    (forall X, get_col X d' = get_col X d) /\
    columns d' = (filter (fun c => c ∈ columns d) ORDERED_COLS ++
                  filter (fun c => c ∉ ORDERED_COLS) (columns d))%list.
Proof.
  intros Hnd. exists (reordered d). split; [apply reorder_columns_reordered|].
  split; [by apply reordered_Permutation|].
  split; [apply get_col_reordered|apply columns_reordered].
Qed.

Lemma reordered_twice (d : frame) : reordered (reordered d) = reordered d.
Proof.
  unfold reordered at 1. cbv zeta.
  assert (Hcols : (filter (fun c => c ∈ columns (reordered d)) ORDERED_COLS ++
                   filter (fun c => c ∉ filter (fun c => c ∈ columns (reordered d)) ORDERED_COLS)
                     (columns (reordered d)))%list
                  = (filter (fun c => c ∈ columns d) ORDERED_COLS ++
                     filter (fun c => c ∉ filter (fun c => c ∈ columns d) ORDERED_COLS)
                       (columns d))%list).
  { assert (Hfinal : filter (fun c => c ∈ columns (reordered d)) ORDERED_COLS
                     = filter (fun c => c ∈ columns d) ORDERED_COLS).
    { apply filter_ext_in. intros X _. rewrite <- !get_col_Some_columns.
      by rewrite get_col_reordered. }
    rewrite Hfinal. f_equal.
    rewrite columns_reordered, filter_app.
    rewrite (filter_none _ (filter (fun c => c ∈ columns d) ORDERED_COLS)) by tauto.
    rewrite app_nil_l, filter_twice. apply filter_ext_in.
    intros X HX. rewrite list_elem_of_filter. tauto. }
  rewrite Hcols. unfold reordered. cbv zeta. apply list_fmap_ext. intros _ X _.
  by rewrite <- (get_col_reordered d X).
Qed.

(** X10. Reordering is idempotent on a frame with distinct labels:
    reorder_columns returns a frame with distinct labels, and on that frame
    it returns the same frame again. *)
Theorem reorder_columns_idempotent (d : frame) (w : world) :
  NoDup (columns d) ->
  exists d', reorder_columns d w = (Ok d', w) /\ NoDup (columns d') /\
             reorder_columns d' w = (Ok d', w).
Proof.
  intros Hnd. exists (reordered d). split; [apply reorder_columns_reordered|]. split.
  - unfold columns. by rewrite (reordered_Permutation d Hnd).
  - by rewrite reorder_columns_reordered, reordered_twice.
Qed.

End Reorder.

(** ** What a stage does to the labels *)

Lemma effect_refl (d : frame) : effect [] [] d d.
Proof.
  intros X. split.
  - intros HX. right. split; [done|apply not_elem_of_nil].
  - intros [HX%elem_of_nil|[HX _]]; done.
Qed.

Lemma effect_same (d d' : frame) : (forall X, get_col X d' = get_col X d) -> effect [] [] d d'.
Proof.
  intros Hsame X. rewrite <- !get_col_Some_columns, Hsame. split.
  - intros HX. right. split; [done|apply not_elem_of_nil].
  - intros [HX%elem_of_nil|[HX _]]; done.
Qed.

Lemma effect_set (n : string) (c : column) (d : frame) : effect [n] [] d (set_col n c d).
Proof.
  intros X. rewrite elem_columns_set, list_elem_of_singleton. split.
  - intros [HX|HX]; [by left|]. right. split; [done|apply not_elem_of_nil].
  - intros [HX|[HX _]]; [by left|by right].
Qed.

Lemma effect_drop (n : string) (d : frame) : effect [] [n] d (drop_col n d).
Proof.
  intros X. rewrite elem_columns_drop, list_elem_of_singleton. split.
  - intros HX. by right.
  - intros [HX%elem_of_nil|HX]; done.
Qed.

Lemma effect_trans (W1 D1 W2 D2 : list string) (d0 d1 d2 : frame) :
  effect W1 D1 d0 d1 -> effect W2 D2 d1 d2 -> Forall (fun X => X ∉ D2) W1 ->
  effect (W2 ++ W1) (D2 ++ D1) d0 d2.
Proof.
  intros H1 H2 Hside X. rewrite Forall_forall in Hside.
  rewrite (H2 X), (H1 X), elem_of_app, not_elem_of_app. split.
  - intros [HX|[[HX|[HX HD1]] HD2]]; [by left; left|by left; right|by right].
  - intros [[HX|HX]|[HX [HD2 HD1]]]; [by left|right|right].
    + split; [by left|by apply Hside].
    + split; [by right|done].
Qed.

Lemma effect_add_flags {A} (name : A -> string) (f : A -> cell -> cell) (raw : column)
    (d : frame) (l : list A) :
  effect (name <$> l) [] d (add_flags name f raw d l).
Proof.
  revert d. induction l as [|x l IH]; intros d; [apply effect_refl|].
  rewrite add_flags_cons. intros X. rewrite (IH _ X), elem_columns_set, fmap_cons, elem_of_cons.
  split.
  - intros [HX|[[HX|HX] _]]; [by left; right|by left; left|].
    right. split; [done|apply not_elem_of_nil].
  - intros [[HX|HX]|[HX _]]; [right|by left|right];
      (split; [|apply not_elem_of_nil]); [by left|by right].
Qed.

Lemma same_elements (l l' : list string) :
  Forall (fun X => X ∈ l') l -> Forall (fun X => X ∈ l) l' -> forall X, X ∈ l <-> X ∈ l'.
Proof. rewrite !Forall_forall. intros H1 H2 X. split; [apply H1|apply H2]. Qed.

Lemma effect_weaken (W D W' D' : list string) (d d' : frame) :
  effect W D d d' -> (forall X, X ∈ W <-> X ∈ W') -> (forall X, X ∈ D <-> X ∈ D') ->
  effect W' D' d d'.
Proof. intros Heff HW HD X. by rewrite (Heff X), (HW X), (HD X). Qed.

(** Peels the column assignments and drops off the frame on the right, then
    compares the labels found with the ones stated. *)
Ltac effect_peel :=
  lazymatch goal with
  | |- effect _ _ ?d ?d => apply effect_refl
  | |- effect _ _ _ (set_col _ _ _) =>
      eapply effect_trans; [|apply effect_set|]; [effect_peel|by_compute]
  | |- effect _ _ _ (drop_col _ _) =>
      eapply effect_trans; [|apply effect_drop|]; [effect_peel|by_compute]
  | |- effect _ _ _ (add_flags _ _ _ _ _) =>
      eapply effect_trans; [|apply effect_add_flags|]; [effect_peel|by_compute]
  end.

Ltac effect :=
  eapply effect_weaken; [effect_peel|apply same_elements; by_compute..].

(** ** The labels the recoder does not know *)

Lemma unknown_set (n : string) (c : column) (d : frame) :
  ~ unknown_label n ->
  filter unknown_label (columns (set_col n c d)) = filter unknown_label (columns d).
Proof.
  intros Hn. rewrite columns_set_col. destruct (bool_decide _); [done|].
  rewrite filter_app, filter_cons, decide_False by done. apply app_nil_r.
Qed.

Lemma unknown_drop (n : string) (d : frame) :
  ~ unknown_label n ->
  filter unknown_label (columns (drop_col n d)) = filter unknown_label (columns d).
Proof.
  intros Hn. rewrite columns_drop_col, filter_twice. apply filter_ext_in.
  intros X _. split; [tauto|]. intros HX. split; [done|]. by intros ->.
Qed.

Lemma unknown_add_flags {A} (name : A -> string) (f : A -> cell -> cell) (raw : column)
    (d : frame) (l : list A) :
  Forall (fun x => ~ unknown_label (name x)) l ->
  filter unknown_label (columns (add_flags name f raw d l)) = filter unknown_label (columns d).
Proof.
  revert d. induction l as [|x l IH]; intros d Hall; [done|].
  apply Forall_cons in Hall as [Hx Hall]. rewrite add_flags_cons, IH by done.
  by apply unknown_set.
Qed.

Ltac unknown :=
  repeat first
    [ reflexivity
    | rewrite unknown_set by by_compute
    | rewrite unknown_drop by by_compute
    | rewrite unknown_add_flags by by_compute ].

(** ** Rows *)

Lemma rect_get (n : nat) (d : frame) (X : string) (c : column) :
  rectangular n d -> get_col X d = Some c -> length c = n.
Proof.
  unfold rectangular. induction d as [|[k c0] d IH]; [done|].
  intros [Hc Hd]%Forall_cons. simpl. destruct (bool_decide (k = X)); [|by apply IH].
  by intros [= <-].
Qed.

Lemma rect_set (n : nat) (d : frame) (X : string) (c : column) :
  rectangular n d -> length c = n -> rectangular n (set_col X c d).
Proof.
  unfold rectangular. intros Hd Hc. induction d as [|[k c0] d IH]; simpl.
  - by apply Forall_singleton.
  - apply Forall_cons in Hd as [Hc0 Hd]. destruct (bool_decide (k = X)).
    + by apply Forall_cons.
    + apply Forall_cons. split; [done|by apply IH].
Qed.

Lemma rect_drop (n : nat) (d : frame) (X : string) :
  rectangular n d -> rectangular n (drop_col X d).
Proof.
  unfold rectangular, drop_col. intros Hd. apply Forall_forall.
  intros nc [_ Hnc]%list_elem_of_filter. rewrite Forall_forall in Hd. by apply Hd.
Qed.

Lemma rect_add_flags {A} (n : nat) (name : A -> string) (f : A -> cell -> cell)
    (raw : column) (d : frame) (l : list A) :
  rectangular n d -> length raw = n -> rectangular n (add_flags name f raw d l).
Proof.
  intros Hd Hraw. revert d Hd. induction l as [|x l IH]; intros d Hd; [done|].
  rewrite add_flags_cons. apply IH, rect_set; [done|]. by rewrite length_fmap.
Qed.

Lemma rect_rename (n : nat) (df : frame) : rectangular n df -> rectangular n (rename_labels df).
Proof. unfold rectangular, rename_labels. intros Hd. by apply Forall_fmap. Qed.

Lemma rect_reordered (n : nat) (d : frame) : rectangular n d -> rectangular n (reordered d).
Proof.
  intros Hd. unfold rectangular, reordered. cbv zeta. apply Forall_fmap, Forall_forall.
  intros X HX%ordered_or_remaining. apply get_col_Some_columns in HX as [c Hc].
  simpl. rewrite Hc. simpl. by eapply rect_get.
Qed.

Lemma rect_nrows (n : nat) (d : frame) : rectangular n d -> d <> [] -> nrows d = n.
Proof. destruct d as [|[k c] d]; [done|]. by intros [Hc _]%Forall_cons _. Qed.

(** ** No writes *)

Lemma writes_nothing_ret {A} (a : A) : writes_nothing (ret a).
Proof. by intros w. Qed.

Lemma writes_nothing_raise {A} (e : error) : writes_nothing (@raise world A e).
Proof. by intros w. Qed.

Lemma writes_nothing_warn (x : warning) : writes_nothing (warn x).
Proof. by intros w. Qed.

Lemma writes_nothing_col (label : string) (df : frame) : writes_nothing (col label df).
Proof. intros w. unfold col. by destruct (get_col label df). Qed.

Lemma writes_nothing_bind {A B} (m : M A) (k : A -> M B) :
  writes_nothing m -> (forall a, writes_nothing (k a)) -> writes_nothing (bind m k).
Proof.
  intros Hm Hk w. unfold bind. specialize (Hm w).
  destruct (m w) as [[a|e] w1]; simpl in *; [|done]. by rewrite Hk.
Qed.

Lemma writes_nothing_for_each {A S} (l : list A) (body : A -> S -> M S) (s : S) :
  (forall x s, writes_nothing (body x s)) -> writes_nothing (for_each l body s).
Proof.
  intros Hbody. revert s. induction l as [|x l IH]; intros s; simpl.
  - apply writes_nothing_ret.
  - apply writes_nothing_bind; [apply Hbody|apply IH].
Qed.

Ltac writes_nothing_step :=
  lazymatch goal with
  | |- writes_nothing (bind _ _) => apply writes_nothing_bind; [|intros ?]
  | |- writes_nothing (ret _) => apply writes_nothing_ret
  | |- writes_nothing (raise _) => apply writes_nothing_raise
  | |- writes_nothing (warn _) => apply writes_nothing_warn
  | |- writes_nothing (col _ _) => apply writes_nothing_col
  | |- writes_nothing (for_each _ _ _) => apply writes_nothing_for_each; intros ? ?
  | |- writes_nothing (select_cols _ _) => apply writes_nothing_for_each; intros ? ?
  | |- writes_nothing (if ?b then _ else _) => destruct b
  | |- writes_nothing (match ?x with _ => _ end) => destruct x
  end.

Ltac writes_nothing := cbv zeta; repeat writes_nothing_step.

(** ** The stages, one by one *)

Lemma step_trans (W1 D1 W2 D2 : list string) (d0 d1 d2 : frame) :
  step W1 D1 d0 d1 -> step W2 D2 d1 d2 -> Forall (fun X => X ∉ D2) W1 ->
  step (W2 ++ W1) (D2 ++ D1) d0 d2.
Proof.
  intros (E1 & U1 & R1) (E2 & U2 & R2) Hside. split; [|split].
  - by eapply effect_trans.
  - by rewrite U2.
  - intros n Hn. by apply R2, R1.
Qed.

Lemma step_weaken (W D W' D' : list string) (d d' : frame) :
  step W D d d' -> (forall X, X ∈ W <-> X ∈ W') -> (forall X, X ∈ D <-> X ∈ D') ->
  step W' D' d d'.
Proof. intros (E1 & U1 & R1) HW HD. split; [by eapply effect_weaken|done]. Qed.

(** The row count of a frame built from columns as long as a column of the
    frame it is built on. *)
Ltac rect Hd Hlen :=
  repeat first
    [ exact Hd
    | apply rect_drop
    | apply rect_add_flags; [|exact Hlen]
    | apply rect_set; [|rewrite ?length_fmap; exact Hlen] ].

Section Stages.
Context `{PandasText}.

Lemma drop_timestamp_step (d d' : frame) (w w' : world) :
  drop_timestamp d w = (Ok d', w') -> step [] ["timestamp"] d d'.
Proof.
  rewrite drop_timestamp_run. intros [= <- <-].
  destruct (decide ("timestamp" ∈ columns d)) as [Hin|Hin];
    [rewrite bool_decide_eq_true_2 by done|rewrite bool_decide_eq_false_2 by done].
  - split; [effect|split; [unknown|]]. intros n Hd. by apply rect_drop.
  - split; [|done]. intros X. split.
    + intros HX. right. split; [done|]. intros ->%list_elem_of_singleton. done.
    + by intros [HX%elem_of_nil|[HX _]].
Qed.

Lemma clean_age_step (d d' : frame) (w w' : world) :
  clean_age d w = (Ok d', w') -> step ["age"; "age_band"] [] d d'.
Proof.
  intros (raw & Hraw & _ & -> & ->)%clean_age_inv.
  split; [effect|split; [unknown|]]. intros n Hd.
  pose proof (rect_get _ _ _ _ Hd Hraw) as Hlen. rect Hd Hlen.
Qed.

Lemma clean_gender_step (d d' : frame) (w w' : world) :
  clean_gender d w = (Ok d', w') -> step ["gender_clean"; "gender_grouped"] ["gender_raw"] d d'.
Proof.
  intros Hrun. destruct (bind_col_needs _ _ _ _ _ _ Hrun) as [raw Hraw].
  rewrite (clean_gender_run d raw w Hraw) in Hrun. injection Hrun as <- <-.
  split; [effect|split; [unknown|]]. intros n Hd.
  pose proof (rect_get _ _ _ _ Hd Hraw) as Hlen. rect Hd Hlen.
Qed.

Lemma clean_yes_no_step (d d' : frame) (w w' : world) :
  clean_yes_no d w = (Ok d', w') -> step ["uses_social_media"] [] d d'.
Proof.
  intros (raw & Hraw & -> & ->)%clean_yes_no_inv.
  split; [effect|split; [unknown|]]. intros n Hd.
  pose proof (rect_get _ _ _ _ Hd Hraw) as Hlen. rect Hd Hlen.
Qed.

Lemma parse_platforms_step (d d' : frame) (w w' : world) :
  parse_platforms d w = (Ok d', w') -> step PLATFORM_LABELS [] d d'.
Proof.
  intros Hrun. destruct (parse_platforms_needs_raw _ _ _ _ Hrun) as [raw Hraw].
  rewrite (parse_platforms_run d raw w Hraw) in Hrun. injection Hrun as <- <-.
  split; [effect|split; [unknown|]]. intros n Hd.
  pose proof (rect_get _ _ _ _ Hd Hraw) as Hlen. rect Hd Hlen.
Qed.

Lemma parse_affiliations_step (d d' : frame) (w w' : world) :
  parse_affiliations d w = (Ok d', w') -> step AFFILIATION_LABELS [] d d'.
Proof.
  intros Hrun. destruct (parse_affiliations_needs_raw _ _ _ _ Hrun) as [raw Hraw].
  rewrite (parse_affiliations_run d raw w Hraw) in Hrun. injection Hrun as <- <-.
  split; [effect|split; [unknown|]]. intros n Hd.
  pose proof (rect_get _ _ _ _ Hd Hraw) as Hlen. rect Hd Hlen.
Qed.

Lemma create_time_midpoint_step (d d' : frame) (w w' : world) :
  create_time_midpoint d w = (Ok d', w') -> step ["daily_hours_midpoint"] [] d d'.
Proof.
  intros Hrun. destruct (bind_col_needs _ _ _ _ _ _ Hrun) as [band Hband].
  rewrite (create_time_midpoint_run d band w Hband) in Hrun. injection Hrun as <- _.
  split; [effect|split; [unknown|]]. intros n Hd.
  pose proof (rect_get _ _ _ _ Hd Hband) as Hlen. rect Hd Hlen.
Qed.

Lemma validate_loop_step (l : list string) (d d' : frame) (w w' : world) :
  Forall (fun c => ~ unknown_label c) l ->
  for_each l validate_likert_column d w = (Ok d', w') -> step l [] d d'.
Proof.
  revert d w. induction l as [|c l IH]; intros d w Hl Hrun.
  - apply ret_inv in Hrun as [-> _]. split; [apply effect_refl|done].
  - apply Forall_cons in Hl as [Hc Hl]. cbn [for_each] in Hrun.
    apply bind_inv in Hrun as (d1 & w1 & Hbody & Hrun).
    apply validate_body_inv in Hbody as (raw & Hraw & _ & -> & ->).
    apply IH in Hrun; [|done].
    apply (step_weaken (l ++ [c]) ([] ++ []) (c :: l) []);
      [|intros X; rewrite elem_of_app, !elem_of_cons; pose proof (not_elem_of_nil X); tauto|done].
    refine (step_trans [c] [] l [] d _ d' _ Hrun _).
    + split; [|split].
      * intros X. rewrite !elem_columns_set, list_elem_of_singleton. split.
        -- intros [HX|[HX|HX]]; [by left|by left|]. right. split; [done|apply not_elem_of_nil].
        -- intros [HX|[HX _]]; [by left|by right; right].
      * by rewrite !unknown_set.
      * intros n Hd. pose proof (rect_get _ _ _ _ Hd Hraw) as Hlen.
        unfold likert_stored. rect Hd Hlen.
    + by apply Forall_singleton, not_elem_of_nil.
Qed.

Lemma create_analysis_flag_step (d d' : frame) (w w' : world) :
  create_analysis_flag d w = (Ok d', w') -> step ["include_in_analysis"] [] d d'.
Proof.
  intros (uses & Huses & -> & ->)%create_analysis_flag_inv.
  split; [effect|split; [unknown|]]. intros n Hd.
  pose proof (rect_get _ _ _ _ Hd Huses) as Hlen. rect Hd Hlen.
Qed.

Lemma reorder_columns_step (d d' : frame) (w w' : world) :
  reorder_columns d w = (Ok d', w') -> step [] [] d d'.
Proof.
  rewrite reorder_columns_reordered. intros [= <- <-]. split; [|split].
  - apply effect_same, get_col_reordered.
  - rewrite columns_reordered, filter_app.
    rewrite (filter_none unknown_label).
    2:{ intros X [_ HX]%list_elem_of_filter Hun. apply Hun, elem_of_app. by left. }
    rewrite app_nil_l, filter_twice. apply filter_ext_in. intros X _.
    split; [tauto|]. intros HX. split; [done|]. intros Hin. apply HX, elem_of_app. by left.
  - intros n. apply rect_reordered.
Qed.

(** The whole transform: the labels of the cleaned table are the computed
    ones and those of the renamed table that are not removed; unknown labels
    keep their order; the row count is kept; the frame returned is the one
    reorder_columns builds. *)
Lemma transform_inv (df out : frame) (w w' : world) :
  transform df w = (Ok out, w') ->
  dom COLUMN_MAPPING ∖ list_to_set (columns df) =@{gset string} ∅ /\
  exists d10, step WRITTEN DROPPED (rename_labels df) d10 /\ out = reordered d10.
Proof.
  unfold transform. intros Hrun.
  apply bind_inv in Hrun as (d1 & w1 & H1 & Hrun).
  apply bind_inv in Hrun as (d2 & w2 & H2 & Hrun).
  apply bind_inv in Hrun as (d3 & w3 & H3 & Hrun).
  apply bind_inv in Hrun as (d4 & w4 & H4 & Hrun).
  apply bind_inv in Hrun as (d5 & w5 & H5 & Hrun).
  apply bind_inv in Hrun as (d6 & w6 & H6 & Hrun).
  apply bind_inv in Hrun as (d7 & w7 & H7 & Hrun).
  apply bind_inv in Hrun as (d8 & w8 & H8 & Hrun).
  apply bind_inv in Hrun as (d9 & w9 & H9 & Hrun).
  apply bind_inv in Hrun as (d10 & w10 & H10 & H11).
  apply rename_columns_inv in H1 as (-> & -> & Hmissing). split; [done|].
  apply drop_timestamp_step in H2. apply clean_age_step in H3.
  apply clean_gender_step in H4. apply clean_yes_no_step in H5.
  apply parse_platforms_step in H6. apply parse_affiliations_step in H7.
  apply create_time_midpoint_step in H8.
  apply validate_loop_step in H9; [|by_compute].
  apply create_analysis_flag_step in H10.
  rewrite reorder_columns_reordered in H11. injection H11 as <- <-.
  exists d10. split; [|done].
  pose proof (step_trans _ _ _ _ _ _ _ H2 H3 ltac:(by_compute)) as S3.
  pose proof (step_trans _ _ _ _ _ _ _ S3 H4 ltac:(by_compute)) as S4.
  pose proof (step_trans _ _ _ _ _ _ _ S4 H5 ltac:(by_compute)) as S5.
  pose proof (step_trans _ _ _ _ _ _ _ S5 H6 ltac:(by_compute)) as S6.
  pose proof (step_trans _ _ _ _ _ _ _ S6 H7 ltac:(by_compute)) as S7.
  pose proof (step_trans _ _ _ _ _ _ _ S7 H8 ltac:(by_compute)) as S8.
  pose proof (step_trans _ _ _ _ _ _ _ S8 H9 ltac:(by_compute)) as S9.
  pose proof (step_trans _ _ _ _ _ _ _ S9 H10 ltac:(by_compute)) as S10.
  eapply step_weaken; [exact S10|apply same_elements; by_compute..].
Qed.

Lemma transform_step (df out : frame) (w w' : world) :
  transform df w = (Ok out, w') -> step WRITTEN DROPPED (rename_labels df) out.
Proof.
  intros (_ & d10 & S10 & ->)%transform_inv.
  pose proof (reorder_columns_step d10 (reordered d10) w w (reorder_columns_reordered d10 w)) as S11.
  pose proof (step_trans _ _ _ _ _ _ _ S10 S11 ltac:(by_compute)) as S.
  eapply step_weaken; [exact S|apply same_elements; by_compute..].
Qed.

End Stages.

(** ** The recoder as a whole *)

Section Whole.
Context `{PandasText}.

Lemma recode_err (df : frame) (w w' : world) (e : error) :
  recode df w = (Err e, w') ->
  (e = MissingExpectedColumns (missing_cols df) \/ e = UnsafeCast) /\ w' = w.
Proof.
  destruct (decide (dom COLUMN_MAPPING ∖ list_to_set (columns df) =@{gset string} ∅)) as [Hm|Hm].
  - destruct (renamed_has df Hm "age" ltac:(by_compute)) as [raw Hraw].
    destruct (ages_fit raw) eqn:Hfit.
    + assert (Hage : forall raw', get_col "age" (rename_labels df) = Some raw' ->
                                  ages_fit raw' = true) by (intros raw'; congruence).
      destruct (recode_run df w Hm Hage) as (d8 & w8 & Hr). by rewrite Hr.
    + unfold recode. rewrite (bind_Ok _ _ _ _ _ (rename_columns_run df w Hm)).
      pose proof (drop_timestamp_run (rename_labels df) w) as R2.
      rewrite (bind_Ok _ _ _ _ _ R2). apply drop_timestamp_agree in R2 as [A2 _].
      rewrite <- (A2 "age") in Hraw by by_compute.
      rewrite (bind_Err _ _ _ _ _ (clean_age_overflow _ raw w Hraw Hfit)).
      intros [= <- <-]. split; [by right|done].
  - assert (Hr : rename_columns df w = (Err (MissingExpectedColumns (missing_cols df)), w))
      by (unfold rename_columns; by rewrite bool_decide_eq_false_2).
    unfold recode. rewrite (bind_Err _ _ _ _ _ Hr). intros [= <- <-]. split; [by left|done].
Qed.

Lemma likert_verdict_kind (c : string) (nums : list (option Q)) (e : error) :
  likert_verdict c nums = Some e ->
  (exists m, e = LikertBelow1 c m) \/ (exists m, e = LikertAbove5 c m) \/ e = UnsafeCast.
Proof.
  unfold likert_verdict.
  destruct (col_min nums) as [m|]; [destruct (Qltb m 1)|];
    (destruct (col_max nums) as [m'|]; [destruct (Qltb 5 m')|]);
    destruct (forallb _ _); cbn; intros [= <-]; eauto.
Qed.

Lemma writes_nothing_validate_likert_column c d : writes_nothing (validate_likert_column c d).
Proof. unfold validate_likert_column, astype_Int64. writes_nothing. Qed.

Lemma writes_nothing_transform (df : frame) : writes_nothing (transform df).
Proof.
  unfold transform.
  apply writes_nothing_bind; [unfold rename_columns; writes_nothing|intros ?].
  apply writes_nothing_bind; [unfold drop_timestamp; writes_nothing|intros ?].
  apply writes_nothing_bind; [unfold clean_age, round_Int64; writes_nothing|intros ?].
  apply writes_nothing_bind; [unfold clean_gender; writes_nothing|intros ?].
  apply writes_nothing_bind; [unfold clean_yes_no; writes_nothing|intros ?].
  apply writes_nothing_bind; [unfold parse_platforms; writes_nothing|intros ?].
  apply writes_nothing_bind; [unfold parse_affiliations; writes_nothing|intros ?].
  apply writes_nothing_bind; [unfold create_time_midpoint; writes_nothing|intros ?].
  apply writes_nothing_bind.
  { apply writes_nothing_for_each. intros ? ?. apply writes_nothing_validate_likert_column. }
  intros ?.
  apply writes_nothing_bind; [unfold create_analysis_flag; writes_nothing|intros ?].
  unfold reorder_columns. writes_nothing.
Qed.

(** After the stages before validation the Likert columns and the usage
    column are there. *)
Lemma recode_has (df d8 : frame) (w w8 : world) :
  recode df w = (Ok d8, w8) ->
  has LIKERT_COLUMNS d8 /\ is_Some (get_col "uses_social_media" d8).
Proof.
  intros Hr. apply recode_inv in Hr as (Hm & _ & Hsame & raw & _ & Huses). split; [|by eexists].
  intros c Hc. pose proof likert_not_recoded as Hnr. rewrite Forall_forall in Hnr.
  pose proof likert_are_clean_names as Hcl. rewrite Forall_forall in Hcl.
  rewrite (Hsame c (Hnr c Hc)). by apply (renamed_has df Hm), Hcl.
Qed.

(** The errors the transform can end with. *)
Lemma transform_err_kind (df : frame) (w w' : world) (e : error) :
  transform df w = (Err e, w') ->
  e = MissingExpectedColumns (missing_cols df) \/ e = UnsafeCast \/
  exists c m, e = LikertBelow1 c m \/ e = LikertAbove5 c m.
Proof.
  rewrite transform_split.
  destruct (recode df w) as [[d8|e8] w8] eqn:Hr.
  - rewrite (bind_Ok _ _ _ _ _ Hr). destruct (recode_has _ _ _ _ Hr) as [Hlik [uses Huses]].
    unfold finish. destruct (validate_likert_scales d8 w8) as [[d9|e9] w9] eqn:Hv.
    + rewrite (bind_Ok _ _ _ _ _ Hv).
      apply (validate_loop_inv _ _ _ _ _ NoDup_LIKERT_COLUMNS) in Hv as (-> & Hag & _).
      assert (Huses9 : get_col "uses_social_media" d9 = Some uses)
        by (rewrite (Hag "uses_social_media"); [done|by_compute]).
      rewrite (bind_Ok _ _ _ _ _ (create_analysis_flag_run d9 uses w8 Huses9)).
      by rewrite reorder_columns_reordered.
    + rewrite (bind_Err _ _ _ _ _ Hv). intros [= <- <-].
      apply (validate_loop_err _ _ _ _ _ NoDup_LIKERT_COLUMNS) in Hv
        as (_ & c & Hc & [[Hnone _]|(raw & _ & Hverdict)]).
      * destruct (Hlik c Hc) as [x Hx]. congruence.
      * apply likert_verdict_kind in Hverdict as [[m ->]|[[m ->]| ->]]; eauto 6.
  - rewrite (bind_Err _ _ _ _ _ Hr). intros [= <- <-].
    apply recode_err in Hr as [[-> | ->] _]; eauto.
Qed.

(** An error of the transform never reports an absent column. *)
Lemma transform_err_no_lookup (df : frame) (w w' : world) (e : error) :
  transform df w = (Err e, w') -> ~ lookup_error e.
Proof.
  intros [->|[->|(c & m & [->| ->])]]%transform_err_kind; cbn; tauto.
Qed.

Lemma transform_err_no_division (df : frame) (w w' : world) :
  transform df w = (Err ZeroDivision, w') -> False.
Proof.
  by intros [?|[?|(c & m & [?|?])]]%transform_err_kind.
Qed.

(** The cleaned table has the columns the report reads. *)
Lemma transform_has_report_cols (df out : frame) (w w' : world) :
  transform df w = (Ok out, w') -> has REPORT_COLS out.
Proof.
  intros (Heff & _ & _)%transform_step X HX.
  apply get_col_Some_columns, Heff. left. revert X HX.
  apply (proj1 (Forall_forall (fun X => X ∈ WRITTEN) REPORT_COLS)). by_compute.
Qed.

(** X14. A run that gets past the header check never stops for want of a column:
    no error of run_etl on an existing file reports an absent column or
    file; the check for a missing Likert column cannot fail there. *)
Theorem run_etl_never_lacks_a_column
    (df : frame) (rp pp dp tp : string) (w w' : world) (e : error) :
  run_etl (Some df) rp pp dp tp w = (Err e, w') -> ~ lookup_error e.
Proof.
  rewrite run_etl_eq.
  destruct (quality_checks df "raw" w) as [[cb|e0] w0] eqn:Hq0;
    apply quality_checks_inv in Hq0 as [Hw0 Hq0]; cycle 1.
  { destruct Hq0 as (-> & _). intros [= <- <-]. cbn. tauto. }
  destruct (transform df w0) as [[out|e1] w1] eqn:Ht; cycle 1.
  { intros [= <- <-]. by apply (transform_err_no_lookup df w0 w1). }
  destruct (quality_checks out "processed" w1) as [[ca|e2] w2] eqn:Hq2;
    apply quality_checks_inv in Hq2 as [Hw2 Hq2]; cycle 1.
  { destruct Hq2 as (-> & _). intros [= <- <-]. cbn. tauto. }
  rewrite (generate_etl_report_run out cb ca tp _ (transform_has_report_cols _ _ _ _ Ht)).
  destruct (nrows out =? 0)%nat; [|done]. intros [= <- <-]. cbn. tauto.
Qed.

(** X15. The output files are written last: a run that returns has written the
    cleaned table, the data dictionary and the report, in that order and
    after the last stage and the last check, and its table has a row. A run
    that fails has written no file, with one exception: on a cleaned table
    without rows the report fails on a division by the row count, after the
    cleaned table and the data dictionary were written, and these two files
    stay. Without the raw file the run stops at once, with no file written
    and no warning printed. *)
Theorem run_etl_writes_its_files_last
    (df : frame) (rp pp dp tp : string) (w : world) :
  match run_etl (Some df) rp pp dp tp w with
  | (Ok out, w') =>
      written w' = (written w ++ [(pp, CleanCsv out);
                                  (dp, DataDictionary (columns out) (nrows out));
                                  (tp, EtlReport out)])%list /\
      nrows out <> 0%nat
  | (Err e, w') =>
      (e <> ZeroDivision -> written w' = written w) /\
      (e = ZeroDivision ->
         exists out w0 w1,
           transform df w0 = (Ok out, w1) /\ nrows out = 0%nat /\
           written w' = (written w ++ [(pp, CleanCsv out);
                                       (dp, DataDictionary (columns out) (nrows out))])%list)
  end /\
  run_etl None rp pp dp tp w = (Err (FileNotFound rp), w).
Proof.
  split; [|done]. rewrite run_etl_eq.
  destruct (quality_checks df "raw" w) as [[cb|e0] w0] eqn:Hq0;
    apply quality_checks_inv in Hq0 as [Hw0 Hq0]; cycle 1.
  { destruct Hq0 as (-> & _). split; [done|]. intros [=]. }
  pose proof (writes_nothing_transform df w0) as Hw1.
  destruct (transform df w0) as [[out|e1] w1] eqn:Ht; cbn [snd] in Hw1; cycle 1.
  { split; [intros _; by rewrite Hw1|]. intros ->.
    by apply transform_err_no_division in Ht. }
  destruct (quality_checks out "processed" w1) as [[ca|e2] w2] eqn:Hq2;
    apply quality_checks_inv in Hq2 as [Hw2 Hq2]; cycle 1.
  { destruct Hq2 as (-> & _ & ->). split; [intros _; by rewrite Hw1|]. intros [=]. }
  rewrite (generate_etl_report_run out cb ca tp _ (transform_has_report_cols _ _ _ _ Ht)).
  destruct (nrows out =? 0)%nat eqn:Hn.
  - apply Nat.eqb_eq in Hn. split; [done|]. intros _. exists out, w0, w1.
    split; [done|]. split; [done|]. cbn [written]. by rewrite Hw2, Hw1, Hw0.
  - apply Nat.eqb_neq in Hn. split; [|done]. cbn [written].
    rewrite Hw2, Hw1, Hw0. by rewrite <- app_assoc.
Qed.

(** X12. The cleaned table holds no timestamp and no raw gender answer: whatever
    the raw table, a transform that returns gives a table without the columns
    [timestamp] and [gender_raw]. *)
Theorem cleaned_table_has_no_timestamp (df out : frame) (w w' : world) :
  transform df w = (Ok out, w') ->
  ("timestamp" ∉ columns out) /\ ("gender_raw" ∉ columns out).
Proof.
  intros (Heff & _ & _)%transform_step.
  assert (Hdrop : forall X, X ∈ DROPPED -> X ∉ columns out).
  { intros X HX Hin. apply Heff in Hin as [Hin|[_ Hin]]; [|done].
    revert X HX Hin.
    apply (proj1 (Forall_forall (fun X => X ∉ WRITTEN) DROPPED)). by_compute. }
  split; apply Hdrop; by_compute.
Qed.

(** X13. The recoder keeps every row: the cleaned table has as many rows as the
    raw one, in every column; no row is dropped, duplicates and non-users
    included. *)
Theorem transform_keeps_every_row (n : nat) (df out : frame) (w w' : world) :
  rectangular n df -> transform df w = (Ok out, w') ->
  rectangular n out /\ nrows out = nrows df.
Proof.
  intros Hrect Ht. pose proof Ht as (Hm & _)%transform_inv.
  apply transform_step in Ht as (Heff & _ & Hrows).
  assert (Hout : rectangular n out) by (by apply Hrows, rect_rename).
  split; [done|].
  rewrite (rect_nrows n out Hout), (rect_nrows n df Hrect); [done| |].
  - intros ->. assert (Hin : "Timestamp" ∈ dom COLUMN_MAPPING ∖ list_to_set (C:=gset string) (columns [])).
    { apply elem_of_difference. split; [by_compute|]. rewrite elem_of_list_to_set. apply not_elem_of_nil. }
    rewrite Hm in Hin. by apply elem_of_empty in Hin.
  - intros ->. assert (Hin : "age" ∈ columns []) by (apply Heff; left; by_compute).
    by apply elem_of_nil in Hin.
Qed.

Lemma transform_columns (df out : frame) (w w' : world) :
  transform df w = (Ok out, w') ->
  columns out = (ORDERED_COLS ++ filter unknown_label (columns (rename_labels df)))%list.
Proof.
  intros (Hm & d10 & (Heff & Hun & _) & ->)%transform_inv.
  rewrite columns_reordered. f_equal.
  - apply filter_all. intros X HX. apply Heff.
    assert (HF : Forall (fun X => X ∈ WRITTEN \/ X ∈ COLUMN_ITEMS.*2 /\ X ∉ DROPPED) ORDERED_COLS)
      by by_compute.
    rewrite Forall_forall in HF. destruct (HF X HX) as [HW|[HC HD]]; [by left|right].
    split; [|done]. by apply get_col_Some_columns, (renamed_has df Hm).
  - rewrite <- Hun. apply filter_ext_in. intros X HX. unfold unknown_label.
    rewrite not_elem_of_app. split; [|tauto]. intros HO. split; [done|].
    intros HD. apply Heff in HX as [HX|[_ HX]]; [|done].
    clear HO. revert X HD HX.
    apply (proj1 (Forall_forall (fun X => X ∉ WRITTEN) DROPPED)). by_compute.
Qed.

(** X11. The columns of the cleaned table: the forty known ones in the fixed
    order, then the columns of the raw table that the recoder does not know,
    in the order they had. *)
Theorem cleaned_table_columns (df out : frame) (w w' : world) :
  NoDup (columns (rename_labels df)) ->
  transform df w = (Ok out, w') ->
  columns out = (ORDERED_COLS ++ filter unknown_label (columns (rename_labels df)))%list /\
  length ORDERED_COLS = 40%nat /\
  NoDup (columns out).
Proof.
  intros Hnd Hcols%transform_columns.
  split; [done|]. split; [done|]. rewrite Hcols. apply NoDup_app. split; [|split].
  - apply NoDup_ORDERED_COLS.
  - intros X HX [Hun' _]%list_elem_of_filter. apply Hun', elem_of_app. by left.
  - by apply NoDup_filter.
Qed.

(** X8. After a run of the transform that returns, every Likert column of the
    cleaned table holds, row by row, the raw answer as an integer from 1 to 5,
    or a missing value where the raw answer is missing or no number. *)
Theorem likert_columns_hold_one_to_five (df out : frame) (w w' : world) :
  transform df w = (Ok out, w') ->
  forall c, c ∈ LIKERT_COLUMNS ->
    exists raw,
      get_col c (rename_labels df) = Some raw /\
      get_col c out = Some ((fun v => of_Int64 (Qfloor <$> to_numeric v)) <$> raw) /\
      Forall likert_cell ((fun v => of_Int64 (Qfloor <$> to_numeric v)) <$> raw) /\
      (forall v q, v ∈ raw -> to_numeric v = Some q ->
         (inject_Z (Qfloor q) == q)%Q /\ 1 <= Qfloor q <= 5).
Proof.
  rewrite transform_split. intros Hrun c Hc.
  apply bind_inv in Hrun as (d8 & w8 & H8 & Hfin).
  apply recode_inv in H8 as (_ & _ & Hsame & _).
  apply finish_inv in Hfin as (-> & d9 & uses & H9 & _ & Hout).
  apply (validate_loop_inv _ _ _ _ _ NoDup_LIKERT_COLUMNS) in H9 as (_ & _ & Hcols).
  destruct (Hcols c Hc) as (raw & Hraw & Hv & Hst).
  pose proof likert_not_recoded as Hnr. rewrite Forall_forall in Hnr.
  rewrite (Hsame c (Hnr c Hc)) in Hraw. rewrite likert_verdict_None in Hv.
  assert (Hnum : forall v q, v ∈ raw -> to_numeric v = Some q ->
            (inject_Z (Qfloor q) == q)%Q /\ 1 <= Qfloor q <= 5).
  { intros v q Hv' Hq.
    destruct (Hv q) as (H1 & H5 & Hwhole).
    { rewrite <- Hq. by apply list_elem_of_fmap_2. }
    unfold is_whole in Hwhole. apply Qeq_bool_iff in Hwhole. split; [done|].
    rewrite <- Hwhole in H1, H5. split.
    - rewrite (Zle_Qle 1). exact H1.
    - rewrite (Zle_Qle _ 5). exact H5. }
  exists raw. split; [done|]. split; [|split; [|done]].
  - rewrite Hout, get_set_ne.
    + rewrite Hst. unfold likert_stored. by rewrite <- list_fmap_compose.
    + intros <-. revert Hc. by_compute.
  - apply Forall_fmap, Forall_forall. intros v Hv'. cbn.
    destruct (to_numeric v) as [q|] eqn:Hq; [|by left].
    right. exists (Qfloor q). split; [done|]. by apply (Hnum v q).
Qed.

End Whole.

(** ** The stages, continued *)

Section StageProperties.
Context `{PandasText}.

(** *** rename_columns *)

Lemma elem_missing_cols (df : frame) (k : string) :
  k ∈ missing_cols df <-> k ∈ COLUMN_ITEMS.*1 /\ k ∉ columns df.
Proof.
  unfold missing_cols. rewrite elem_of_difference, elem_of_list_to_set.
  unfold COLUMN_MAPPING. by rewrite dom_list_to_map_L, elem_of_list_to_set.
Qed.

Lemma get_col_renamed (df : frame) (k : string) :
  NoDup (columns (rename_labels df)) -> k ∈ columns df ->
  get_col (default k (COLUMN_MAPPING !! k)) (rename_labels df) = get_col k df.
Proof.
  unfold columns, rename_labels. induction df as [|[k0 c0] df IH]; [by intros _ ?%elem_of_nil|].
  cbn [fmap list_fmap fst snd get_col]. intros [Hk0 Hnd]%NoDup_cons Hk.
  destruct (decide (k0 = k)) as [->|Hne].
  - by rewrite !bool_decide_eq_true_2.
  - apply elem_of_cons in Hk as [->|Hk]; [done|].
    rewrite (bool_decide_eq_false_2 (k0 = k)) by done.
    rewrite bool_decide_eq_false_2; [by apply IH|].
    intros Heq. apply Hk0. rewrite Heq.
    apply list_elem_of_fmap_1 in Hk as ([k' c] & -> & Hkc).
    apply list_elem_of_fmap. exists (default k' (COLUMN_MAPPING !! k'), c). split; [done|].
    apply list_elem_of_fmap. by exists (k', c).
Qed.

(** X1. rename_columns first checks the headers: when an expected header is
    absent it raises the error that lists exactly the absent ones, and
    changes nothing. Otherwise it returns the table with the same columns in
    the same order, each under its clean name (a header it does not know
    keeps its name), and with distinct labels every column of the raw table
    is found under its new name. *)
Theorem rename_columns_checks_then_renames (df : frame) (w : world) :
  (forall k, k ∈ missing_cols df <-> k ∈ COLUMN_ITEMS.*1 /\ k ∉ columns df) /\
  (missing_cols df <> ∅ ->
     rename_columns df w = (Err (MissingExpectedColumns (missing_cols df)), w)) /\
  (missing_cols df = ∅ ->
     exists d, rename_columns df w = (Ok d, w) /\
       d.*2 = df.*2 /\
       columns d = (fun k => default k (COLUMN_MAPPING !! k)) <$> columns df /\
       (forall k, k ∈ columns df -> k ∉ COLUMN_ITEMS.*1 -> k ∈ columns d) /\
       (NoDup (columns d) -> forall k, k ∈ columns df ->
          get_col (default k (COLUMN_MAPPING !! k)) d = get_col k df)).
Proof.
  split; [apply elem_missing_cols|]. split.
  - intros Hm. unfold rename_columns. by rewrite bool_decide_eq_false_2.
  - intros Hm. exists (rename_labels df). split; [by apply rename_columns_run|].
    assert (Hcols : columns (rename_labels df)
                    = (fun k => default k (COLUMN_MAPPING !! k)) <$> columns df).
    { unfold columns, rename_labels. rewrite <- !list_fmap_compose. done. }
    split; [|split; [done|split]].
    + unfold rename_labels. rewrite <- list_fmap_compose. done.
    + intros k Hk Hunknown. rewrite Hcols. apply list_elem_of_fmap. exists k. split; [|done].
      assert (COLUMN_MAPPING !! k = None) as -> by (by apply not_elem_of_list_to_map_1).
      done.
    + intros Hnd k Hk. by apply get_col_renamed.
Qed.

(** *** clean_gender *)

Lemma gender_group_of_category :
  Forall (fun c => exists g, GENDER_GROUPING !! c = Some g /\ g ∈ GENDER_GROUPS /\
                     (g = "Male" <-> c = "Male") /\ (g = "Female" <-> c = "Female"))
    GENDER_CATEGORIES.
Proof.
  repeat (apply List.Forall_cons;
          [eexists; split; [vm_compute; reflexivity|
             split; [by_compute|split; (split; intros Heq; [done || discriminate Heq..])]]|]).
  apply List.Forall_nil.
Qed.

(** X3. clean_gender gives every row a gender group: the grouped column has a
    text in every row, one of the four groups, Male and Female exactly for
    the clean values Male and Female; the raw answers are dropped from the
    table. *)
Theorem gender_grouped_is_never_missing (df df' : frame) (w w' : world) :
  clean_gender df w = (Ok df', w') ->
  exists raw grouped,
    get_col "gender_raw" df = Some raw /\
    w' = w /\
    ("gender_raw" ∉ columns df') /\
    get_col "gender_grouped" df' = Some grouped /\
    length grouped = length raw /\
    forall i v, raw !! i = Some v ->
      exists g, grouped !! i = Some (Str g) /\
                GENDER_GROUPING !! normalise_gender v = Some g /\
                g ∈ GENDER_GROUPS /\
                (g = "Male" <-> normalise_gender v = "Male") /\
                (g = "Female" <-> normalise_gender v = "Female").
Proof.
  intros Hrun. destruct (bind_col_needs _ _ _ _ _ _ Hrun) as [raw Hraw].
  rewrite (clean_gender_run df raw w Hraw) in Hrun. injection Hrun as <- <-.
  eexists raw, _. split; [done|]. split; [done|]. split.
  { rewrite <- get_col_Some_columns, get_drop_eq. by intros [? ?]. }
  split; [rewrite get_drop_ne by done; apply get_set_eq|].
  split; [by rewrite !length_fmap|].
  intros i v Hi. pose proof gender_group_of_category as HF. rewrite Forall_forall in HF.
  destruct (HF _ (normalise_gender_closed v)) as (g & Hg & Hrest). exists g.
  split; [|by split]. rewrite !list_lookup_fmap, Hi. cbn [fmap option_fmap option_map map_dict].
  by rewrite Hg.
Qed.

(** *** clean_yes_no *)

Lemma to_bool_text (s : string) :
  to_bool (Str s) =
    if Py.elem (Py.lower (Py.strip s)) ["yes"; "y"; "true"; "1"] then Some true
    else if Py.elem (Py.lower (Py.strip s)) ["no"; "n"; "false"; "0"] then Some false
    else None.
Proof. done. Qed.

Lemma to_bool_again (v : cell) : to_bool (of_bool (to_bool v)) = to_bool v.
Proof. by destruct (to_bool v) as [[]|]. Qed.

(** X4. The yes/no answer does not depend on letter case or on white space
    around the text; a missing answer stays missing; and cleaning a cleaned
    answer changes nothing, for one cell and for the whole table. *)
Theorem yes_no_cleaning_is_stable :
  (forall s t, Py.lower s = Py.lower t -> to_bool (Str s) = to_bool (Str t)) /\
  (forall a s b, Py.all_space a = true -> Py.all_space b = true ->
     to_bool (Str (a ++ s ++ b)) = to_bool (Str s)) /\
  to_bool NA = None /\
  (forall v, to_bool (of_bool (to_bool v)) = to_bool v) /\
  (forall df d1 w w1, clean_yes_no df w = (Ok d1, w1) -> clean_yes_no d1 w1 = (Ok d1, w1)).
Proof.
  split; [|split; [|split; [done|split; [apply to_bool_again|]]]].
  - intros s t Heq. rewrite !to_bool_text, <- !strip_lower. by rewrite Heq.
  - intros a s b Ha Hb. rewrite !to_bool_text. by rewrite strip_padding.
  - intros df d1 w w1 (raw & Hraw & -> & ->)%clean_yes_no_inv.
    rewrite (clean_yes_no_run _ _ w (get_set_eq _ _ _)). do 2 f_equal.
    rewrite set_col_twice. f_equal. rewrite <- list_fmap_compose.
    apply list_fmap_ext. intros _ v _. cbn. by rewrite to_bool_again.
Qed.

(** *** parse_platforms *)

Lemma platform_sum_bounds (l : list string) (v : cell) :
  0 <= foldr Z.add 0 ((fun p => has_platform p v) <$> l) <= Z.of_nat (length l).
Proof.
  induction l as [|p l IH]; [done|]. cbn [fmap list_fmap foldr length].
  destruct (has_platform_01 p v) as [-> | ->]; lia.
Qed.

(** X5. parse_platforms counts between 0 and 9 platforms in every row, and
    leaves the raw answer in the table as it was. *)
Theorem platform_count_is_between_0_and_9 (df df' : frame) (w w' : world) :
  parse_platforms df w = (Ok df', w') ->
  exists raw count,
    get_col "platforms_raw" df = Some raw /\
    w' = w /\
    get_col "platforms_raw" df' = Some raw /\
    get_col "platform_count" df' = Some count /\
    length count = length raw /\
    Forall (fun c => exists z, c = Int z /\ 0 <= z <= 9) count.
Proof.
  intros Hrun. destruct (parse_platforms_needs_raw _ _ _ _ Hrun) as [raw Hraw].
  pose proof (parse_platforms_agree _ _ _ _ Hrun) as [Hag _].
  rewrite (parse_platforms_run df raw w Hraw) in Hrun. injection Hrun as <- <-.
  eexists raw, _. split; [done|]. split; [done|].
  split; [rewrite (Hag "platforms_raw"); [done|by_compute]|].
  split; [apply get_set_eq|]. split; [by rewrite length_fmap|].
  apply Forall_fmap, Forall_forall. intros v _. eexists. split; [done|].
  apply (platform_sum_bounds PLATFORMS v).
Qed.

(** *** parse_affiliations *)

Lemma has_affiliation_01 (values : list string) (v : cell) :
  has_affiliation values v = 1 \/ has_affiliation values v = 0.
Proof.
  unfold has_affiliation. destruct (isna v).
  - destruct (Py.elem _ _); [by left|by right].
  - destruct (existsb _ _); [by left|by right].
Qed.

Lemma has_affiliation_present (values : list string) (v : cell) :
  isna v = false ->
  (has_affiliation values v = 1 <->
   exists value pre post,
     value ∈ values /\ Py.lower (Py.strip (py_str v)) = pre ++ Py.lower value ++ post).
Proof.
  intros Hna. unfold has_affiliation. rewrite Hna.
  destruct (existsb _ values) eqn:E.
  - split; [intros _|done]. apply existsb_exists in E as (value & Hin%list_elem_of_In & Hc).
    apply contains_spec in Hc as (pre & post & Heq). by exists value, pre, post.
  - split; [done|]. intros (value & pre & post & Hin & Heq). exfalso.
    apply not_true_iff_false in E. apply E, existsb_exists. exists value.
    split; [by apply list_elem_of_In|]. apply contains_spec. by exists pre, post.
Qed.

(** X6. parse_affiliations sets one 0/1 flag per affiliation key from the raw
    answer, which it leaves in the table: the flag of a present answer is 1
    exactly when one of the key's values occurs in the trimmed answer up to
    letter case, so the government flag also accepts the misspelt value; the
    flag of a missing answer is 1 exactly for a key that lists the empty
    text. *)
Theorem affiliation_flags_by_substring (df df' : frame) (w w' : world) :
  parse_affiliations df w = (Ok df', w') ->
  exists raw,
    get_col "org_affiliations_raw" df = Some raw /\
    w' = w /\
    get_col "org_affiliations_raw" df' = Some raw /\
    (forall key values, (key, values) ∈ AFFILIATIONS ->
       get_col (affil_col key) df' = Some ((fun v => Int (has_affiliation values v)) <$> raw)) /\
    (forall values v, has_affiliation values v = 1 \/ has_affiliation values v = 0) /\
    (forall values, has_affiliation values NA = 1 <-> "" ∈ values) /\
    (forall values v, isna v = false ->
       (has_affiliation values v = 1 <->
        exists value pre post,
          value ∈ values /\ Py.lower (Py.strip (py_str v)) = pre ++ Py.lower value ++ post)) /\
    has_affiliation ["Government"; "Goverment"] (Str " goverment school ") = 1.
Proof.
  intros Hrun. destruct (parse_affiliations_needs_raw _ _ _ _ Hrun) as [raw Hraw].
  pose proof (parse_affiliations_agree _ _ _ _ Hrun) as [Hag _].
  rewrite (parse_affiliations_run df raw w Hraw) in Hrun. injection Hrun as <- <-.
  exists raw. split; [done|]. split; [done|].
  split; [rewrite (Hag "org_affiliations_raw"); [done|by_compute]|].
  split; [|split; [apply has_affiliation_01|split; [|split; [apply has_affiliation_present|done]]]].
  - intros key values Hin.
    apply (get_add_flags_in (fun item : string * list string => affil_col item.1)
             (fun item v => Int (has_affiliation item.2 v)) raw df AFFILIATIONS
             (key, values) NoDup_affil_cols Hin).
  - intros values. unfold has_affiliation, Py.elem. cbn [isna].
    case_bool_decide; split; done.
Qed.

(** *** Age bands *)

Lemma py_int_below (q : Q) (k : Z) : 0 < k -> (py_int q < k <-> (q < inject_Z k)%Q).
Proof.
  intros Hk. unfold py_int. destruct (Qle_bool 0 q) eqn:E.
  - split.
    + intros Hlt. apply Qlt_le_trans with (inject_Z (Qfloor q + 1)); [apply Qlt_floor|].
      rewrite <- Zle_Qle. lia.
    + intros Hlt. rewrite Zlt_Qlt. eapply Qle_lt_trans; [apply Qfloor_le|done].
  - apply not_true_iff_false in E. rewrite Qle_bool_iff in E. apply Qnot_le_lt in E.
    split.
    + intros _. apply Qlt_trans with 0%Q; [done|].
      change 0%Q with (inject_Z 0). by rewrite <- Zlt_Qlt.
    + intros _. pose proof (Qceiling_resp_le q (inject_Z 0) (Qlt_le_weak _ _ E)) as Hc.
      rewrite Qceiling_Z in Hc. lia.
Qed.

(** X2. The age band of a numeric age is decided by the age truncated to an
    integer, so the bands are the intervals below 18, from 18 to below 25,
    from 25 to below 35, from 35 to below 45, and from 45 on; it is never
    "Unknown". The stored age is rounded instead: 24.9 is stored as 25 in the
    band 18-24. *)
Theorem age_bands_are_intervals (q : Q) :
  (get_age_band (Some q) = "<18" <-> (q < 18)%Q) /\
  (get_age_band (Some q) = "18-24" <-> (18 <= q)%Q /\ (q < 25)%Q) /\
  (get_age_band (Some q) = "25-34" <-> (25 <= q)%Q /\ (q < 35)%Q) /\
  (get_age_band (Some q) = "35-44" <-> (35 <= q)%Q /\ (q < 45)%Q) /\
  (get_age_band (Some q) = "45+" <-> (45 <= q)%Q) /\
  get_age_band (Some q) <> "Unknown" /\
  get_age_band None = "Unknown" /\
  (round_half_even (249 # 10) = 25 /\ get_age_band (Some (249 # 10)) = "18-24").
Proof.
  pose proof (py_int_below q 18 ltac:(done)) as H18.
  pose proof (py_int_below q 25 ltac:(done)) as H25.
  pose proof (py_int_below q 35 ltac:(done)) as H35.
  pose proof (py_int_below q 45 ltac:(done)) as H45.
  assert (Hge : forall k : Z, (inject_Z k <= q)%Q <-> ~ (q < inject_Z k)%Q).
  { intros k. split; [apply Qle_not_lt|apply Qnot_lt_le]. }
  change 18%Q with (inject_Z 18). change 25%Q with (inject_Z 25).
  change 35%Q with (inject_Z 35). change 45%Q with (inject_Z 45).
  rewrite !Hge, <- H18, <- H25, <- H35, <- H45.
  unfold get_age_band. cbv zeta.
  destruct (py_int q <? 18) eqn:E1; [apply Z.ltb_lt in E1|apply Z.ltb_ge in E1].
  { repeat split; try done; try lia; intros; lia. }
  destruct (py_int q <=? 24) eqn:E2; [apply Z.leb_le in E2|apply Z.leb_gt in E2].
  { repeat split; try done; try lia; intros; lia. }
  destruct (py_int q <=? 34) eqn:E3; [apply Z.leb_le in E3|apply Z.leb_gt in E3].
  { repeat split; try done; try lia; intros; lia. }
  destruct (py_int q <=? 44) eqn:E4; [apply Z.leb_le in E4|apply Z.leb_gt in E4].
  { repeat split; try done; try lia; intros; lia. }
  repeat split; try done; try lia; intros; lia.
Qed.

End StageProperties.

(** ** The warning of create_time_midpoint *)

Lemma unique_from_subset (seen l : list cell) (x : cell) : x ∈ unique_from seen l -> x ∈ l.
Proof.
  revert seen. induction l as [|a l IH]; intros seen; [done|]. cbn [unique_from].
  destruct (existsb (cell_eqb a) seen).
  - intros Hx%IH. by right.
  - intros [->|Hx%IH]%elem_of_cons; [by left|by right].
Qed.

Lemma unique_nil (l : list cell) : unique l = [] <-> l = [].
Proof. destruct l as [|a l]; [done|]. split; [|done]. cbn. done. Qed.

Lemma unmapped_bands_spec (band : column) (c : cell) :
  c ∈ unmapped_bands band -> c ∈ band /\ c <> NA /\ time_midpoint c = None.
Proof.
  unfold unmapped_bands. intros Hc%unique_from_subset.
  rewrite (mask_zip_filter (fun b => of_float (time_midpoint b)) (fun m b => isna m && notna b)) in Hc.
  apply list_elem_of_filter in Hc as [Hc Hin]. apply andb_true_iff in Hc as [Hm Hb].
  split; [done|]. split; [by intros ->|]. by destruct (time_midpoint c).
Qed.

Lemma unmapped_bands_nil (band : column) :
  unmapped_bands band = [] <-> Forall (fun c => c = NA \/ is_Some (time_midpoint c)) band.
Proof.
  unfold unmapped_bands. rewrite unique_nil.
  rewrite (mask_zip_filter (fun b => of_float (time_midpoint b)) (fun m b => isna m && notna b)).
  rewrite Forall_forall. split.
  - intros Hnil c Hc. destruct (decide (c = NA)) as [->|Hna]; [by left|]. right.
    destruct (time_midpoint c) as [q|] eqn:E; [by eexists|]. exfalso.
    assert (Hin : c ∈ filter (fun b => isna (of_float (time_midpoint b)) && notna b = true) band).
    { apply list_elem_of_filter. split; [|done]. rewrite E. cbn. by destruct c. }
    rewrite Hnil in Hin. by apply elem_of_nil in Hin.
  - intros Hall. apply filter_none. intros c Hc Hcond.
    apply andb_true_iff in Hcond as [Hm Hb].
    destruct (Hall c Hc) as [->|[q Hq]]; [done|]. by rewrite Hq in Hm.
Qed.

Section TimeBandWarning.
Context `{PandasText}.

(** X7. create_time_midpoint warns exactly when a present band has no midpoint:
    on a table with distinct labels whose bands are all known or missing it
    prints nothing, and the warning it prints otherwise lists only values of
    the band column that are present and have no midpoint. *)
Theorem time_band_warning_is_sound (df : frame) (band : column) (w : world) :
  NoDup (columns df) -> get_col "daily_time_band" df = Some band ->
  exists df' w',
    create_time_midpoint df w = (Ok df', w') /\
    (printed w' = printed w <->
     Forall (fun c => c = NA \/ is_Some (time_midpoint c)) band) /\
    (printed w' = printed w \/
     exists labels, printed w' = (printed w ++ [UnmappedTimeBands labels])%list /\
       labels <> [] /\
       forall c, c ∈ labels -> c ∈ band /\ c <> NA /\ time_midpoint c = None).
Proof.
  intros _ Hband. eexists _, _. split; [by apply create_time_midpoint_run|].
  rewrite <- unmapped_bands_nil.
  destruct (unmapped_bands band) as [|c l] eqn:E; cbn [length Nat.ltb Nat.leb].
  - split; [done|by left].
  - cbn [printed]. split.
    + split; [|done]. intros Heq. exfalso.
      apply (f_equal length) in Heq. rewrite length_app in Heq. cbn in Heq. lia.
    + right. exists (c :: l). split; [done|]. split; [done|].
      intros c' Hc'. apply unmapped_bands_spec. by rewrite E.
Qed.

End TimeBandWarning.

(** ** Quality checks *)

Lemma round_half_even_between (q : Q) (a b : Z) :
  (inject_Z a <= q)%Q -> (q <= inject_Z b)%Q -> a <= round_half_even q <= b.
Proof.
  intros Ha Hb. unfold round_half_even. cbv zeta.
  pose proof (Qfloor_resp_le _ _ Ha) as Hfa. rewrite Qfloor_Z in Hfa.
  pose proof (Qfloor_resp_le _ _ Hb) as Hfb. rewrite Qfloor_Z in Hfb.
  destruct (Qltb (q - inject_Z (Qfloor q)) (1 # 2)) eqn:E; [lia|].
  assert (Hlt : Qfloor q < b).
  { rewrite Zlt_Qlt. apply Qlt_le_trans with q; [|done].
    apply Qltb_ge in E. apply Qlt_minus_iff.
    apply Qlt_le_trans with (1 # 2)%Q; [done|].
    unfold Qminus in E. done. }
  destruct (Qltb (1 # 2) _); [lia|]. destruct (Z.even (Qfloor q)); lia.
Qed.

Lemma py_round_bounds (m n : nat) :
  (1 <= m <= n)%nat ->
  (0 <= py_round (inject_Z (Z.of_nat m) / inject_Z (Z.of_nat n) * 100) 2)%Q /\
  (py_round (inject_Z (Z.of_nat m) / inject_Z (Z.of_nat n) * 100) 2 <= 100)%Q.
Proof.
  intros Hmn. unfold py_round. change (inject_Z (10 ^ Z.of_nat 2)) with 100%Q.
  destruct (round_half_even_between
              (inject_Z (Z.of_nat m) / inject_Z (Z.of_nat n) * 100 * 100) 0 10000) as [H0 H1].
  - apply Qmult_le_0_compat; [|done]. apply Qmult_le_0_compat; [|done].
    apply Qle_shift_div_l.
    + change 0%Q with (inject_Z 0). rewrite <- Zlt_Qlt. lia.
    + rewrite Qmult_0_l. change 0%Q with (inject_Z 0). rewrite <- Zle_Qle. lia.
  - assert (Hle : (inject_Z (Z.of_nat m) / inject_Z (Z.of_nat n) <= 1)%Q).
    { apply Qle_shift_div_r.
      - change 0%Q with (inject_Z 0). rewrite <- Zlt_Qlt. lia.
      - rewrite Qmult_1_l. rewrite <- Zle_Qle. lia. }
    change (inject_Z 10000) with (1 * 100 * 100)%Q.
    apply Qmult_le_compat_r; [|done]. apply Qmult_le_compat_r; [|done]. done.
  - set (r := round_half_even _) in *. split.
    + apply Qle_shift_div_l; [done|]. rewrite Qmult_0_l.
      change 0%Q with (inject_Z 0). by rewrite <- Zle_Qle.
    + apply Qle_shift_div_r; [done|]. change (100 * 100)%Q with (inject_Z 10000).
      by rewrite <- Zle_Qle.
Qed.

Lemma dict_set_fresh {V} (k : string) (v : V) (d : list (string * V)) :
  k ∉ d.*1 -> dict_set k v d = (d ++ [(k, v)])%list.
Proof.
  induction d as [|[k' v'] d IH]; [done|]. cbn [fmap list_fmap fst].
  intros [Hne Hk]%not_elem_of_cons. cbn [dict_set].
  rewrite bool_decide_eq_false_2 by done. by rewrite IH.
Qed.

Lemma omap_cons_unfold {A B} (f : A -> option B) (x : A) (l : list A) :
  omap f (x :: l) = match f x with Some y => y :: omap f l | None => omap f l end.
Proof. done. Qed.

Lemma isna_sum_le (c : column) : (isna_sum c <= length c)%nat.
Proof. apply length_filter. Qed.

Lemma isna_sum_pos (c : column) : (0 < isna_sum c)%nat <-> NA ∈ c.
Proof.
  unfold isna_sum. induction c as [|x c IH]; [split; [simpl; lia|by intros ?%elem_of_nil]|].
  rewrite filter_cons, elem_of_cons. destruct (decide (isna x = true)) as [Hx|Hx].
  - destruct x; try done. cbn [length]. split; [by left|lia].
  - rewrite IH. split; [by right|]. intros [<-|?]; done.
Qed.

Lemma missingness_by_column (df : frame) (stage : string) :
  NoDup (columns df) ->
  Checks.missingness (run_quality_checks df stage) = omap (missing_entry (nrows df)) df.
Proof.
  intros Hnd. unfold run_quality_checks. cbn [Checks.missingness].
  generalize (nrows df). intros n.
  rewrite (frame_by_labels df Hnd) at 2.
  assert (Hgen : forall (l : list string) acc,
            NoDup l -> (forall k, k ∈ l -> k ∉ acc.*1) ->
            (forall k, k ∈ acc.*1 -> k ∉ l) ->
            foldl (fun acc col =>
                     let missing := isna_sum (default [] (get_col col df)) in
                     if (0 <? missing)%nat
                     then dict_set col
                            {| Checks.count := missing;
                               Checks.pct := py_round (inject_Z (Z.of_nat missing)
                                                       / inject_Z (Z.of_nat n) * 100) 2 |} acc
                     else acc) acc l
            = (acc ++ omap (missing_entry n)
                        ((fun X => (X, default [] (get_col X df))) <$> l))%list).
  { induction l as [|k l IH]; intros acc Hl Hfresh Hold; [by rewrite app_nil_r|].
    apply NoDup_cons in Hl as [Hk Hl]. cbn [foldl fmap list_fmap]. cbv zeta.
    rewrite omap_cons_unfold.
    destruct (0 <? isna_sum (default [] (get_col k df)))%nat eqn:E.
    - assert (missing_entry n (k, default [] (get_col k df))
              = Some (k, {| Checks.count := isna_sum (default [] (get_col k df));
                            Checks.pct := py_round
                              (inject_Z (Z.of_nat (isna_sum (default [] (get_col k df))))
                               / inject_Z (Z.of_nat n) * 100) 2 |})) as ->
        by (unfold missing_entry; cbn [fst snd]; by rewrite E).
      rewrite dict_set_fresh by (apply Hfresh; by left). rewrite IH; [|done| |].
      + by rewrite <- app_assoc.
      + intros k' Hk'. rewrite fmap_app, not_elem_of_app. split; [apply Hfresh; by right|].
        cbn. intros ->%list_elem_of_singleton. done.
      + intros k'. rewrite fmap_app, elem_of_app. cbn. intros [Hin| ->%list_elem_of_singleton].
        * apply Hold in Hin. by apply not_elem_of_cons in Hin as [_ ?].
        * done.
    - assert (missing_entry n (k, default [] (get_col k df)) = None) as ->
        by (unfold missing_entry; cbn [fst snd]; by rewrite E).
      rewrite IH; [done|done| |].
      + intros k' Hk'. apply Hfresh. by right.
      + intros k' Hin. apply Hold in Hin. by apply not_elem_of_cons in Hin as [_ ?]. }
  rewrite Hgen; [done|done| |].
  - intros k _. apply not_elem_of_nil.
  - by intros k ?%elem_of_nil.
Qed.

(** X16. run_quality_checks lists under [missingness] exactly the columns that
    hold a missing value, each with the number of its missing values, which
    is at least 1 and at most the row count, and a percentage from 0 to 100;
    on a table without rows it lists nothing, so the percentage never
    divides by zero. *)
Theorem missingness_lists_columns_with_missing_values
    (n : nat) (df : frame) (stage : string) :
  NoDup (columns df) -> rectangular n df ->
  (forall col, col ∈ (Checks.missingness (run_quality_checks df stage)).*1 <->
     exists c, get_col col df = Some c /\ NA ∈ c) /\
  (forall col info, (col, info) ∈ Checks.missingness (run_quality_checks df stage) ->
     exists c, get_col col df = Some c /\
       Checks.count info = isna_sum c /\
       (1 <= Checks.count info <= n)%nat /\
       (0 <= Checks.pct info)%Q /\ (Checks.pct info <= 100)%Q) /\
  (n = 0%nat -> Checks.missingness (run_quality_checks df stage) = []).
Proof.
  intros Hnd Hrect. rewrite (missingness_by_column df stage Hnd).
  assert (Hget : forall k c, (k, c) ∈ df -> get_col k df = Some c).
  { intros k c Hin. rewrite (frame_by_labels df Hnd) in Hin.
    apply list_elem_of_fmap_1 in Hin as (X & [= -> ->] & HX).
    apply get_col_Some_columns in HX as [c Hc]. by rewrite Hc. }
  assert (Hentry : forall col info, (col, info) ∈ omap (missing_entry (nrows df)) df ->
            exists c, (col, c) ∈ df /\ (0 < isna_sum c)%nat /\
              info = {| Checks.count := isna_sum c;
                        Checks.pct := py_round (inject_Z (Z.of_nat (isna_sum c))
                                                / inject_Z (Z.of_nat (nrows df)) * 100) 2 |}).
  { intros col info ([k c] & Hin & Hsome)%list_elem_of_omap. unfold missing_entry in Hsome.
    cbn [fst snd] in Hsome. destruct (0 <? isna_sum c)%nat eqn:E; [|done].
    injection Hsome as <- <-. exists c. split; [done|]. split; [by apply Nat.ltb_lt|done]. }
  assert (Hbound : forall col info, (col, info) ∈ omap (missing_entry (nrows df)) df ->
            exists c, get_col col df = Some c /\
              Checks.count info = isna_sum c /\
              (1 <= Checks.count info <= n)%nat /\
              (0 <= Checks.pct info)%Q /\ (Checks.pct info <= 100)%Q).
  { intros col info (c & Hin & Hpos & ->)%Hentry. exists c.
    pose proof (Hget _ _ Hin) as Hc. split; [done|]. split; [done|]. cbn [Checks.count Checks.pct].
    pose proof (isna_sum_le c) as Hle. rewrite (rect_get n df col c Hrect Hc) in Hle.
    split; [lia|]. rewrite (rect_nrows n df Hrect) by (by intros ->; apply elem_of_nil in Hin).
    apply py_round_bounds. lia. }
  split; [|split; [done|]].
  - intros col. split.
    + intros ([col' info] & -> & Hin)%list_elem_of_fmap_1.
      apply Hentry in Hin as (c & Hin & Hpos & _). exists c. split; [by apply Hget|].
      by apply isna_sum_pos.
    + intros (c & Hc & Hna). apply isna_sum_pos in Hna.
      assert (Hin : (col, c) ∈ df).
      { rewrite (frame_by_labels df Hnd). apply list_elem_of_fmap. exists col.
        rewrite Hc. split; [done|]. apply get_col_Some_columns. by eexists. }
      apply list_elem_of_fmap. eexists (col, _). split; [done|].
      apply list_elem_of_omap. exists (col, c). split; [done|]. unfold missing_entry. cbn [fst snd].
      by rewrite (proj2 (Nat.ltb_lt _ _) Hna).
  - intros ->. clear Hentry. revert Hbound.
    generalize (omap (missing_entry (nrows df)) df). intros [|[col info] l] Hbound; [done|].
    exfalso. destruct (Hbound col info) as (c & _ & _ & Hcount & _); [by left|]. lia.
Qed.

Lemma length_duplicated_from (seen rs : list (list cell)) :
  length (duplicated_from seen rs) = length rs.
Proof. revert seen. induction rs as [|r rs IH]; intros seen; [done|]. simpl. by rewrite IH. Qed.

Lemma lookup_duplicated_from (seen rs : list (list cell)) (j : nat) (r : list cell) :
  rs !! j = Some r ->
  duplicated_from seen rs !! j = Some (existsb (same_row r) (seen ++ take j rs)).
Proof.
  revert seen j. induction rs as [|r0 rs IH]; intros seen j Hj; [done|].
  destruct j as [|j]; cbn [duplicated_from].
  - injection Hj as ->. by rewrite app_nil_r.
  - cbn in Hj. cbn [lookup list_lookup take]. rewrite (IH _ _ Hj). by rewrite <- app_assoc.
Qed.

(** X17. [duplicate_rows] counts the rows that repeat an earlier row: it is
    smaller than the row count on a table that has rows, and it is 0 exactly
    when no row repeats an earlier one. *)
Theorem duplicate_rows_counts_repeats (df : frame) (stage : string) :
  (Checks.duplicate_rows (run_quality_checks df stage)
   = length (filter (fun b => b = true) (duplicated df))) /\
  length (duplicated df) = Checks.row_count (run_quality_checks df stage) /\
  (Checks.row_count (run_quality_checks df stage) = 0%nat \/
   (Checks.duplicate_rows (run_quality_checks df stage)
    < Checks.row_count (run_quality_checks df stage))%nat) /\
  (Checks.duplicate_rows (run_quality_checks df stage) = 0%nat <->
   forall i j ri rj, (i < j)%nat -> rows df !! i = Some ri -> rows df !! j = Some rj ->
     same_row rj ri = false).
Proof.
  cbn [Checks.duplicate_rows Checks.row_count run_quality_checks]. unfold duplicated.
  assert (Hlen : length (rows df) = nrows df) by (unfold rows; by rewrite length_fmap, length_seq).
  split; [done|]. split; [by rewrite length_duplicated_from|]. split.
  - rewrite <- Hlen. destruct (rows df) as [|r rs]; [by left|right].
    cbn [duplicated_from existsb]. rewrite filter_cons, decide_False by done.
    pose proof (length_filter (fun b => b = true) (duplicated_from ([] ++ [r]) rs)) as Hle.
    rewrite length_duplicated_from in Hle. cbn [length]. lia.
  - rewrite length_zero_iff_nil. split.
    + intros Hnil i j ri rj Hij Hi Hj.
      pose proof (lookup_duplicated_from [] _ _ _ Hj) as Hd. cbn [app] in Hd.
      destruct (existsb (same_row rj) (take j (rows df))) eqn:E.
      * exfalso. apply list_elem_of_lookup_2 in Hd.
        assert (Hin : true ∈ filter (fun b => b = true) (duplicated_from [] (rows df)))
          by (by apply list_elem_of_filter).
        rewrite Hnil in Hin. by apply elem_of_nil in Hin.
      * apply not_true_iff_false. intros Hsame. apply not_true_iff_false in E. apply E.
        apply existsb_exists. exists ri. split; [|done]. apply list_elem_of_In.
        apply list_elem_of_lookup. exists i. by rewrite lookup_take_lt.
    + intros Hall. apply filter_none. intros b Hb ->.
      apply list_elem_of_lookup in Hb as [j Hj].
      assert (Hlt : (j < length (rows df))%nat).
      { apply lookup_lt_Some in Hj. by rewrite length_duplicated_from in Hj. }
      apply lookup_lt_is_Some in Hlt as [rj Hrj].
      rewrite (lookup_duplicated_from [] _ _ _ Hrj) in Hj. injection Hj as Hj. cbn [app] in Hj.
      apply existsb_exists in Hj as (ri & Hin%list_elem_of_In & Hsame).
      apply list_elem_of_lookup in Hin as [i Hi].
      assert (Hij : (i < j)%nat).
      { apply lookup_lt_Some in Hi. rewrite length_take in Hi. lia. }
      rewrite lookup_take_lt in Hi by done.
      by rewrite (Hall i j ri rj Hij Hi Hrj) in Hsame.
Qed.

(** ** The data dictionary *)

Lemma dict_of_lookup_Some {V} (items : list (string * V)) (k : string) (v : V) :
  dict_of items !! k = Some v -> (k, v) ∈ items.
Proof.
  unfold dict_of.
  assert (Hgen : forall acc : gmap string V,
            foldl (fun d kv => <[kv.1 := kv.2]> d) acc items !! k = Some v ->
            (k, v) ∈ items \/ acc !! k = Some v).
  { induction items as [|[k0 v0] items IH]; intros acc; [by right|]. cbn [foldl fst snd].
    intros [Hin|Hacc]%IH; [left; by right|].
    destruct (decide (k0 = k)) as [->|Hne].
    - rewrite lookup_insert_eq in Hacc. injection Hacc as ->. left. by left.
    - rewrite lookup_insert_ne in Hacc by done. by right. }
  intros [Hin|Hacc]%Hgen; [done|]. by rewrite lookup_empty in Hacc.
Qed.

Lemma str_length_app (a b : string) :
  String.length (a ++ b) = (String.length a + String.length b)%nat.
Proof.
  induction a as [|c a IH]; [done|]. simpl. f_equal. exact IH.
Qed.

Lemma str_length_substring (n : nat) (s : string) :
  (String.length (substring 0 n s) <= n)%nat.
Proof.
  revert s. induction n as [|n IH]; intros [|c s]; cbn; try lia.
  specialize (IH s). lia.
Qed.

Lemma clean_names_are_known : Forall (fun X => ~ unknown_label X) COLUMN_ITEMS.*2.
Proof. by_compute. Qed.

Lemma dom_column_info : dom column_info = list_to_set ORDERED_COLS.
Proof. by_compute. Qed.

Lemma column_info_known (col : string) : is_Some (column_info !! col) <-> col ∈ ORDERED_COLS.
Proof. by rewrite <- elem_of_dom, dom_column_info, elem_of_list_to_set. Qed.

Lemma reverse_mapping_unknown (col : string) :
  col ∉ COLUMN_ITEMS.*2 -> reverse_mapping !! col = None.
Proof.
  intros Hcol. destruct (reverse_mapping !! col) as [k|] eqn:Hk; [|done]. exfalso.
  apply dict_of_lookup_Some in Hk. apply Hcol.
  apply list_elem_of_fmap_1 in Hk as ([k' c] & [= -> ->] & Hin).
  apply list_elem_of_fmap. by exists (k', c).
Qed.

Lemma original_column_unknown (col : string) :
  col ∉ COLUMN_ITEMS.*2 -> original_column col = EM_DASH.
Proof.
  intros Hcol. unfold original_column. rewrite (reverse_mapping_unknown col Hcol). cbn [default].
  by destruct (bool_decide (EM_DASH = col)).
Qed.

Section DataDictionary.
Context `{PandasText}.

(** X18. The data dictionary documents the columns of the cleaned table: its
    column reference has one row per column, in the order of the table; the
    forty columns the recoder produces are exactly the ones it has an entry
    for; a column it does not know is listed as unknown, with dashes. *)
Theorem data_dictionary_documents_the_cleaned_table :
  (forall col, is_Some (column_info !! col) <-> col ∈ ORDERED_COLS) /\
  (forall now cols n_rows,
     length (data_dictionary_lines now cols n_rows) = (19 + length cols)%nat /\
     forall i col, cols !! i = Some col ->
       data_dictionary_lines now cols n_rows !! (11 + i)%nat = Some (dictionary_row col)) /\
  (forall df out w w',
     transform df w = (Ok out, w') ->
     forall col, col ∈ columns out ->
       (col ∈ ORDERED_COLS /\ is_Some (column_info !! col)) \/
       (unknown_label col /\ dictionary_row col = "| `" ++ col ++ "` | unknown | — | — | — |")).
Proof.
  split; [apply column_info_known|]. split.
  - intros now cols n_rows. unfold data_dictionary_lines. split.
    + rewrite !length_app, length_fmap. cbn [length]. lia.
    + intros i col Hi. rewrite lookup_app_r by (cbn [length]; lia).
      cbn [length]. replace (11 + i - 11)%nat with i by lia.
      rewrite lookup_app_l by (rewrite length_fmap; by eapply lookup_lt_Some).
      by rewrite list_lookup_fmap, Hi.
  - intros df out w w' Hcols%transform_columns col Hcol. rewrite Hcols in Hcol.
    apply elem_of_app in Hcol as [Hcol|[Hun _]%list_elem_of_filter].
    + left. split; [done|]. by apply column_info_known.
    + right. split; [done|]. unfold dictionary_row.
      assert (column_info !! col = None) as ->.
      { destruct (column_info !! col) eqn:E; [|done]. exfalso. apply Hun, elem_of_app. left.
        apply column_info_known. by eexists. }
      rewrite original_column_unknown; [done|].
      intros Hin. pose proof clean_names_are_known as HF. rewrite Forall_forall in HF.
      by apply (HF col Hin).
Qed.

End DataDictionary.

(** X19. The last cell of a row names the survey question a column comes from:
    the reverse mapping inverts the column mapping, the cell holds the first
    50 characters of the question, with three dots after them when it is
    longer, and a dash for a column that is no renamed survey column; the cell
    is never longer than 53 characters. *)
Theorem data_dictionary_names_the_survey_question :
  (forall k clean, COLUMN_MAPPING !! k = Some clean <-> reverse_mapping !! clean = Some k) /\
  (forall k clean, COLUMN_MAPPING !! k = Some clean ->
     original_column clean
     = substring 0 50 k ++ (if (50 <? String.length k)%nat then "..." else "")) /\
  (forall col, col ∉ COLUMN_ITEMS.*2 -> original_column col = EM_DASH) /\
  (forall col, (String.length (original_column col) <= 53)%nat).
Proof.
  assert (Hfwd : forall k clean, COLUMN_MAPPING !! k = Some clean ->
            reverse_mapping !! clean = Some k /\ k <> clean).
  { assert (HF : Forall (fun kv : string * string =>
                           reverse_mapping !! kv.2 = Some kv.1 /\ kv.1 <> kv.2) COLUMN_ITEMS).
    { repeat (apply List.Forall_cons;
              [split; [vm_compute; reflexivity|cbn [fst snd]; discriminate]|]).
      apply List.Forall_nil. }
    intros k clean Hk%elem_of_list_to_map_2. rewrite Forall_forall in HF.
    exact (HF (k, clean) Hk). }
  split; [|split; [|split; [apply original_column_unknown|]]].
  - intros k clean. split; [by intros [? _]%Hfwd|]. intros Hk%dict_of_lookup_Some.
    apply list_elem_of_fmap_1 in Hk as ([k' c] & [= -> ->] & Hin).
    by apply elem_of_list_to_map_1; [apply NoDup_COLUMN_ITEMS|].
  - intros k clean [Hk Hne]%Hfwd. unfold original_column. rewrite Hk. cbn [default].
    by rewrite bool_decide_eq_false_2.
  - intros col. unfold original_column. cbv zeta. rewrite str_length_app.
    pose proof (str_length_substring 50
                  (if bool_decide (default EM_DASH (reverse_mapping !! col) = col)
                   then EM_DASH else default EM_DASH (reverse_mapping !! col))) as Hle.
    destruct (50 <? _)%nat; cbn [String.length]; lia.
Qed.

(** ** The analyzer, continued *)

Lemma get_col_mask_rows (X : string) (m : list bool) (d : frame) :
  get_col X (mask_rows m d) = mask_column m <$> get_col X d.
Proof.
  unfold mask_rows. induction d as [|[k c] d IH]; [done|]. cbn [fmap list_fmap fst snd get_col].
  by destruct (bool_decide (k = X)).
Qed.

Lemma elem_of_mask_column {A} (m : list bool) (c : list A) (v : A) :
  v ∈ mask_column m c <-> exists i, m !! i = Some true /\ c !! i = Some v.
Proof.
  revert c. induction m as [|b m IH]; intros [|x c]; cbn [mask_column].
  - split; [by intros ?%elem_of_nil|by intros (i & ? & _)].
  - split; [by intros ?%elem_of_nil|by intros (i & ? & _)].
  - split; [by intros ?%elem_of_nil|by intros (i & _ & ?)].
  - destruct b.
    + rewrite elem_of_cons, IH. split.
      * intros [->|(i & Hm & Hc)]; [by exists 0%nat|by exists (S i)].
      * intros ([|i] & Hm & Hc); [left; by injection Hc|right; by exists i].
    + rewrite IH. split.
      * intros (i & Hm & Hc). by exists (S i).
      * intros ([|i] & Hm & Hc); [done|by exists i].
Qed.

Lemma Forall_mask_column {A} (P : A -> Prop) (m : list bool) (c : list A) :
  Forall P c -> Forall P (mask_column m c).
Proof.
  rewrite !Forall_forall. intros Hall v (i & _ & Hc)%elem_of_mask_column.
  apply list_elem_of_lookup_2 in Hc. by apply Hall.
Qed.

Lemma mask_column_none {A} (m : list bool) (c : list A) :
  Forall (fun b => b = false) m -> mask_column m c = [].
Proof.
  revert c. induction m as [|b m IH]; intros [|x c] Hm; try done.
  apply Forall_cons in Hm as [-> Hm]. cbn [mask_column]. by apply IH.
Qed.


Lemma length_mask_complete_pairs (a b : column) :
  length (mask_column (complete_pairs a b) a)
  = length (filter (fun xy : cell * cell => notna xy.1 && notna xy.2 = true) (zip a b)) /\
  length (mask_column (complete_pairs a b) b) = length (mask_column (complete_pairs a b) a).
Proof.
  unfold complete_pairs. revert b.
  induction a as [|x a IH]; intros [|y b]; try (split; reflexivity).
  cbn [zip_with zip mask_column]. rewrite filter_cons. cbn [fst snd].
  destruct (IH b) as [IH1 IH2]. destruct (notna x && notna y) eqn:E.
  - rewrite decide_True by done. cbn [length]. split; [by rewrite IH1|by rewrite IH2].
  - rewrite decide_False by done. done.
Qed.

Lemma notna_mask_complete_pairs (a b : column) :
  Forall (fun v => v <> NA) (mask_column (complete_pairs a b) a) /\
  Forall (fun v => v <> NA) (mask_column (complete_pairs a b) b).
Proof.
  unfold complete_pairs. revert b. induction a as [|x a IH]; intros [|y b]; try done.
  cbn [zip_with mask_column]. destruct (IH b) as [IH1 IH2].
  destruct (notna x && notna y) eqn:E; [|done].
  apply andb_true_iff in E as [Hx Hy].
  split; apply Forall_cons; (split; [|done]); by intros ->.
Qed.

(** The Likert assertion passes on a column exactly when it holds a number
    and every number it holds is from 1 to 5. *)
Lemma likert_in_range_spec (x : column) :
  likert_in_range x = true <->
  (exists v q, v ∈ x /\ cell_float v = Some q) /\
  (forall v q, v ∈ x -> cell_float v = Some q -> (1 <= q)%Q /\ (q <= 5)%Q).
Proof.
  unfold likert_in_range.
  pose proof (col_min_spec (cell_float <$> x)) as Hmin.
  pose proof (col_max_spec (cell_float <$> x)) as Hmax.
  destruct (col_min (cell_float <$> x)) as [lo|].
  - destruct Hmin as [Hlo Hmin].
    destruct (col_max (cell_float <$> x)) as [hi|]; [|by destruct (Hmax lo)].
    destruct Hmax as [Hhi Hmax]. rewrite andb_true_iff, !Qle_bool_iff. split.
    + intros [H1 H5]. split.
      * apply list_elem_of_fmap_1 in Hlo as (v & Hv & Hin). by exists v, lo.
      * intros v q Hin Hq. assert (Hq' : Some q ∈ cell_float <$> x)
          by (rewrite <- Hq; by apply list_elem_of_fmap_2).
        split; [eapply Qle_trans; [exact H1|by apply Hmin]|
                eapply Qle_trans; [by apply Hmax|exact H5]].
    + intros [_ Hall].
      apply list_elem_of_fmap_1 in Hlo as (v & Hv & Hin).
      apply list_elem_of_fmap_1 in Hhi as (v' & Hv' & Hin').
      split; [by apply (Hall v lo)|by apply (Hall v' hi)].
  - split; [by destruct (col_max _)|]. intros [(v & q & Hin & Hq) _]. exfalso.
    apply (Hmin q). rewrite <- Hq. by apply list_elem_of_fmap_2.
Qed.

(** On a column of validated Likert cells the assertion asks for one
    answer. *)
Lemma likert_in_range_cells (x : column) :
  Forall likert_cell x -> (likert_in_range x = true <-> exists z, Int z ∈ x).
Proof.
  intros Hall. rewrite Forall_forall in Hall. rewrite likert_in_range_spec. split.
  - intros [(v & q & Hin & Hq) _]. destruct (Hall v Hin) as [->|(z & -> & _)]; [done|by exists z].
  - intros [z Hz]. split; [by exists (Int z), (inject_Z z)|].
    intros v q Hin Hq. destruct (Hall v Hin) as [->|(z' & -> & Hz')]; [done|].
    injection Hq as <-. split.
    + change 1%Q with (inject_Z 1). rewrite <- Zle_Qle. lia.
    + change 5%Q with (inject_Z 5). rewrite <- Zle_Qle. lia.
Qed.

Section AnalyzerFurther.
Context `{Numerics}.

Lemma assert_likert_run (c : string) (df : frame) (x : column) (s : session) :
  get_col c df = Some x ->
  assert_likert c df s = if likert_in_range x then (Ok df, s) else (Err (LikertAssertion c), s).
Proof.
  intros Hx. unfold assert_likert. rewrite (bind_Ok _ _ _ _ _ (col_Some _ _ _ s Hx)).
  by destruct (likert_in_range x).
Qed.

Lemma assert_loop_ok (l : list string) (df : frame) (s : session) :
  (forall c, c ∈ l -> exists x, get_col c df = Some x /\ likert_in_range x = true) ->
  for_each l assert_likert df s = (Ok df, s).
Proof.
  induction l as [|c l IH]; intros Hall; [done|]. cbn [for_each].
  destruct (Hall c ltac:(by left)) as (x & Hx & Hr).
  rewrite (bind_Ok _ _ _ df s); [|by rewrite (assert_likert_run c df x s Hx), Hr].
  apply IH. intros c' Hc'. apply Hall. by right.
Qed.

Lemma assert_loop_inv (l : list string) (df df' : frame) (s s' : session) :
  for_each l assert_likert df s = (Ok df', s') ->
  df' = df /\ s' = s /\
  forall c, c ∈ l -> exists x, get_col c df = Some x /\ likert_in_range x = true.
Proof.
  induction l as [|c l IH]; [by intros [-> ->]%ret_inv; split; [|split; [|intros c ?%elem_of_nil]]|].
  cbn [for_each]. intros (d1 & s1 & H1 & Hrun)%bind_inv.
  destruct (get_col c df) as [x|] eqn:Hx.
  - rewrite (assert_likert_run c df x s Hx) in H1.
    destruct (likert_in_range x) eqn:Hr; [|done]. injection H1 as <- <-.
    destruct (IH Hrun) as (-> & -> & Hall). split; [done|]. split; [done|].
    intros c' [->|Hc']%elem_of_cons; [by exists x|by apply Hall].
  - unfold assert_likert, col in H1. by rewrite Hx in H1.
Qed.

Lemma assert_loop_err (l : list string) (df : frame) (s s' : session) (e : error) :
  (forall c, c ∈ l -> is_Some (get_col c df)) ->
  for_each l assert_likert df s = (Err e, s') ->
  s' = s /\ exists c x, c ∈ l /\ e = LikertAssertion c /\
    get_col c df = Some x /\ likert_in_range x = false.
Proof.
  induction l as [|c l IH]; intros Hhas; [done|]. cbn [for_each]. unfold bind.
  destruct (Hhas c ltac:(by left)) as [x Hx].
  rewrite (assert_likert_run c df x s Hx). destruct (likert_in_range x) eqn:Hr.
  - intros Hrun. destruct IH as (-> & c' & x' & Hc' & Hrest); [|done|].
    + intros c' Hc'. apply Hhas. by right.
    + split; [done|]. exists c', x'. split; [by right|done].
  - intros [= <- <-]. split; [done|]. exists c, x. split; [by left|done].
Qed.

Lemma load_analysis_rows_eq (df_full : frame) (flag band : column) (s : session) :
  get_col "include_in_analysis" df_full = Some flag ->
  get_col "daily_time_band" df_full = Some band ->
  load_analysis_rows df_full s
  = for_each LIKERT_COLS assert_likert (analysis_rows df_full flag band) s.
Proof.
  intros Hflag Hband. unfold load_analysis_rows.
  rewrite (bind_Ok _ _ _ _ _ (col_Some _ _ _ s Hflag)).
  rewrite (bind_Ok _ _ _ (mask_column (eq_True <$> flag) band) s); [done|].
  apply col_Some. by rewrite get_col_mask_rows, Hband.
Qed.

Lemma load_analysis_rows_needs (df_full df : frame) (s s' : session) :
  load_analysis_rows df_full s = (Ok df, s') ->
  exists flag band,
    get_col "include_in_analysis" df_full = Some flag /\
    get_col "daily_time_band" df_full = Some band.
Proof.
  unfold load_analysis_rows.
  intros (flag & s1 & Hflag & Hrun)%bind_inv. apply col_inv in Hflag as [Hflag ->].
  apply bind_inv in Hrun as (band & s2 & Hband & _). apply col_inv in Hband as [Hband _].
  rewrite get_col_mask_rows in Hband.
  destruct (get_col "daily_time_band" df_full) as [band0|]; [|done]. by exists flag, band0.
Qed.

Lemma get_col_analysis_rows (df_full : frame) (flag band : column) (X : string) :
  X <> "daily_time_band" ->
  get_col X (analysis_rows df_full flag band)
  = mask_column (eq_True <$> flag) <$> get_col X df_full.
Proof.
  intros HX. unfold analysis_rows. rewrite get_set_ne by done. apply get_col_mask_rows.
Qed.

Lemma as_categorical_cell (cats : list string) (c : cell) :
  categorical_cell cats (as_categorical cats c).
Proof.
  destruct c as [| | | |k]; try by left. cbn. case_bool_decide; [right; by exists k|by left].
Qed.

(** X20. What the analyzer works on. When the script gets past its first lines,
    the rows it analyses are the rows of the cleaned table flagged for
    analysis, in the same order; the time band is a categorical; and every
    Likert column of those rows holds at least one number, and only numbers
    from 1 to 5. *)
Theorem analysed_rows_are_the_flagged_rows (df_full df : frame) (s s' : session) :
  load_analysis_rows df_full s = (Ok df, s') ->
  s' = s /\
  exists flag,
    get_col "include_in_analysis" df_full = Some flag /\
    (forall X c, X <> "daily_time_band" -> get_col X df_full = Some c ->
       get_col X df = Some (mask_column (eq_True <$> flag) c)) /\
    (exists band, get_col "daily_time_band" df = Some band /\
       Forall (categorical_cell TIME_BAND_ORDER) band) /\
    (forall c, c ∈ LIKERT_COLS ->
       exists x, get_col c df = Some x /\
         (exists v q, v ∈ x /\ cell_float v = Some q) /\
         (forall v q, v ∈ x -> cell_float v = Some q -> (1 <= q)%Q /\ (q <= 5)%Q)).
Proof.
  intros Hrun. destruct (load_analysis_rows_needs _ _ _ _ Hrun) as (flag & band & Hflag & Hband).
  rewrite (load_analysis_rows_eq df_full flag band s Hflag Hband) in Hrun.
  apply assert_loop_inv in Hrun as (-> & -> & Hall). split; [done|].
  exists flag. split; [done|]. split; [|split].
  - intros X c HX Hc. by rewrite get_col_analysis_rows, Hc.
  - eexists. split; [apply get_set_eq|]. apply Forall_fmap, Forall_forall.
    intros c _. apply as_categorical_cell.
  - intros c Hc. destruct (Hall c Hc) as (x & Hx & Hr). exists x. split; [done|].
    by apply likert_in_range_spec.
Qed.

(** X21. With no row flagged for analysis (an empty table included) the script
    stops at its Likert assertion, on the first Likert column, before any
    test is run or any file saved. *)
Theorem analysis_of_no_rows_fails (df_full : frame) (flag : column) (s : session) :
  get_col "include_in_analysis" df_full = Some flag ->
  Forall (fun f => eq_True f = false) flag ->
  is_Some (get_col "daily_time_band" df_full) ->
  is_Some (get_col "purposeless_use" df_full) ->
  run_eda df_full s = (Err (LikertAssertion "purposeless_use"), s).
Proof.
  intros Hflag Hnone [band Hband] [x Hx]. unfold run_eda.
  apply bind_Err. rewrite (load_analysis_rows_eq df_full flag band s Hflag Hband).
  cbn [LIKERT_COLS for_each]. apply bind_Err.
  assert (Hx' : get_col "purposeless_use" (analysis_rows df_full flag band) = Some [])
    by (rewrite get_col_analysis_rows, Hx by done; cbn;
        rewrite mask_column_none; [done|by apply Forall_fmap]).
  by rewrite (assert_likert_run _ _ _ s Hx').
Qed.

(** *** The correlation test *)


(** *** The groups of the group-difference test *)

Lemma sum_list_add {A} (f g : A -> nat) (l : list A) :
  sum_list ((fun k => f k + g k)%nat <$> l) = (sum_list (f <$> l) + sum_list (g <$> l))%nat.
Proof. induction l as [|k l IH]; [done|]. cbn. rewrite IH. lia. Qed.

Lemma sum_list_zero {A} (f : A -> nat) (l : list A) :
  (forall k, k ∈ l -> f k = 0%nat) -> sum_list (f <$> l) = 0%nat.
Proof.
  induction l as [|k l IH]; intros Hall; [done|]. cbn.
  rewrite (Hall k) by (by left). apply IH. intros k' Hk'. apply Hall. by right.
Qed.

Lemma sum_list_one (cats : list string) (k0 : string) :
  NoDup cats -> k0 ∈ cats ->
  sum_list ((fun k => if bool_decide (k0 = k) then 1 else 0)%nat <$> cats) = 1%nat.
Proof.
  induction cats as [|k cats IH]; [by intros _ ?%elem_of_nil|].
  intros [Hk Hnd]%NoDup_cons Hin. cbn. case_bool_decide as Heq.
  - subst k. rewrite sum_list_zero; [done|]. intros k' Hk'.
    rewrite bool_decide_eq_false_2; [done|]. by intros ->.
  - apply elem_of_cons in Hin as [?|Hin]; [done|]. by rewrite IH.
Qed.

Lemma group_sizes_add_up (cats : list string) (g o : column) :
  NoDup cats -> Forall (categorical_cell cats) g ->
  sum_list ((fun k => group_size k g o) <$> cats)
  = length (filter (fun xy : cell * cell => notna xy.1 && notna xy.2 = true) (zip g o)).
Proof.
  intros Hnd. unfold group_size. revert o. induction g as [|x g IH]; intros [|y o] Hg.
  - cbn. by apply sum_list_zero.
  - cbn. by apply sum_list_zero.
  - cbn. by apply sum_list_zero.
  - apply Forall_cons in Hg as [Hx Hg]. cbn [zip zip_with].
    rewrite filter_cons. cbn [fst snd].
    transitivity (sum_list ((fun k => (if cell_eqb x (Str k) && notna y then 1 else 0) +
                     length (filter (fun xy : cell * cell => cell_eqb xy.1 (Str k) && notna xy.2 = true)
                               (zip g o)))%nat <$> cats)).
    { f_equal. apply list_fmap_ext. intros _ k _. rewrite filter_cons. cbn [fst snd].
      destruct (cell_eqb x (Str k) && notna y); [by rewrite decide_True|by rewrite decide_False]. }
    rewrite sum_list_add, (IH o Hg).
    assert (Hone : sum_list ((fun k => if cell_eqb x (Str k) && notna y then 1 else 0)%nat <$> cats)
                   = if notna x && notna y then 1%nat else 0%nat).
    { destruct Hx as [->|(k0 & -> & Hk0)].
      - cbn. by apply sum_list_zero.
      - cbn [notna isna negb andb cell_eqb]. destruct (notna y).
        + etransitivity; [|apply (sum_list_one cats k0 Hnd Hk0)]. f_equal.
          apply list_fmap_ext. intros _ k _. by rewrite andb_true_r.
        + apply sum_list_zero. intros k _. by rewrite andb_false_r. }
    rewrite Hone. destruct (notna x && notna y); [by rewrite decide_True|by rewrite decide_False].
Qed.

Lemma group_values_notna (k : string) (a b : column) :
  Forall (fun v => v <> NA) b -> Forall (fun v => v <> NA) (group_values k a b).
Proof. intros Hb. unfold group_values. by apply Forall_mask_column. Qed.

Lemma sum_list_nonempty (L : list column) :
  sum_list (length <$> filter (fun vals : column => (0 < length vals)%nat) L)
  = sum_list (length <$> L).
Proof.
  induction L as [|vals L IH]; [done|]. rewrite filter_cons.
  destruct (decide (0 < length vals)%nat) as [Hpos|Hpos]; cbn; rewrite IH; lia.
Qed.

(** X24. The groups handed to the Kruskal-Wallis test split the pairwise-complete
    rows: with a categorical grouping column every complete row falls in
    exactly one group, so the group sizes add up to the [n] reported; no
    group is empty and none holds a missing value. *)
Theorem kruskal_groups_split_the_complete_rows
    (cats : list string) (df : frame) (group outcome : string) (g o : column) (s : session) :
  NoDup cats -> get_col group df = Some g -> get_col outcome df = Some o ->
  Forall (categorical_cell cats) g ->
  sum_list (length <$> kruskal_groups cats g o)
    = length (mask_column (complete_pairs g o) g) /\
  Forall (fun vals => vals <> [] /\ Forall (fun v => v <> NA) vals) (kruskal_groups cats g o) /\
  (forall t s', run_kruskal cats df group outcome s = (Ok t, s') ->
     s' = s /\ t_n t = sum_list (length <$> kruskal_groups cats g o) /\
     (2 <= length (kruskal_groups cats g o))%nat).
Proof.
  intros Hnd Hg Ho Hcat.
  assert (Hsum : sum_list (length <$> kruskal_groups cats g o)
                 = length (mask_column (complete_pairs g o) g)).
  { unfold kruskal_groups. cbv zeta. rewrite sum_list_nonempty, <- list_fmap_compose.
    rewrite (proj1 (length_mask_complete_pairs g o)), <- (group_sizes_add_up cats g o Hnd Hcat).
    f_equal. apply list_fmap_ext. intros _ k _. apply group_values_size. }
  split; [done|]. split.
  - unfold kruskal_groups. cbv zeta. apply Forall_forall.
    intros vals [Hpos Hin]%list_elem_of_filter.
    split; [by destruct vals; [simpl in Hpos; lia|]|].
    apply list_elem_of_fmap_1 in Hin as (k & -> & _). apply group_values_notna.
    apply notna_mask_complete_pairs.
  - intros t s'. rewrite (run_kruskal_run cats df group outcome g o s Hg Ho).
    destruct (length (kruskal_groups cats g o) <? 2)%nat eqn:E; [done|].
    apply Nat.ltb_ge in E. destruct (kruskal_statistic _) as [hp|]; [|done].
    intros [= <- <-]. cbn. by rewrite Hsum.
Qed.

End AnalyzerFurther.

(** ** The analyzer on the recoder's output *)

Lemma likert_stored_cells (c : string) (nums : list (option Q)) :
  likert_verdict c nums = None -> Forall likert_cell (likert_stored nums).
Proof.
  rewrite likert_verdict_None. intros Hall. unfold likert_stored.
  apply Forall_fmap, Forall_forall. intros [q|] Hq; [|by left]. right. exists (Qfloor q).
  split; [done|]. destruct (Hall q Hq) as (H1 & H5 & Hwhole).
  unfold is_whole in Hwhole. apply Qeq_bool_iff in Hwhole. rewrite <- Hwhole in H1, H5. split.
  - rewrite (Zle_Qle 1). exact H1.
  - rewrite (Zle_Qle _ 5). exact H5.
Qed.

Lemma LIKERT_COLS_eq : LIKERT_COLS = LIKERT_COLUMNS.
Proof. done. Qed.

Section RecoderThenAnalyzer.
Context `{PandasText} `{Numerics}.

(** The columns of the cleaned table that the analyzer's first lines read. *)
Lemma cleaned_table_for_analysis (df out : frame) (w w' : world) :
  transform df w = (Ok out, w') ->
  (exists uses, get_col "include_in_analysis" out = Some ((fun c => Bool (eq_True c)) <$> uses)) /\
  is_Some (get_col "daily_time_band" out) /\
  forall c, c ∈ LIKERT_COLUMNS -> exists x, get_col c out = Some x /\ Forall likert_cell x.
Proof.
  rewrite transform_split. intros Hrun.
  apply bind_inv in Hrun as (d8 & w8 & H8 & Hfin).
  apply recode_inv in H8 as (Hm & _ & Hsame & _).
  apply finish_inv in Hfin as (-> & d9 & uses & H9 & _ & Hout).
  apply (validate_loop_inv _ _ _ _ _ NoDup_LIKERT_COLUMNS) in H9 as (_ & Hag & Hcols).
  split; [|split].
  - exists uses. by rewrite Hout, get_set_eq.
  - rewrite Hout, get_set_ne by done. rewrite (Hag "daily_time_band") by by_compute.
    rewrite (Hsame "daily_time_band") by by_compute. apply (renamed_has df Hm). by_compute.
  - intros c Hc. destruct (Hcols c Hc) as (raw & _ & Hv & Hst). eexists.
    split; [|by eapply likert_stored_cells].
    rewrite Hout, get_set_ne; [done|]. intros <-. revert Hc. by_compute.
Qed.

Lemma flagged_row (uses : column) (i : nat) :
  (eq_True <$> ((fun c => Bool (eq_True c)) <$> uses)) !! i = Some true <->
  ((fun c => Bool (eq_True c)) <$> uses) !! i = Some (Bool true).
Proof.
  rewrite !list_lookup_fmap. destruct (uses !! i) as [u|]; cbn; [|done].
  split; intros [= ->]; done.
Qed.

(** X22. The analyzer's Likert assertion on the recoder's output. The analyzer
    gets past its first lines on a cleaned table exactly when every Likert
    column holds an answer in at least one row flagged for analysis; the
    recoder accepts a Likert column without any answer, and the analyzer then
    stops at its assertion. Nothing else can stop it there. *)
Theorem analyzer_accepts_cleaned_table (df out : frame) (w w' : world) (s : session) :
  transform df w = (Ok out, w') ->
  exists flag,
    get_col "include_in_analysis" out = Some flag /\
    ((exists rows, load_analysis_rows out s = (Ok rows, s)) <->
     (forall c, c ∈ LIKERT_COLS ->
        exists x i z, get_col c out = Some x /\
                      flag !! i = Some (Bool true) /\ x !! i = Some (Int z))) /\
    (forall e s', load_analysis_rows out s = (Err e, s') ->
       s' = s /\ exists c, c ∈ LIKERT_COLS /\ e = LikertAssertion c).
Proof.
  intros ([uses Hflag] & [band Hband] & Hlik)%cleaned_table_for_analysis.
  exists ((fun c => Bool (eq_True c)) <$> uses). split; [done|].
  rewrite (load_analysis_rows_eq out _ band s Hflag Hband).
  set (flag := (fun c => Bool (eq_True c)) <$> uses) in *.
  assert (Hcol : forall c, c ∈ LIKERT_COLS ->
            exists x, get_col c out = Some x /\
              get_col c (analysis_rows out flag band) = Some (mask_column (eq_True <$> flag) x) /\
              (likert_in_range (mask_column (eq_True <$> flag) x) = true <->
               exists i z, flag !! i = Some (Bool true) /\ x !! i = Some (Int z))).
  { intros c Hc. destruct (Hlik c Hc) as (x & Hx & Hcells). exists x. split; [done|]. split.
    - rewrite get_col_analysis_rows, Hx; [done|]. intros ->. revert Hc. by_compute.
    - rewrite (likert_in_range_cells _ (Forall_mask_column _ _ _ Hcells)). split.
      + intros (z & (i & Hi & Hz)%elem_of_mask_column). exists i, z. split; [|done].
        by apply flagged_row.
      + intros (i & z & Hi & Hz). exists z. apply elem_of_mask_column. exists i.
        split; [|done]. by apply flagged_row. }
  split; [split|].
  - intros (rows & Hrun) c Hc. apply assert_loop_inv in Hrun as (_ & _ & Hall).
    destruct (Hcol c Hc) as (x & Hx & Hx' & Hiff). destruct (Hall c Hc) as (x' & Hx'' & Hr).
    rewrite Hx' in Hx''. injection Hx'' as <-. apply Hiff in Hr as (i & z & Hi & Hz).
    by exists x, i, z.
  - intros Hall. eexists. apply assert_loop_ok. intros c Hc.
    destruct (Hcol c Hc) as (x & Hx & Hx' & Hiff). eexists. split; [exact Hx'|].
    apply Hiff. destruct (Hall c Hc) as (x' & i & z & Hx'' & Hi & Hz).
    rewrite Hx in Hx''. injection Hx'' as <-. by exists i, z.
  - intros e s' Herr. apply assert_loop_err in Herr as (-> & c & x & Hc & -> & _).
    + split; [done|]. by exists c.
    + intros c Hc. destruct (Hcol c Hc) as (x & _ & Hx' & _). by eexists.
Qed.

End RecoderThenAnalyzer.

(** ** The recoder and the analyzer on the example tables *)

(** C1 as stated fails on [survey_fraction_then_six]: the column
    [sleep_issues] holds a present 6, yet the run ends in the cast error of
    the column [purposeless_use], validated first, which holds 3.5; that
    error is no range-validation error and names no column. No file is
    written. *)
Lemma fraction_before_six_raises_cast_error :
  "sleep_issues" ∈ LIKERT_COLUMNS /\
  get_col "sleep_issues" (rename_labels survey_fraction_then_six)
    = Some [Float 6; Float 1; NA] /\
  @to_numeric plain_text (Float 6) = Some (inject_Z 6) /\
  out_of_range (inject_Z 6) /\
  @run_etl plain_text (Some survey_fraction_then_six)
      RAW_DATA_PATH PROCESSED_DATA_PATH DATA_DICTIONARY_PATH ETL_REPORT_PATH fresh
    = (Err UnsafeCast, World [UnmappedTimeBands [Str "All day"]] []) /\
  (forall c, ~ range_error_names UnsafeCast c).
Proof.
  split; [by_compute|]. split; [by vm_compute|]. split; [done|].
  split; [by right|]. split; [by vm_compute|]. intros c. cbn. tauto.
Qed.

(** With whole numbers everywhere, a 6 is reported by the range-validation
    error naming its column, and no file is written. *)
Example six_raises_range_error :
  @run_etl plain_text (Some survey_six)
      RAW_DATA_PATH PROCESSED_DATA_PATH DATA_DICTIONARY_PATH ETL_REPORT_PATH fresh
    = (Err (LikertAbove5 "low_mood_freq" (inject_Z 6)),
       World [UnmappedTimeBands [Str "All day"]] []).
Proof. by vm_compute. Qed.

(** The run on [survey] returns [survey_clean] and writes the three files. *)
Example survey_run :
  (@run_etl plain_text (Some survey)
      RAW_DATA_PATH PROCESSED_DATA_PATH DATA_DICTIONARY_PATH ETL_REPORT_PATH fresh).1
    = Ok survey_clean /\
  (written (@run_etl plain_text (Some survey)
      RAW_DATA_PATH PROCESSED_DATA_PATH DATA_DICTIONARY_PATH ETL_REPORT_PATH fresh).2).*1
    = [PROCESSED_DATA_PATH; DATA_DICTIONARY_PATH; ETL_REPORT_PATH].
Proof. split; by vm_compute. Qed.

(** C2 at [survey]: the answers Yes, No and blank give the flags true, false
    and false. *)
Lemma include_flag_on_survey :
  @transform plain_text survey fresh
    = (Ok survey_clean, World [UnmappedTimeBands [Str "All day"]] []) /\
  get_col "uses_social_media" survey_clean = Some [Bool true; Bool false; NA] /\
  get_col "include_in_analysis" survey_clean = Some [Bool true; Bool false; Bool false].
Proof.
  assert (Hrun : @transform plain_text survey fresh
                 = (Ok survey_clean, World [UnmappedTimeBands [Str "All day"]] []))
    by (vm_compute; reflexivity).
  split; [exact Hrun|].
  destruct (@include_iff_uses_social_media_true plain_text survey survey_clean _ _ Hrun)
    as (raw & Hraw & Huses & Hinc & _).
  vm_compute in Hraw. injection Hraw as <-. split; [exact Huses|exact Hinc].
Defined.

(** C5 at a table of four affiliation answers, one of them missing. *)
Lemma affil_na_on_example :
  exists df',
    @parse_affiliations plain_text
      [("org_affiliations_raw", [Str "University"; NA; Str ""; Str "Goverment"])] fresh
      = (Ok df', fresh) /\
    get_col "affil_na" df' = Some [Int 1; Int 1; Int 1; Int 1].
Proof.
  eexists. split.
  - vm_compute. reflexivity.
  - match goal with |- get_col _ ?df' = _ =>
      destruct (@affil_na_always_one plain_text
                  [("org_affiliations_raw", [Str "University"; NA; Str ""; Str "Goverment"])]
                  df' fresh fresh) as (raw & Hraw & Hna & _) end.
    + vm_compute. reflexivity.
    + vm_compute in Hraw. injection Hraw as <-. exact Hna.
Defined.

(** C8 at a table of three platform answers, one of them missing. *)
Lemma platform_count_on_example :
  exists df',
    @parse_platforms plain_text
      [("platforms_raw", [Str "Facebook, Instagram"; NA; Str "YOUTUBE;tiktok"])] fresh
      = (Ok df', fresh) /\
    get_col "platform_count" df' = Some [Int 2; Int 0; Int 2].
Proof.
  eexists. split.
  - vm_compute. reflexivity.
  - match goal with |- get_col _ ?df' = _ =>
      destruct (@platform_count_is_sum_of_flags plain_text
                  [("platforms_raw", [Str "Facebook, Instagram"; NA; Str "YOUTUBE;tiktok"])]
                  df' fresh fresh) as (raw & Hraw & _ & Hcount & _) end.
    + vm_compute. reflexivity.
    + vm_compute in Hraw. injection Hraw as <-. rewrite Hcount. by vm_compute.
Defined.



(** With nine women and four men no gender group has ten rows: the script
    stops when it draws the gender plot, and no such plot is saved. *)
Example segment_plot_without_groups :
  (@figures toy_numerics segments_few_women (@Session toy_numerics 0 [])).1
    = Err EmptyBoxplot /\
  (saved (@figures toy_numerics segments_few_women (@Session toy_numerics 0 [])).2).*1
    = ["reports/figures/h2_purposeless_vs_mood.png";
       "reports/figures/h5_restless_vs_sleep.png";
       "reports/figures/segment_mood_by_age.png"].
Proof. split; by vm_compute. Qed.

(** ** The further properties on the example tables *)

(** An age beyond 64 bits is neither kept nor made missing: the conversion
    of the column raises. *)
Example clean_age_beyond_int64 :
  @clean_age plain_text [("age", [Int 30; Float (inject_Z (10 ^ 19))])] fresh
  = (Err UnsafeCast, fresh).
Proof. vm_compute. reflexivity. Qed.

(** X15 at [survey_without_rows]: the cleaned table and the data dictionary
    are written, the report is not. *)
Lemma headers_only_leaves_two_files :
  exists out w',
    @run_etl plain_text (Some survey_without_rows)
        RAW_DATA_PATH PROCESSED_DATA_PATH DATA_DICTIONARY_PATH ETL_REPORT_PATH fresh
      = (Err ZeroDivision, w') /\
    nrows out = 0%nat /\
    written w' = [(PROCESSED_DATA_PATH, CleanCsv out);
                  (DATA_DICTIONARY_PATH, DataDictionary (columns out) (nrows out))].
Proof.
  pose proof (@run_etl_writes_its_files_last plain_text survey_without_rows
                RAW_DATA_PATH PROCESSED_DATA_PATH DATA_DICTIONARY_PATH ETL_REPORT_PATH fresh)
    as [Hrun _].
  destruct (@run_etl plain_text (Some survey_without_rows)
              RAW_DATA_PATH PROCESSED_DATA_PATH DATA_DICTIONARY_PATH ETL_REPORT_PATH fresh)
    as [[out|e] w'] eqn:E.
  - vm_compute in E. discriminate E.
  - assert (He : e = ZeroDivision) by (vm_compute in E; by injection E as <- _).
    destruct Hrun as [_ Hrun]. destruct (Hrun He) as (out & w0 & w1 & _ & Hn & Hw).
    exists out, w'. subst e. split; [reflexivity|]. split; [exact Hn|exact Hw].
Defined.

(** X10 at [shuffled_table]. *)
Lemma reorder_twice_on_shuffled_table :
  NoDup (columns shuffled_table) /\
  exists d',
    reorder_columns shuffled_table fresh = (Ok d', fresh) /\
    reorder_columns d' fresh = (Ok d', fresh) /\
    columns d' = ["age"; "sleep_issues"; "respondent_id"].
Proof.
  assert (Hnd : NoDup (columns shuffled_table)) by by_compute.
  split; [exact Hnd|].
  destruct (reorder_columns_idempotent shuffled_table fresh Hnd) as (d' & Hrun & _ & Hagain).
  exists d'. split; [exact Hrun|]. split; [exact Hagain|].
  vm_compute in Hrun. injection Hrun as <-. reflexivity.
Defined.

Lemma reorder_on_shuffled_table :
  NoDup (columns shuffled_table) /\
  exists d',
    reorder_columns shuffled_table fresh = (Ok d', fresh) /\
    d' ≡ₚ shuffled_table /\
    columns d' = ["age"; "sleep_issues"; "respondent_id"].
Proof.
  assert (Hnd : NoDup (columns shuffled_table)) by by_compute.
  split; [exact Hnd|].
  destruct (reorder_columns_is_a_permutation shuffled_table fresh Hnd)
    as (d' & Hrun & Hperm & _ & Hcols).
  exists d'. split; [exact Hrun|]. split; [exact Hperm|]. rewrite Hcols. by vm_compute.
Defined.

Lemma no_lookup_error_on_survey_six :
  @run_etl plain_text (Some survey_six)
      RAW_DATA_PATH PROCESSED_DATA_PATH DATA_DICTIONARY_PATH ETL_REPORT_PATH fresh
    = (Err (LikertAbove5 "low_mood_freq" (inject_Z 6)),
       World [UnmappedTimeBands [Str "All day"]] []) /\
  ~ lookup_error (LikertAbove5 "low_mood_freq" (inject_Z 6)).
Proof.
  assert (Hrun : @run_etl plain_text (Some survey_six)
                   RAW_DATA_PATH PROCESSED_DATA_PATH DATA_DICTIONARY_PATH ETL_REPORT_PATH fresh
                 = (Err (LikertAbove5 "low_mood_freq" (inject_Z 6)),
                    World [UnmappedTimeBands [Str "All day"]] []))
    by (vm_compute; reflexivity).
  split; [exact Hrun|].
  exact (@run_etl_never_lacks_a_column plain_text survey_six _ _ _ _ _ _ _ Hrun).
Defined.

Lemma survey_transform :
  @transform plain_text survey fresh
  = (Ok survey_clean, World [UnmappedTimeBands [Str "All day"]] []).
Proof. vm_compute. reflexivity. Defined.

Lemma no_timestamp_in_survey_clean :
  @transform plain_text survey fresh
    = (Ok survey_clean, World [UnmappedTimeBands [Str "All day"]] []) /\
  ("timestamp" ∉ columns survey_clean) /\ ("gender_raw" ∉ columns survey_clean).
Proof.
  split; [exact survey_transform|].
  exact (@cleaned_table_has_no_timestamp plain_text survey survey_clean _ _ survey_transform).
Defined.

Lemma survey_keeps_its_three_rows :
  rectangular 3 survey /\
  rectangular 3 survey_clean /\ nrows survey_clean = nrows survey.
Proof.
  assert (Hrect : rectangular 3 survey) by by_compute.
  split; [exact Hrect|].
  exact (@transform_keeps_every_row plain_text 3 survey survey_clean _ _ Hrect survey_transform).
Defined.

Lemma survey_clean_columns :
  NoDup (columns (rename_labels survey)) /\
  columns survey_clean = ORDERED_COLS.
Proof.
  assert (Hnd : NoDup (columns (rename_labels survey))) by by_compute.
  split; [exact Hnd|].
  destruct (@cleaned_table_columns plain_text survey survey_clean _ _ Hnd survey_transform)
    as (Hcols & _ & _).
  rewrite Hcols. by vm_compute.
Defined.

Lemma sleep_issues_of_survey_clean :
  "sleep_issues" ∈ LIKERT_COLUMNS /\
  get_col "sleep_issues" survey_clean = Some [Int 5; Int 1; NA] /\
  Forall likert_cell [Int 5; Int 1; NA].
Proof.
  assert (Hc : "sleep_issues" ∈ LIKERT_COLUMNS) by by_compute.
  split; [exact Hc|].
  destruct (@likert_columns_hold_one_to_five plain_text survey survey_clean _ _ survey_transform
              "sleep_issues" Hc) as (raw & Hraw & Hout & Hcells & _).
  vm_compute in Hraw. injection Hraw as <-. split; [exact Hout|exact Hcells].
Defined.

Lemma gender_groups_on_example :
  exists df' grouped,
    @clean_gender plain_text [("gender_raw", [Str " FEMALE "; NA; Str "enby"; Str "??"])] fresh
      = (Ok df', fresh) /\
    get_col "gender_grouped" df' = Some grouped /\
    grouped = [Str "Female"; Str "Prefer not to say"; Str "Non-binary & Other";
               Str "Non-binary & Other"] /\
    ("gender_raw" ∉ columns df').
Proof.
  eexists _, _. split; [vm_compute; reflexivity|].
  match goal with |- get_col _ ?df' = _ /\ _ =>
    destruct (@gender_grouped_is_never_missing plain_text
                [("gender_raw", [Str " FEMALE "; NA; Str "enby"; Str "??"])] df' fresh fresh)
      as (raw & grouped & _ & _ & Hdrop & Hg & _) end.
  - vm_compute. reflexivity.
  - split; [reflexivity|]. split; [reflexivity|exact Hdrop].
Defined.

Lemma platform_bounds_on_example :
  exists df' count,
    @parse_platforms plain_text
      [("platforms_raw", [Str "Facebook, YouTube, TikTok"; NA; Str "none"])] fresh
      = (Ok df', fresh) /\
    get_col "platform_count" df' = Some count /\
    count = [Int 3; Int 0; Int 0] /\
    Forall (fun c => exists z, c = Int z /\ 0 <= z <= 9) count.
Proof.
  eexists _, _. split; [vm_compute; reflexivity|].
  match goal with |- get_col _ ?df' = _ /\ _ =>
    destruct (@platform_count_is_between_0_and_9 plain_text
                [("platforms_raw", [Str "Facebook, YouTube, TikTok"; NA; Str "none"])]
                df' fresh fresh) as (raw & count & _ & _ & _ & Hc & _ & Hb) end.
  - vm_compute. reflexivity.
  - split; [reflexivity|]. split; [reflexivity|].
    vm_compute in Hc. injection Hc as <-. exact Hb.
Defined.

Lemma affiliation_flags_on_example :
  exists df',
    @parse_affiliations plain_text
      [("org_affiliations_raw", [Str "Goverment"; NA; Str "School, Private"])] fresh
      = (Ok df', fresh) /\
    get_col "affil_government" df' = Some [Int 1; Int 0; Int 0] /\
    get_col "affil_school" df' = Some [Int 0; Int 0; Int 1].
Proof.
  eexists. split; [vm_compute; reflexivity|].
  match goal with |- get_col _ ?df' = _ /\ _ =>
    destruct (@affiliation_flags_by_substring plain_text
                [("org_affiliations_raw", [Str "Goverment"; NA; Str "School, Private"])]
                df' fresh fresh) as (raw & Hraw & _ & _ & Hflags & _) end.
  - vm_compute. reflexivity.
  - vm_compute in Hraw. injection Hraw as <-. split.
    + etransitivity;
        [exact (Hflags "government" ["Government"; "Goverment"] ltac:(by_compute))|].
      by vm_compute.
    + etransitivity; [exact (Hflags "school" ["School"] ltac:(by_compute))|]. by vm_compute.
Defined.

Lemma missingness_of_survey_clean :
  NoDup (columns survey_clean) /\ rectangular 3 survey_clean /\
  (Checks.missingness (run_quality_checks survey_clean "processed")).*1
    = ["age"; "uses_social_media"; "daily_hours_midpoint"; "sleep_issues";
       "platforms_raw"; "org_affiliations_raw"] /\
  forall col info,
    (col, info) ∈ Checks.missingness (run_quality_checks survey_clean "processed") ->
    (1 <= Checks.count info <= 3)%nat.
Proof.
  assert (Hnd : NoDup (columns survey_clean)) by by_compute.
  assert (Hrect : rectangular 3 survey_clean) by by_compute.
  split; [exact Hnd|]. split; [exact Hrect|]. split; [by vm_compute|].
  intros col info Hin.
  destruct (missingness_lists_columns_with_missing_values 3 survey_clean "processed" Hnd Hrect)
    as (_ & Hbound & _).
  destruct (Hbound col info Hin) as (c & _ & _ & Hcount & _). exact Hcount.
Defined.

Lemma analysed_rows_of_survey_clean :
  exists df,
    @load_analysis_rows toy_numerics survey_clean (@Session toy_numerics 0 [])
      = (Ok df, @Session toy_numerics 0 []) /\
    get_col "include_in_analysis" survey_clean = Some [Bool true; Bool false; Bool false] /\
    get_col "age_band" df = Some [Str "18-24"] /\
    get_col "sleep_issues" df = Some [Int 5].
Proof.
  eexists. split; [vm_compute; reflexivity|].
  match goal with |- _ /\ get_col _ ?df = _ /\ _ =>
    destruct (@analysed_rows_are_the_flagged_rows toy_numerics survey_clean df
                (@Session toy_numerics 0 []) (@Session toy_numerics 0 []))
      as (_ & flag & Hflag & Hrows & _) end.
  - vm_compute. reflexivity.
  - vm_compute in Hflag. injection Hflag as <-. split; [reflexivity|]. split.
    + rewrite (Hrows "age_band" [Str "18-24"; Str "45+"; Str "Unknown"]); [reflexivity|done|].
      by vm_compute.
    + rewrite (Hrows "sleep_issues" [Int 5; Int 1; NA]); [reflexivity|done|]. by vm_compute.
Defined.

Lemma analysis_of_no_users_fails :
  get_col "include_in_analysis" no_users = Some [Bool false; Bool false] /\
  @run_eda toy_numerics no_users (@Session toy_numerics 0 [])
    = (Err (LikertAssertion "purposeless_use"), @Session toy_numerics 0 []).
Proof.
  split; [reflexivity|].
  apply (@analysis_of_no_rows_fails toy_numerics no_users [Bool false; Bool false]).
  - reflexivity.
  - by_compute.
  - by eexists.
  - by eexists.
Defined.

Lemma kruskal_groups_of_two_bands :
  NoDup TIME_BAND_ORDER /\
  Forall (categorical_cell TIME_BAND_ORDER)
    [Str "More than 5 hours"; Str "Less than an Hour"; Str "More than 5 hours"; NA;
     Str "Less than an Hour"] /\
  kruskal_groups TIME_BAND_ORDER
    [Str "More than 5 hours"; Str "Less than an Hour"; Str "More than 5 hours"; NA;
     Str "Less than an Hour"]
    [Int 3; Int 4; NA; Int 2; Int 1]
    = [[Int 4; Int 1]; [Int 3]] /\
  sum_list (length <$> [[Int 4; Int 1]; [Int 3]])
    = length (mask_column
                (complete_pairs
                   [Str "More than 5 hours"; Str "Less than an Hour"; Str "More than 5 hours";
                    NA; Str "Less than an Hour"]
                   [Int 3; Int 4; NA; Int 2; Int 1])
                [Str "More than 5 hours"; Str "Less than an Hour"; Str "More than 5 hours";
                 NA; Str "Less than an Hour"]).
Proof.
  assert (Hnd : NoDup TIME_BAND_ORDER) by by_compute.
  assert (Hcat : Forall (categorical_cell TIME_BAND_ORDER)
                   [Str "More than 5 hours"; Str "Less than an Hour"; Str "More than 5 hours";
                    NA; Str "Less than an Hour"]).
  { repeat (apply List.Forall_cons;
            [first [by left | right; eexists; split; [reflexivity|by_compute]]|]).
    apply List.Forall_nil. }
  split; [exact Hnd|]. split; [exact Hcat|]. split; [by vm_compute|].
  destruct (@kruskal_groups_split_the_complete_rows toy_numerics TIME_BAND_ORDER two_bands
              "daily_time_band" "low_mood_freq" _ _ (@Session toy_numerics 0 [])
              Hnd eq_refl eq_refl Hcat) as (Hsum & _).
  exact Hsum.
Defined.

Lemma analyzer_accepts_survey_clean :
  exists flag,
    get_col "include_in_analysis" survey_clean = Some flag /\
    ((exists rows, @load_analysis_rows toy_numerics survey_clean (@Session toy_numerics 0 [])
                   = (Ok rows, @Session toy_numerics 0 [])) <->
     (forall c, c ∈ LIKERT_COLS ->
        exists x i z, get_col c survey_clean = Some x /\
                      flag !! i = Some (Bool true) /\ x !! i = Some (Int z))).
Proof.
  destruct (@analyzer_accepts_cleaned_table plain_text toy_numerics survey survey_clean _ _
              (@Session toy_numerics 0 []) survey_transform) as (flag & Hflag & Hiff & _).
  exists flag. split; [exact Hflag|exact Hiff].
Defined.

Lemma time_band_warning_on_example :
  exists df' w',
    create_time_midpoint
      [("daily_time_band", [Str "Less than an Hour"; Str "All day"; NA; Str "All day"])] fresh
      = (Ok df', w') /\
    printed w' = [UnmappedTimeBands [Str "All day"]].
Proof.
  destruct (time_band_warning_is_sound
              [("daily_time_band", [Str "Less than an Hour"; Str "All day"; NA; Str "All day"])]
              [Str "Less than an Hour"; Str "All day"; NA; Str "All day"] fresh
              ltac:(by_compute) eq_refl)
    as (df' & w' & Hrun & _ & _).
  exists df', w'. split; [exact Hrun|].
  vm_compute in Hrun. injection Hrun as _ <-. reflexivity.
Defined.
